(** * Loongson-3 virtual platform: LS7A host bridge and boot-table builder

    A shallow embedding of [hw/pci-host/ls7a.c] and
    [hw/mips/mips_loongson3.c], and the properties of the platform
    specification that are decided by that code.

    Conventions.  C integers are [Z] with their wrap-around written out
    ([unsigned long] and [uint64_t] are 64 bits wide, [uint32_t] 32 bits:
    an LP64 host).  Byte arrays are [list Z] updated in place with stdpp's
    list insert; C strings are [string].  Calls that leave the two files
    (image loaders, the PCI core, the CPU core, the run-state signals) are
    either parameters or logged as events of the machine. *)

From Stdlib Require Import ZArith List String Lia.
From stdpp Require Import base option list gmap strings pretty.

Local Open Scope Z_scope.

(** ** Fixed-width integers *)

Definition u8  (x : Z) : Z := x mod 2^8.
Definition u16 (x : Z) : Z := x mod 2^16.
Definition u32 (x : Z) : Z := x mod 2^32.
Definition u64 (x : Z) : Z := x mod 2^64.

(** Run a block of C statements, each a state transformer, in order. *)
Definition run_stmts {A : Type} (stmts : list (A -> A)) (a : A) : A :=
  fold_left (fun acc stmt => stmt acc) stmts a.

(** ** The LS7A north bridge, [hw/pci-host/ls7a.c] *)

Module Ls7a.

(** Modelled from the spec: the register offsets of the standardized
    configuration space ([pci_regs.h]) are not part of the sources under
    study.  The six base-address registers are the consecutive 32-bit
    registers from 0x10; the CardBus CIS pointer follows them and the
    interrupt-pin byte sits at 0x3d. *)
Definition PCI_BASE_ADDRESS_0 : Z := 0x10.
Definition PCI_BASE_ADDRESS_1 : Z := 0x14.
Definition PCI_BASE_ADDRESS_2 : Z := 0x18.
Definition PCI_BASE_ADDRESS_3 : Z := 0x1c.
Definition PCI_BASE_ADDRESS_4 : Z := 0x20.
Definition PCI_BASE_ADDRESS_5 : Z := 0x24.
Definition PCI_CARDBUS_CIS    : Z := 0x28.
Definition PCI_INTERRUPT_PIN  : Z := 0x3d.
Definition PCI_CONFIG_SPACE_SIZE : Z := 0x100.

(** The part of [PCIDevice] the bridge code touches: the bus address and
    the three byte arrays of configuration space. *)
Record PCIDevice := mkPCIDevice {
  devfn  : Z;
  config : list Z;
  cmask  : list Z;
  wmask  : list Z
}.

(** Modelled from the spec: the accessors of [hw/pci/pci.h] are not part
    of the sources under study.  Configuration space is a byte array and
    its 16- and 32-bit registers are stored least significant byte
    first. *)
Definition pci_set_byte (a : list Z) (off val : Z) : list Z :=
  <[Z.to_nat off := u8 val]> a.

Definition pci_set_word (a : list Z) (off val : Z) : list Z :=
  pci_set_byte (pci_set_byte a off val) (off + 1) (Z.shiftr val 8).

Definition pci_set_long (a : list Z) (off val : Z) : list Z :=
  pci_set_word (pci_set_word a off val) (off + 2) (Z.shiftr val 16).

Definition pci_get_byte (a : list Z) (off : Z) : Z :=
  default 0 (a !! Z.to_nat off).

Definition pci_get_word (a : list Z) (off : Z) : Z :=
  Z.lor (pci_get_byte a off) (Z.shiftl (pci_get_byte a (off + 1)) 8).

Definition pci_get_long (a : list Z) (off : Z) : Z :=
  Z.lor (pci_get_word a off) (Z.shiftl (pci_get_word a (off + 2)) 16).

(** [f(dev->config + off, val)], [f(dev->wmask + off, val)] and
    [f(dev->cmask + off, val)] as transformers of the device. *)
Definition on_config (f : list Z -> Z -> Z -> list Z) (off val : Z)
    (dev : PCIDevice) : PCIDevice :=
  mkPCIDevice (devfn dev) (f (config dev) off val) (cmask dev) (wmask dev).

Definition on_wmask (f : list Z -> Z -> Z -> list Z) (off val : Z)
    (dev : PCIDevice) : PCIDevice :=
  mkPCIDevice (devfn dev) (config dev) (cmask dev) (f (wmask dev) off val).

Definition on_cmask (f : list Z -> Z -> Z -> list Z) (off val : Z)
    (dev : PCIDevice) : PCIDevice :=
  mkPCIDevice (devfn dev) (config dev) (f (cmask dev) off val) (wmask dev).

(** [ls7a_reset]: the handler registered with [qemu_register_reset] by
    [ls7a_realize].  [wmask = ~(-1)] is 0. *)
Definition ls7a_reset (dev : PCIDevice) : PCIDevice :=
  let wmask := u64 (Z.lnot (-1)) in
  run_stmts [
    on_config pci_set_word 0x0 0x0014;
    on_wmask  pci_set_word 0x0 (Z.land wmask 0xffff);
    on_cmask  pci_set_word 0x0 0xffff;
    on_config pci_set_word 0x2 0x7a00;
    on_wmask  pci_set_word 0x2 (Z.land wmask 0xffff);
    on_cmask  pci_set_word 0x2 0xffff;
    on_config pci_set_word 0x4 0x0000;
    on_config pci_set_word 0x6 0x0010;
    on_wmask  pci_set_word 0x6 (Z.land wmask 0xffff);
    on_cmask  pci_set_word 0x6 0xffff;
    on_config pci_set_byte 0x8 0x00;
    on_wmask  pci_set_byte 0x8 (Z.land wmask 0xff);
    on_cmask  pci_set_byte 0x8 0xff;
    on_config pci_set_byte 0x9 0x00;
    on_wmask  pci_set_byte 0x9 (Z.land wmask 0xff);
    on_cmask  pci_set_byte 0x9 0xff;
    on_config pci_set_byte 0xa 0x00;
    on_wmask  pci_set_byte 0xa (Z.land wmask 0xff);
    on_cmask  pci_set_byte 0xa 0xff;
    on_config pci_set_byte 0xb 0x06;
    on_wmask  pci_set_byte 0xb (Z.land wmask 0xff);
    on_cmask  pci_set_byte 0xb 0xff;
    on_config pci_set_byte 0xc 0x00;
    on_wmask  pci_set_byte 0xc (Z.land wmask 0xff);
    on_cmask  pci_set_byte 0xc 0xff;
    on_config pci_set_byte 0xe 0x80;
    on_wmask  pci_set_byte 0xe (Z.land wmask 0xff);
    on_cmask  pci_set_byte 0xe 0xff;
    on_config pci_set_long PCI_BASE_ADDRESS_0 0x0;
    on_wmask  pci_set_long PCI_BASE_ADDRESS_0 (Z.land wmask 0xffffffff);
    on_cmask  pci_set_long PCI_BASE_ADDRESS_0 0xffffffff;
    on_config pci_set_long PCI_BASE_ADDRESS_1 0x0;
    on_wmask  pci_set_long PCI_BASE_ADDRESS_1 (Z.land wmask 0xffffffff);
    on_cmask  pci_set_long PCI_BASE_ADDRESS_1 0xffffffff;
    on_config pci_set_long PCI_BASE_ADDRESS_2 0x0;
    on_wmask  pci_set_long PCI_BASE_ADDRESS_2 (Z.land wmask 0xffffffff);
    on_cmask  pci_set_long PCI_BASE_ADDRESS_2 0xffffffff;
    on_config pci_set_long PCI_BASE_ADDRESS_3 0x00000004;
    on_wmask  pci_set_long PCI_BASE_ADDRESS_3 (Z.land wmask 0xffffffff);
    on_cmask  pci_set_long PCI_BASE_ADDRESS_3 0xffffffff;
    on_config pci_set_long PCI_BASE_ADDRESS_4 0x0;
    on_wmask  pci_set_long PCI_BASE_ADDRESS_4 (Z.land wmask 0xffffffff);
    on_cmask  pci_set_long PCI_BASE_ADDRESS_4 0xffffffff;
    on_config pci_set_long PCI_BASE_ADDRESS_5 0x0;
    on_wmask  pci_set_long PCI_BASE_ADDRESS_5 (Z.land wmask 0xffffffff);
    on_cmask  pci_set_long PCI_BASE_ADDRESS_5 0xffffffff;
    on_config pci_set_word PCI_CARDBUS_CIS 0x0000;
    on_config pci_set_word 0x2c 0x0014;
    on_wmask  pci_set_word 0x2c (Z.land wmask 0xffff);
    on_cmask  pci_set_word 0x2c 0xffff;
    on_config pci_set_word 0x2e 0x7a00;
    on_wmask  pci_set_word 0x2e (Z.land wmask 0xffff);
    on_cmask  pci_set_word 0x2e 0xffff;
    on_config pci_set_byte 0x34 0x40;
    on_wmask  pci_set_byte 0x34 (Z.land wmask 0xff);
    on_cmask  pci_set_byte 0x34 0xff;
    on_config pci_set_byte 0x3c 0x00;
    on_config pci_set_byte 0x3d 0x00;
    on_wmask  pci_set_byte 0x3d (Z.land wmask 0xff);
    on_config pci_set_word 0x3e 0x0000;
    on_config pci_set_byte 0x4c 0x60;
    on_wmask  pci_set_byte 0x4c (Z.land wmask 0xff)
  ] dev.

(** The internal register window: [ls7a_readl] returns [regs[addr >> 2]],
    [ls7a_writel] has an empty body. *)
Definition NR_REGS : Z := Z.shiftr 0xE0 2.

Definition ls7a_readl (regs : list Z) (addr : Z) : Z :=
  let saddr := u32 (Z.shiftr addr 2) in
  default 0 (regs !! Z.to_nat saddr).

Definition ls7a_writel (regs : list Z) (addr val : Z) : list Z := regs.

(** [pci_ls7a_map_irq].  C's [%] truncates towards zero: [Z.rem]. *)
Definition virq : list Z := [3; 4; 5; 6; 7; 9; 10; 11].

Definition pci_ls7a_map_irq (d : PCIDevice) (irq_num : Z) : Z :=
  let slot := Z.shiftr (devfn d) 3 in
  let pin := pci_get_byte (config d) PCI_INTERRUPT_PIN in
  default 0 (virq !! Z.to_nat (Z.rem (pin + slot) 8)).

(** The extended configuration window.  [pci_data_read] and
    [pci_data_write] belong to the PCI core; the bus they work on is an
    arbitrary state [Bus]. *)
Section ConfigWindow.
Variable Bus : Type.
Variable pci_data_read : Bus -> Z -> Z -> Z.
Variable pci_data_write : Bus -> Z -> Z -> Z -> Bus.

Definition ls7a_pci_config_read (opaque : Bus) (addr size : Z) : Z :=
  let tmp_addr :=
    if decide (Z.land addr 0x1000000 <> 0)
    then Z.land addr 0xffff
    else Z.land addr 0xffffff in
  let val := pci_data_read opaque tmp_addr size in
  val.

Definition ls7a_pci_config_write (opaque : Bus) (addr val size : Z) : Bus :=
  let tmp_addr :=
    if decide (Z.land addr 0x1000000 <> 0)
    then Z.land addr 0xffff
    else Z.land addr 0xffffff in
  pci_data_write opaque tmp_addr val size.
End ConfigWindow.

Definition HT1LO_PCICFG_BASE : Z := 0x1a000000.
Definition HT1LO_PCICFG_SIZE : Z := 0x02000000.

End Ls7a.


(** ** The Loongson-3 board, [hw/mips/mips_loongson3.c] *)

Module Loongson3.

Definition MiB : Z := 0x100000.

Definition INITRD_OFFSET     : Z := 0x03ea0000.
Definition BOOTPARAM_ADDR    : Z := 0x8ff00000.
Definition BOOTPARAM_PHYADDR : Z := 0x0ff00000.
Definition CFG_ADDR          : Z := 0x0f100000.
Definition FW_CONF_ADDR      : Z := 0x0fff0000.
Definition PM_MMIO_ADDR      : Z := 0x0e0010080000.
Definition PM_MMIO_SIZE      : Z := 0x100.
Definition PM_CNTL_MODE      : Z := 0x10.

(** [PHYS_TO_VIRT(x)] with a 64-bit [target_ulong]. *)
Definition PHYS_TO_VIRT (x : Z) : Z := Z.lor x (u64 (Z.lnot 0x7fffffff)).

Definition BIOS_SIZE : Z := 2 * MiB.
Definition LOONGSON_MAX_VCPUS : Z := 16.
Definition LOONGSON3_BIOSNAME : string := "bios_loongson3.bin".

Definition VIRT_PCI_MEM_BASE : Z := 0x40000000.
Definition VIRT_PCI_MEM_SIZE : Z := 0x40000000.
Definition VIRT_PCI_IO_BASE  : Z := 0x18000000.
Definition VIRT_PCI_IO_SIZE  : Z := 0x000c0000.

(** [#define align(x) (((x) + 63) & ~63)].  The macro works in the type of
    its operand, which is [size_t] at every use: the sum wraps at 64 bits
    and [~63] is converted to that type. *)
Definition align (x : Z) : Z := Z.land (u64 (x + 63)) (u64 (Z.lnot 63)).

(** Modelled from the spec: [INITRD_PAGE_MASK] ([hw/mips/mips.h]) and the
    bit numbers [CP0St_BEV], [CP0St_ERL] of the CP0 Status register
    ([target/mips/cpu.h]) are not part of the sources under study.  The
    ram-disk is aligned to the 64 KiB pages a MIPS kernel may be configured
    with; BEV is bit 22 and ERL bit 2 of Status. *)
Definition INITRD_PAGE_MASK : Z := Z.lnot (Z.shiftl 1 16 - 1).
Definition CP0St_BEV : Z := 22.
Definition CP0St_ERL : Z := 2.

(** *** The records of the boot-info chain *)

Record mem_map := mk_mem_map {
  node_id   : Z;
  mem_type  : Z;
  mem_start : Z;
  mem_size  : Z
}.

Record efi_memory_map_loongson := mk_efi_memory_map_loongson {
  emap_vers : Z;
  nr_map    : Z;
  mem_freq  : Z;
  map       : list mem_map
}.

Definition Loongson_3A : Z := 0x300.

Record efi_cpuinfo_loongson := mk_efi_cpuinfo_loongson {
  cpuinfo_vers        : Z;
  processor_id        : Z;
  cputype             : Z;
  total_node          : Z;
  cpu_startup_core_id : Z;
  reserved_cores_mask : Z;
  cpu_clock_freq      : Z;
  nr_cpus             : Z;
  cpuname             : string
}.

Definition MAX_UARTS : Z := 64.
Record uart_device := mk_uart_device {
  iotype     : Z;
  uartclk    : Z;
  int_offset : Z;
  uart_base  : Z
}.

Definition MAX_SENSORS : Z := 64.
Record sensor_device := mk_sensor_device {
  sensor_name  : string;
  sensor_label : string;
  sensor_type  : Z;
  sensor_id    : Z;
  fan_policy   : Z;
  fan_percent  : Z;
  base_addr    : Z
}.

Record system_loongson := mk_system_loongson {
  system_vers         : Z;
  ccnuma_smp          : Z;
  sing_double_channel : Z;
  nr_uarts            : Z;
  uarts               : list uart_device;
  nr_sensors          : Z;
  sensors             : list sensor_device;
  has_ec              : Z;
  ec_name             : string;
  ec_base_addr        : Z;
  has_tcm             : Z;
  tcm_name            : string;
  tcm_base_addr       : Z;
  workarounds         : Z;
  of_dtb_addr         : Z
}.

Record irq_source_routing_table := mk_irq_source_routing_table {
  irq_vers           : Z;
  irq_size           : Z;
  rtr_bus            : Z;
  rtr_devfn          : Z;
  vendor             : Z;
  device             : Z;
  PIC_type           : Z;
  ht_int_bit         : Z;
  ht_enable          : Z;
  irq_node_id        : Z;
  pci_mem_start_addr : Z;
  pci_mem_end_addr   : Z;
  pci_io_start_addr  : Z;
  pci_io_end_addr    : Z;
  pci_config_addr    : Z;
  dma_mask_bits      : Z;
  dma_noncoherent    : Z
}.

Record interface_info := mk_interface_info {
  interface_vers : Z;
  interface_size : Z;
  flag           : Z;
  description    : string
}.

Definition MAX_RESOURCE_NUMBER : Z := 128.
Record resource_loongson := mk_resource_loongson {
  res_start : Z;
  res_end   : Z;
  res_name  : string;
  res_flags : Z
}.

Record board_devices := mk_board_devices {
  name          : string;
  num_resources : Z;
  bd_resource   : list resource_loongson
}.

Record loongson_special_attribute := mk_loongson_special_attribute {
  special_vers          : Z;
  special_name          : string;
  loongson_special_type : Z;
  special_resource      : list resource_loongson
}.

Record loongson_params := mk_loongson_params {
  memory_offset         : Z;
  cpu_offset            : Z;
  system_offset         : Z;
  irq_offset            : Z;
  interface_offset      : Z;
  special_offset        : Z;
  boarddev_table_offset : Z
}.

Record efi_reset_system_t := mk_efi_reset_system_t {
  ResetCold : Z;
  ResetWarm : Z;
  ResetType : Z;
  Shutdown  : Z;
  DoSuspend : Z
}.

(** [sizeof] of the records on an LP64 host.  A packed struct has no
    padding between its members; the nested [struct mem_map] is not itself
    packed, so it keeps its trailing padding. *)
Definition sizeof_mem_map : Z := 4 + 4 + 8 + 4 + 4.
Definition sizeof_efi_memory_map_loongson : Z := 2 + 4 + 4 + 128 * sizeof_mem_map.
Definition sizeof_efi_cpuinfo_loongson : Z := 2 + 4 + 4 + 4 + 2 + 2 + 4 + 4 + 64.
Definition sizeof_uart_device : Z := 4 + 4 + 4 + 8.
Definition sizeof_sensor_device : Z := 32 + 64 + 4 + 4 + 4 + 4 + 8.
Definition sizeof_system_loongson : Z :=
  2 + 4 + 4 + 4 + MAX_UARTS * sizeof_uart_device
  + 4 + MAX_SENSORS * sizeof_sensor_device
  + 1 + 32 + 8 + 1 + 32 + 8 + 8 + 8.
Definition sizeof_irq_source_routing_table : Z :=
  2 + 2 + 2 + 2 + 4 + 4 + 4 + 8 + 8 + 4 + 8 + 8 + 8 + 8 + 8 + 2 + 2.
Definition sizeof_interface_info : Z := 2 + 2 + 1 + 64.
Definition sizeof_resource_loongson : Z := 8 + 8 + 64 + 4 + 4.
Definition sizeof_board_devices : Z :=
  64 + 4 + 4 + MAX_RESOURCE_NUMBER * sizeof_resource_loongson.
Definition sizeof_loongson_special_attribute : Z :=
  2 + 64 + 2 + 4 + MAX_RESOURCE_NUMBER * sizeof_resource_loongson.
Definition sizeof_loongson_params : Z := 7 * 8.
Definition sizeof_smbios_tables : Z := 2 + 6 + 8 + sizeof_loongson_params.
Definition sizeof_efi_reset_system_t : Z := 5 * 8.
Definition sizeof_efi_loongson : Z := 8 + 8 + 8 + sizeof_smbios_tables + 8 + 8.
Definition sizeof_boot_params : Z := sizeof_efi_loongson + sizeof_efi_reset_system_t.

Definition offsetof_boot_params_efi : Z := 0.
Definition offsetof_boot_params_reset_system : Z := sizeof_efi_loongson.
Definition offsetof_efi_loongson_smbios : Z := 8 + 8 + 8.
Definition offsetof_smbios_tables_lp : Z := 2 + 6 + 8.

(** *** Host memory

    The parameter buffer comes zeroed from [g_malloc0].  It is kept as a
    store of typed objects, keyed by the host address the code reaches each
    one through; an address without an object still holds zeroes. *)
Inductive object :=
| Obj_uint (v : Z)
| Obj_chars (s : string)
| Obj_memory_map (m : efi_memory_map_loongson)
| Obj_cpuinfo (c : efi_cpuinfo_loongson)
| Obj_system (s : system_loongson)
| Obj_irq_source (t : irq_source_routing_table)
| Obj_interface (i : interface_info)
| Obj_board (b : board_devices)
| Obj_special (s : loongson_special_attribute)
| Obj_loongson_params (lp : loongson_params)
| Obj_smbios_vers (vers : Z)
| Obj_reset_system (r : efi_reset_system_t).

Definition zero_mem_map : mem_map := mk_mem_map 0 0 0 0.
Definition zero_efi_memory_map_loongson : efi_memory_map_loongson :=
  mk_efi_memory_map_loongson 0 0 0 (replicate 128 zero_mem_map).
Definition zero_efi_cpuinfo_loongson : efi_cpuinfo_loongson :=
  mk_efi_cpuinfo_loongson 0 0 0 0 0 0 0 0 "".
Definition zero_uart_device : uart_device := mk_uart_device 0 0 0 0.
Definition zero_sensor_device : sensor_device := mk_sensor_device "" "" 0 0 0 0 0.
Definition zero_system_loongson : system_loongson :=
  mk_system_loongson 0 0 0 0 (replicate 64 zero_uart_device)
    0 (replicate 64 zero_sensor_device) 0 "" 0 0 "" 0 0 0.
Definition zero_irq_source_routing_table : irq_source_routing_table :=
  mk_irq_source_routing_table 0 0 0 0 0 0 0 0 0 0 0 0 0 0 0 0 0.
Definition zero_interface_info : interface_info := mk_interface_info 0 0 0 "".
Definition zero_resource_loongson : resource_loongson := mk_resource_loongson 0 0 "" 0.
Definition zero_board_devices : board_devices :=
  mk_board_devices "" 0 (replicate 128 zero_resource_loongson).
Definition zero_loongson_special_attribute : loongson_special_attribute :=
  mk_loongson_special_attribute 0 "" 0 (replicate 128 zero_resource_loongson).
Definition zero_loongson_params : loongson_params := mk_loongson_params 0 0 0 0 0 0 0.
Definition zero_efi_reset_system_t : efi_reset_system_t := mk_efi_reset_system_t 0 0 0 0 0.

(** Reading a struct through a pointer. *)
Definition deref_memory_map (h : gmap Z object) (p : Z) : efi_memory_map_loongson :=
  match h !! p with Some (Obj_memory_map m) => m | _ => zero_efi_memory_map_loongson end.
Definition deref_cpuinfo (h : gmap Z object) (p : Z) : efi_cpuinfo_loongson :=
  match h !! p with Some (Obj_cpuinfo c) => c | _ => zero_efi_cpuinfo_loongson end.
Definition deref_system (h : gmap Z object) (p : Z) : system_loongson :=
  match h !! p with Some (Obj_system s) => s | _ => zero_system_loongson end.
Definition deref_irq_source (h : gmap Z object) (p : Z) : irq_source_routing_table :=
  match h !! p with Some (Obj_irq_source t) => t | _ => zero_irq_source_routing_table end.
Definition deref_interface (h : gmap Z object) (p : Z) : interface_info :=
  match h !! p with Some (Obj_interface i) => i | _ => zero_interface_info end.
Definition deref_board (h : gmap Z object) (p : Z) : board_devices :=
  match h !! p with Some (Obj_board b) => b | _ => zero_board_devices end.
Definition deref_special (h : gmap Z object) (p : Z) : loongson_special_attribute :=
  match h !! p with Some (Obj_special s) => s | _ => zero_loongson_special_attribute end.
Definition deref_loongson_params (h : gmap Z object) (p : Z) : loongson_params :=
  match h !! p with Some (Obj_loongson_params lp) => lp | _ => zero_loongson_params end.
Definition deref_reset_system (h : gmap Z object) (p : Z) : efi_reset_system_t :=
  match h !! p with Some (Obj_reset_system r) => r | _ => zero_efi_reset_system_t end.

(** *** The machine around the board code *)

Inductive ShutdownCause :=
| SHUTDOWN_CAUSE_GUEST_RESET
| SHUTDOWN_CAUSE_GUEST_SHUTDOWN.

(** Where the bytes of a ROM blob come from: a host buffer, or one of the
    file's static objects. *)
Inductive blob_source :=
| Blob_at (host_addr : Z)
| Blob_bios_boot_code
| Blob_fw_config.

(** Calls into the rest of the emulator, logged in program order. *)
Inductive event :=
| qemu_system_reset_request (cause : ShutdownCause)
| qemu_system_shutdown_request (cause : ShutdownCause)
| cpu_create (cpu_type : string)
| cpu_mips_irq_init_cpu (cpu : nat)
| cpu_mips_clock_init (cpu : nat)
| qemu_register_reset_main_cpu (cpu : nat)
| memory_region_init (region : string) (size : Z)
| memory_region_init_rom (region : string) (size : Z)
| memory_region_init_alias (region orig : string) (offset size : Z)
| memory_region_init_io (region : string) (size : Z)
| memory_region_add_subregion (parent : string) (offset : Z) (region : string)
| load_elf (filename : string)
| load_image_targphys (filename : string) (addr max_sz : Z)
| rom_add_blob_fixed (rom : string) (blob : blob_source) (len addr : Z)
| fw_cfg_init_mem_wide (ctl_addr data_addr : Z)
| fw_cfg_add_i16 (key : string) (value : Z)
| fw_cfg_add_i64 (key : string) (value : Z)
| qemu_register_boot_set
| isa_bus_new
| i8259_init
| isa_bus_irqs
| isa_create_simple (device_name : string)
| mc146818_rtc_init (base_year : Z)
| ls7a_init
| pci_vga_init
| pci_nic_init_nofail (model : string)
| serial_mm_init (base : Z) (baudbase : Z).

(** The fields of [MachineState] the board reads. *)
Record MachineState := mk_MachineState {
  machine_ram_size        : Z;
  machine_kernel_filename : option string;
  machine_kernel_cmdline  : string;
  machine_initrd_filename : option string;
  machine_cpu_type        : string;
  smp_cpus                : nat;
  smp_max_cpus            : Z
}.

(** What the CPU core keeps per CPU: the general-purpose registers and the
    program counter of the active thread context, CP0 Status, and all the
    remaining state, which this file never touches. *)
Record CPUMIPSState := mk_CPUMIPSState {
  gpr        : list Z;
  PC         : Z;
  CP0_Status : Z;
  other_env  : list Z
}.

(** What [open] and [read] answer for /proc/cpuinfo: [open] gives -1,
    [read] gives a negative count, or [read] stores these bytes (at most
    1024 of them) at the start of the buffer. *)
Inductive proc_cpuinfo :=
| Open_failed
| Read_failed
| Read_bytes (data : list Z).

(** The answers of the host and of the emulator core: what the image
    loaders return for a file, where [g_malloc0] puts the parameter buffer,
    what /proc/cpuinfo holds, the state of a freshly created CPU and the
    effect of [cpu_reset] on one. *)
Record Host := mk_Host {
  host_load_elf            : string -> Z * Z * Z * Z;
  host_load_elf_strerror   : Z -> string;
  host_get_image_size      : string -> Z;
  host_load_image_targphys : string -> Z -> Z -> Z;
  host_g_malloc0           : Z -> Z;
  host_proc_cpuinfo        : proc_cpuinfo;
  host_qemu_find_file      : string -> option string;
  host_qtest_enabled       : bool;
  host_serial_hd           : Z -> bool;
  host_nd_table            : list (option string);
  host_cpu_create          : string -> CPUMIPSState;
  cpu_reset                : CPUMIPSState -> CPUMIPSState
}.

Record _fw_config := mk_fw_config {
  fw_ram_size       : Z;
  fw_mem_freq       : Z;
  fw_nr_cpus        : Z;
  fw_cpu_clock_freq : Z
}.

Record _loaderparams := mk_loaderparams {
  lp_ram_size     : Z;
  kernel_cmdline  : string;
  kernel_filename : option string;
  initrd_filename : option string;
  kernel_entry    : Z;
  a0 : Z;
  a1 : Z;
  a2 : Z
}.

(** The file's static variables, the emulator globals it uses ([ram_size],
    [bios_name], the CPU list headed by [first_cpu]), the process
    environment, host memory, what was reported on stderr and the calls
    made so far. *)
Record world := mk_world {
  loaderparams    : _loaderparams;
  fw_config       : _fw_config;
  boot_params_p   : Z;
  boot_params_buf : Z;
  ram_size        : Z;
  bios_name       : option string;
  environ         : gmap string string;
  heap            : gmap Z object;
  stderr          : list string;
  trace           : list event;
  cpus            : list CPUMIPSState
}.

Definition set_loaderparams (f : _loaderparams -> _loaderparams) (w : world) : world :=
  mk_world (f (loaderparams w)) (fw_config w) (boot_params_p w) (boot_params_buf w)
    (ram_size w) (bios_name w) (environ w) (heap w) (stderr w) (trace w) (cpus w).
Definition set_fw_config (c : _fw_config) (w : world) : world :=
  mk_world (loaderparams w) c (boot_params_p w) (boot_params_buf w)
    (ram_size w) (bios_name w) (environ w) (heap w) (stderr w) (trace w) (cpus w).
Definition set_boot_params_p (p : Z) (w : world) : world :=
  mk_world (loaderparams w) (fw_config w) p (boot_params_buf w)
    (ram_size w) (bios_name w) (environ w) (heap w) (stderr w) (trace w) (cpus w).
Definition set_boot_params_buf (p : Z) (w : world) : world :=
  mk_world (loaderparams w) (fw_config w) (boot_params_p w) p
    (ram_size w) (bios_name w) (environ w) (heap w) (stderr w) (trace w) (cpus w).
Definition set_bios_name (b : option string) (w : world) : world :=
  mk_world (loaderparams w) (fw_config w) (boot_params_p w) (boot_params_buf w)
    (ram_size w) b (environ w) (heap w) (stderr w) (trace w) (cpus w).
Definition set_environ (f : gmap string string -> gmap string string) (w : world) : world :=
  mk_world (loaderparams w) (fw_config w) (boot_params_p w) (boot_params_buf w)
    (ram_size w) (bios_name w) (f (environ w)) (heap w) (stderr w) (trace w) (cpus w).
Definition set_heap (f : gmap Z object -> gmap Z object) (w : world) : world :=
  mk_world (loaderparams w) (fw_config w) (boot_params_p w) (boot_params_buf w)
    (ram_size w) (bios_name w) (environ w) (f (heap w)) (stderr w) (trace w) (cpus w).
Definition set_stderr (f : list string -> list string) (w : world) : world :=
  mk_world (loaderparams w) (fw_config w) (boot_params_p w) (boot_params_buf w)
    (ram_size w) (bios_name w) (environ w) (heap w) (f (stderr w)) (trace w) (cpus w).
Definition set_trace (f : list event -> list event) (w : world) : world :=
  mk_world (loaderparams w) (fw_config w) (boot_params_p w) (boot_params_buf w)
    (ram_size w) (bios_name w) (environ w) (heap w) (stderr w) (f (trace w)) (cpus w).
Definition set_cpus (f : list CPUMIPSState -> list CPUMIPSState) (w : world) : world :=
  mk_world (loaderparams w) (fw_config w) (boot_params_p w) (boot_params_buf w)
    (ram_size w) (bios_name w) (environ w) (heap w) (stderr w) (trace w) (f (cpus w)).

(** *** A state monad with process exit

    A computation returns, ends the process through [exit], or reaches a
    point from which the C program has no defined behaviour (a null
    pointer or an undetermined byte is read, an [int] overflows); the state
    that comes with [Undefined] is the state at that point. *)

Inductive outcome (A : Type) :=
| Ret (a : A)
| Exit (status : Z)
| Undefined.
Arguments Ret {A} a.
Arguments Exit {A} status.
Arguments Undefined {A}.

Definition M (A : Type) : Type := world -> outcome A * world.

Definition pure {A} (a : A) : M A := fun w => (Ret a, w).

Definition bind {A B} (m : M A) (k : A -> M B) : M B :=
  fun w => match m w with
           | (Ret a, w') => k a w'
           | (Exit status, w') => (Exit status, w')
           | (Undefined, w') => (Undefined, w')
           end.

Notation "'let*' x := m 'in' k" := (bind m (fun x => k))
  (at level 10, x name, m at level 100, k at level 200).
Notation "'do' m 'then' k" := (bind m (fun _ => k))
  (at level 10, m at level 100, k at level 200).

Definition get : M world := fun w => (Ret w, w).
Definition modify (f : world -> world) : M unit := fun w => (Ret tt, f w).
Definition call (e : event) : M unit := modify (set_trace (fun t => t ++ [e])).
Definition error_report (msg : string) : M unit :=
  modify (set_stderr (fun l => l ++ [msg])).
(** [fprintf(stderr, ...)] of one line; the entry is kept without its
    final newline. *)
Definition fprintf_stderr (line : string) : M unit :=
  modify (set_stderr (fun l => l ++ [line])).
Definition exit {A} (status : Z) : M A := fun w => (Exit status, w).
Definition undefined {A} : M A := fun w => (Undefined, w).
Definition store (p : Z) (o : object) : M unit := modify (set_heap (insert p o)).
Definition setenv (var value : string) (overwrite : Z) : M unit :=
  modify (set_environ (fun env =>
    match env !! var with
    | Some _ => if decide (overwrite = 0) then env else <[var := value]> env
    | None => <[var := value]> env
    end)).

Fixpoint for_each {A} (l : list A) (body : A -> M unit) : M unit :=
  match l with
  | [] => pure tt
  | x :: l' => do body x then for_each l' body
  end.

(** *** C strings in a stack buffer

    [char buf[1024]] after [read]: the bytes read, then bytes that were
    never stored and have no determined value ([None]). *)
Fixpoint bytes_of_string (s : string) : list Z :=
  match s with
  | EmptyString => []
  | String c s' => Z.of_N (Ascii.N_of_ascii c) :: bytes_of_string s'
  end.

Definition stack_buf (data : list Z) : list (option Z) :=
  let data := take 1024 data in
  ((fun b => Some (u8 b)) <$> data) ++ replicate (1024 - length data) None.

Fixpoint starts_with (needle : list Z) (s : list (option Z)) : bool :=
  match needle, s with
  | [], _ => true
  | c :: needle', Some c' :: s' => bool_decide (c = c') && starts_with needle' s'
  | _, _ => false
  end.

(** [strstr(s, needle)], scanning forward: the index of the first match,
    [Some None] for the null pointer when the string ends first, and [None]
    when the scan meets an undetermined byte or the end of the array. *)
Fixpoint strstr (s : list (option Z)) (needle : list Z) : option (option nat) :=
  if starts_with needle s then Some (Some 0%nat)
  else match s with
       | Some c :: s' =>
         if decide (c = 0) then Some None
         else match strstr s' needle with
              | Some (Some i) => Some (Some (S i))
              | r => r
              end
       | _ => None
       end.

(** [while ( *p != c) p++;]: how far [p] moves, if the loop ends inside
    determined bytes of the array. *)
Fixpoint scan_for (c : Z) (s : list (option Z)) : option nat :=
  match s with
  | Some c' :: s' => if decide (c' = c) then Some 0%nat else S <$> scan_for c s'
  | _ => None
  end.

(** [while (( *p >= '0') && ( *p <= '9')) p++;]: the digits passed. *)
Fixpoint scan_digits (s : list (option Z)) : option (list Z) :=
  match s with
  | Some c :: s' =>
    if decide (48 <= c <= 57) then cons c <$> scan_digits s' else Some []
  | _ => None
  end.

Definition INT_MAX : Z := 2^31 - 1.
Definition INT_MIN : Z := - 2^31.

(** [atoi] of a string of digits; the C library leaves the result open
    when the value does not fit an [int]. *)
Definition atoi (digits : list Z) : option Z :=
  let v := fold_left (fun acc d => 10 * acc + (d - 48)) digits 0 in
  if decide (v <= INT_MAX) then Some v else None.

(** A product of two [int]s, where it is defined. *)
Definition int_mul (a b : Z) : option Z :=
  if decide (INT_MIN <= a * b <= INT_MAX) then Some (a * b) else None.

(** *** The power-management trap *)

Definition loongson3_pm_read (addr size : Z) : Z := 0.

Definition loongson3_pm_write (addr val size : Z) : M unit :=
  if decide (addr <> PM_CNTL_MODE) then pure tt
  else if decide (val = 0x00) then
    call (qemu_system_reset_request SHUTDOWN_CAUSE_GUEST_RESET)
  else if decide (val = 0xff) then
    call (qemu_system_shutdown_request SHUTDOWN_CAUSE_GUEST_SHUTDOWN)
  else pure tt.

(** *** The boot table builder *)

Section Board.
Variable host : Host.
Variable current_machine : MachineState.

(** [get_host_cpu_freq] reads up to 1024 bytes of /proc/cpuinfo into
    [buf] and takes the digits that follow "@ " after the first "model name"
    for a number of MHz.  Both failure paths print a line and return 0.
    The parse has no checks of its own: where [strstr] finds nothing the
    null pointer is dereferenced, and the two scanning loops stop at
    nothing but the byte they look for. *)
Definition get_host_cpu_freq : M Z :=
  match host_proc_cpuinfo host with
  | Open_failed =>
    do fprintf_stderr "Failed to open /proc/cpuinfo!" then
    pure 0
  | Read_failed =>
    do fprintf_stderr "Failed to read /proc/cpuinfo!" then
    pure 0
  | Read_bytes data =>
    let buf := stack_buf data in
    match strstr buf (bytes_of_string "model name") with
    | Some (Some i) =>
      (* while ( *buf_p != '@') buf_p++; *)
      match scan_for 64 (drop i buf) with
      | Some j =>
        let buf_p := (i + j + 2)%nat in
        (* memcpy(buf, buf_p, 12); *)
        if decide (12 <= buf_p /\ buf_p + 12 <= 1024)%nat then
          let buf := take 12 (drop buf_p buf) ++ drop 12 buf in
          (* while (( *buf_p >= '0') && ( *buf_p <= '9')) buf_p++; *)
          match scan_digits buf with
          | Some digits =>
            (* *buf_p = 0; freq = atoi(buf); return freq * 1000 * 1000; *)
            match atoi digits with
            | Some freq =>
              match int_mul freq 1000 ≫= (fun x => int_mul x 1000) with
              | Some r => pure r
              | None => undefined
              end
            | None => undefined
            end
          | None => undefined
          end
        else undefined
      | None => undefined
      end
    | _ => undefined
    end
  end.

Definition init_memory_map (g_map : Z) : M Z :=
  let* w := get in
  let emap := deref_memory_map (heap w) g_map in
  let ram := lp_ram_size (loaderparams w) in
  let map0 :=
    mk_mem_map 0 1 0x0
      (u32 (u64 ((if decide (ram > 0x10000000) then 256 else Z.shiftr ram 20) - 16))) in
  let map1 :=
    mk_mem_map 0 2 0x90000000
      (u32 (if decide (ram > 0x10000000) then u64 (Z.shiftr ram 20 - 256) else 0)) in
  do store g_map (Obj_memory_map
    (mk_efi_memory_map_loongson (emap_vers emap) 2 300000000
       (<[1%nat := map1]> (<[0%nat := map0]> (map emap))))) then
  pure g_map.

Definition init_cpu_info (g_cpuinfo_loongson : Z) : M Z :=
  let* w := get in
  let c := deref_cpuinfo (heap w) g_cpuinfo_loongson in
  do store g_cpuinfo_loongson (Obj_cpuinfo
    (mk_efi_cpuinfo_loongson (cpuinfo_vers c) 0x14C000 Loongson_3A
       (total_node c) (cpu_startup_core_id c) (reserved_cores_mask c)
       (cpu_clock_freq c) (nr_cpus c) (cpuname c))) then
  let* freq := get_host_cpu_freq in
  let* w := get in
  let c := deref_cpuinfo (heap w) g_cpuinfo_loongson in
  let freq := u32 freq in
  let freq := if decide (freq = 0) then 400000000 else freq in
  do store g_cpuinfo_loongson (Obj_cpuinfo
    (mk_efi_cpuinfo_loongson (cpuinfo_vers c) (processor_id c) (cputype c)
       ((Z.of_nat (smp_cpus current_machine) + 3) / 4) 0
       (reserved_cores_mask c) freq (Z.of_nat (smp_cpus current_machine))
       (cpuname c))) then
  pure g_cpuinfo_loongson.

Definition init_system_loongson (g_system : Z) : M Z :=
  let* w := get in
  let s := deref_system (heap w) g_system in
  let uart0 := mk_uart_device 2 25000000 2 0x1fe001e0 in
  do store g_system (Obj_system
    (mk_system_loongson (system_vers s) 0 1 1 (<[0%nat := uart0]> (uarts s))
       (nr_sensors s) (sensors s) (has_ec s) (ec_name s) (ec_base_addr s)
       (has_tcm s) (tcm_name s) (tcm_base_addr s) (workarounds s)
       (of_dtb_addr s))) then
  pure g_system.

Definition init_irq_source (g_irq_source : Z) : M Z :=
  let* w := get in
  let t := deref_irq_source (heap w) g_irq_source in
  do store g_irq_source (Obj_irq_source
    (mk_irq_source_routing_table (irq_vers t) (irq_size t) (rtr_bus t)
       (rtr_devfn t) (vendor t) (device t) 0 (ht_int_bit t) (ht_enable t) 0
       VIRT_PCI_MEM_BASE (VIRT_PCI_MEM_BASE + VIRT_PCI_MEM_SIZE - 1)
       VIRT_PCI_IO_BASE (pci_io_end_addr t) (pci_config_addr t) 64
       (dma_noncoherent t))) then
  pure g_irq_source.

Definition init_interface_info (g_interface : Z) : M Z :=
  let* w := get in
  let i := deref_interface (heap w) g_interface in
  do store g_interface (Obj_interface
    (mk_interface_info 0x01 (interface_size i) (flag i) "UEFI_Version_v1.0")) then
  pure g_interface.

Definition board_devices_info (g_board : Z) : M Z :=
  let* w := get in
  let bd := deref_board (heap w) g_board in
  do store g_board (Obj_board
    (mk_board_devices "Loongson-3A-VIRT-1w-V1.00-demo" (num_resources bd)
       (bd_resource bd))) then
  pure g_board.

Definition init_special_info (g_special : Z) : M Z :=
  let* w := get in
  let special := deref_special (heap w) g_special in
  do store g_special (Obj_special
    (mk_loongson_special_attribute (special_vers special) "2014-09-11"
       (loongson_special_type special) (special_resource special))) then
  pure g_special.

(** [lp->field = value] for the seven offset fields. *)
Definition assign_lp (lp : Z) (f : loongson_params -> loongson_params) : M unit :=
  let* w := get in
  store lp (Obj_loongson_params (f (deref_loongson_params (heap w) lp))).

Definition with_memory_offset (v : Z) (l : loongson_params) : loongson_params :=
  mk_loongson_params v (cpu_offset l) (system_offset l) (irq_offset l)
    (interface_offset l) (special_offset l) (boarddev_table_offset l).
Definition with_cpu_offset (v : Z) (l : loongson_params) : loongson_params :=
  mk_loongson_params (memory_offset l) v (system_offset l) (irq_offset l)
    (interface_offset l) (special_offset l) (boarddev_table_offset l).
Definition with_system_offset (v : Z) (l : loongson_params) : loongson_params :=
  mk_loongson_params (memory_offset l) (cpu_offset l) v (irq_offset l)
    (interface_offset l) (special_offset l) (boarddev_table_offset l).
Definition with_irq_offset (v : Z) (l : loongson_params) : loongson_params :=
  mk_loongson_params (memory_offset l) (cpu_offset l) (system_offset l) v
    (interface_offset l) (special_offset l) (boarddev_table_offset l).
Definition with_interface_offset (v : Z) (l : loongson_params) : loongson_params :=
  mk_loongson_params (memory_offset l) (cpu_offset l) (system_offset l)
    (irq_offset l) v (special_offset l) (boarddev_table_offset l).
Definition with_special_offset (v : Z) (l : loongson_params) : loongson_params :=
  mk_loongson_params (memory_offset l) (cpu_offset l) (system_offset l)
    (irq_offset l) (interface_offset l) v (boarddev_table_offset l).
Definition with_boarddev_table_offset (v : Z) (l : loongson_params) : loongson_params :=
  mk_loongson_params (memory_offset l) (cpu_offset l) (system_offset l)
    (irq_offset l) (interface_offset l) (special_offset l) v.

Definition init_loongson_params (lp : Z) : M unit :=
  let* w := get in
  let p := boot_params_p w in

  let* r := init_memory_map p in
  do assign_lp lp (with_memory_offset (u64 (r - lp))) then
  let p := p + align sizeof_efi_memory_map_loongson in

  let* r := init_cpu_info p in
  do assign_lp lp (with_cpu_offset (u64 (r - lp))) then
  let p := p + align sizeof_efi_cpuinfo_loongson in

  let* r := init_system_loongson p in
  do assign_lp lp (with_system_offset (u64 (r - lp))) then
  let p := p + align sizeof_system_loongson in

  let* r := init_irq_source p in
  do assign_lp lp (with_irq_offset (u64 (r - lp))) then
  let p := p + align sizeof_irq_source_routing_table in

  let* r := init_interface_info p in
  do assign_lp lp (with_interface_offset (u64 (r - lp))) then
  let p := p + align sizeof_interface_info in

  let* r := board_devices_info p in
  do assign_lp lp (with_boarddev_table_offset (u64 (r - lp))) then
  let p := p + align sizeof_board_devices in

  let* r := init_special_info p in
  do assign_lp lp (with_special_offset (u64 (r - lp))) then
  let p := p + align sizeof_loongson_special_attribute in

  modify (set_boot_params_p p).

Definition init_smbios (smbios : Z) : M unit :=
  do store smbios (Obj_smbios_vers 1) then
  init_loongson_params (smbios + offsetof_smbios_tables_lp).

Definition init_efi (efi : Z) : M unit :=
  init_smbios (efi + offsetof_efi_loongson_smbios).

Definition init_reset_system (reset : Z) : M unit :=
  let* w := get in
  let r := deref_reset_system (heap w) reset in
  store reset (Obj_reset_system
    (mk_efi_reset_system_t 0xffffffffbfc00088 0xffffffffbfc00088 (ResetType r)
       0xffffffffbfc000b0 (DoSuspend r))).

Definition init_boot_param (bp : Z) : M Z :=
  do init_efi (bp + offsetof_boot_params_efi) then
  do init_reset_system (bp + offsetof_boot_params_reset_system) then
  pure 0.

(** *** The kernel loader and the boot parameter assembler *)

(** [snprintf(str, size, ...)] of an already formatted text: at most
    [size - 1] characters are stored, the full length is returned. *)
Definition snprintf (str size : Z) (text : string) : M Z :=
  do store str (Obj_chars (String.substring 0 (Z.to_nat (size - 1)) text)) then
  pure (Z.of_nat (String.length text)).

(** [%ld] of a 64-bit value, and [TARGET_FMT_lx] (16 hexadecimal digits). *)
Definition s64 (x : Z) : Z := (x + 2^63) mod 2^64 - 2^63.
Definition fmt_ld (x : Z) : string := pretty (s64 x).

Definition hex_digit (d : Z) : string :=
  String.substring (Z.to_nat d) 1 "0123456789abcdef".
Definition fmt_016lx (x : Z) : string :=
  String.concat ""
    (List.map (fun i => hex_digit (Z.land (Z.shiftr x (4 * i)) 0xf))
       [15; 14; 13; 12; 11; 10; 9; 8; 7; 6; 5; 4; 3; 2; 1; 0]).

Definition set_prom_bootparam (initrd_offset initrd_size : Z) : M Z :=
  (* Allocate params_buf for command line. *)
  let params_size := 0x100000 in
  let params_buf := host_g_malloc0 host params_size in
  let parg_env := params_buf in

  let ret := (3 + 1) * 4 in
  do store parg_env (Obj_uint (u32 (BOOTPARAM_ADDR + ret))) then
  let parg_env := parg_env + 4 in
  let* n := snprintf (params_buf + ret) (256 - ret) "g" in
  let ret := ret + (1 + n) in

  (* argv1 *)
  do store parg_env (Obj_uint (u32 (BOOTPARAM_ADDR + ret))) then
  let parg_env := parg_env + 4 in
  let* w := get in
  let* n :=
    if decide (initrd_size > 0) then
      snprintf (params_buf + ret) (256 - ret)
        ("rd_start=0x" +:+ fmt_016lx (PHYS_TO_VIRT (u32 initrd_offset))
         +:+ " rd_size=" +:+ fmt_ld initrd_size
         +:+ " " +:+ kernel_cmdline (loaderparams w))
    else
      snprintf (params_buf + ret) (256 - ret) (kernel_cmdline (loaderparams w)) in
  let ret := ret + (1 + n) in

  (* argv2 *)
  do store parg_env (Obj_uint (u32 (BOOTPARAM_ADDR + 4 * ret))) then

  (* env *)
  let ram := lp_ram_size (loaderparams w) in
  let memenv :=
    fmt_ld (if decide (ram > 0x10000000) then 256 else Z.shiftr ram 20) in
  let highmemenv :=
    fmt_ld (if decide (ram > 0x10000000) then u64 (Z.shiftr ram 20 - 256) else 0) in

  do setenv "memsize" memenv 1 then
  do setenv "highmemsize" highmemenv 1 then

  let ret := Z.land (ret + 32) (Z.lnot 31) in

  do modify (set_boot_params_buf (params_buf + ret)) then
  do modify (set_boot_params_p (params_buf + ret + align sizeof_boot_params)) then

  let* _ := init_boot_param (params_buf + ret) in

  do call (rom_add_blob_fixed "params" (Blob_at params_buf) params_size
             BOOTPARAM_PHYADDR) then
  do modify (set_loaderparams (fun l =>
       mk_loaderparams (lp_ram_size l) (kernel_cmdline l) (kernel_filename l)
         (initrd_filename l) (kernel_entry l)
         2
         (u64 (0xffffffff80000000 + BOOTPARAM_PHYADDR))
         (u64 (0xffffffff80000000 + BOOTPARAM_PHYADDR + ret)))) then
  pure 0.

(** [load_kernel] is only called with a kernel file name set. *)
Definition load_kernel (kernel : string) : M Z :=
  let* w := get in
  do call (load_elf kernel) then
  let '(kernel_size, kernel_entry, kernel_low, kernel_high) :=
    host_load_elf host kernel in
  do (if decide (kernel_size < 0) then
        do error_report ("could not load kernel '" +:+ kernel +:+ "': "
                         +:+ host_load_elf_strerror host kernel_size) then
        exit 1
      else pure tt) then

  (* load initrd *)
  let* rd :=
    match initrd_filename (loaderparams w) with
    | Some initrd =>
      let initrd_size := host_get_image_size host initrd in
      let* rd :=
        if decide (initrd_size > 0) then
          let initrd_offset :=
            u64 (Z.land (kernel_high + Z.lnot INITRD_PAGE_MASK) INITRD_PAGE_MASK) in
          let initrd_offset := Z.max initrd_offset INITRD_OFFSET in
          do (if decide (u64 (initrd_offset + initrd_size) > ram_size w) then
                do error_report ("memory too small for initial ram disk '"
                                 +:+ initrd +:+ "'") then
                exit 1
              else pure tt) then
          do call (load_image_targphys initrd initrd_offset
                     (u64 (ram_size w - initrd_offset))) then
          pure (initrd_offset,
                host_load_image_targphys host initrd initrd_offset
                  (u64 (ram_size w - initrd_offset)))
        else pure (0, initrd_size) in
      do (if decide (u64 rd.2 = u64 (-1)) then
            do error_report ("could not load initial ram disk '"
                             +:+ initrd +:+ "'") then
            exit 1
          else pure tt) then
      pure rd
    | None => pure (0, 0)
    end in

  (* Setup prom parameters. *)
  let* _ := set_prom_bootparam rd.1 rd.2 in
  pure kernel_entry.

(** [main_cpu_reset], the reset handler registered for every CPU.
    [first_cpu] heads the CPU list. *)
Definition first_cpu : nat := 0.

Definition main_cpu_reset (opaque : nat) (w : world) : world :=
  match cpus w !! opaque with
  | None => w
  | Some cpu =>
    let env := cpu_reset host cpu in
    (* Loongson-3 reset stuff *)
    let env :=
      match kernel_filename (loaderparams w) with
      | Some _ =>
        let env :=
          if decide (opaque = first_cpu) then
            mk_CPUMIPSState
              (<[6%nat := a2 (loaderparams w)]>
                 (<[5%nat := a1 (loaderparams w)]>
                    (<[4%nat := a0 (loaderparams w)]> (gpr env))))
              (u64 (kernel_entry (loaderparams w)))
              (CP0_Status env) (other_env env)
          else env in
        mk_CPUMIPSState (gpr env) (PC env)
          (Z.land (CP0_Status env)
             (Z.lnot (Z.lor (Z.shiftl 1 CP0St_BEV) (Z.shiftl 1 CP0St_ERL))))
          (other_env env)
      | None => env
      end in
    set_cpus (fun l => <[opaque := env]> l) w
  end.

(** *** Machine initialisation *)

Definition bios_boot_code_words : Z := 55.
Definition sizeof_bios_boot_code : Z := 4 * bios_boot_code_words.
Definition sizeof_fw_config : Z := 8 + 4 + 4 + 4 + 4.

Definition fw_conf_init (ram : Z) : M unit :=
  do call (fw_cfg_init_mem_wide CFG_ADDR (CFG_ADDR + 8)) then
  do call (fw_cfg_add_i16 "FW_CFG_NB_CPUS"
             (u16 (Z.of_nat (smp_cpus current_machine)))) then
  do call (fw_cfg_add_i16 "FW_CFG_MAX_CPUS" (u16 (smp_max_cpus current_machine))) then
  do call (fw_cfg_add_i64 "FW_CFG_RAM_SIZE" (u64 ram)) then
  do call qemu_register_boot_set then
  let* w := get in
  do modify (set_fw_config
    (mk_fw_config ram 300000000 (Z.of_nat (smp_cpus current_machine))
       (fw_cpu_clock_freq (fw_config w)))) then
  let* freq := get_host_cpu_freq in
  let* w := get in
  modify (set_fw_config
    (mk_fw_config (fw_ram_size (fw_config w)) (fw_mem_freq (fw_config w))
       (fw_nr_cpus (fw_config w)) (u32 freq))).

Definition loongson3_isa_init : M unit :=
  do call isa_bus_new then
  do call i8259_init then
  do call isa_bus_irqs then
  do call (isa_create_simple "i8042") then
  call (mc146818_rtc_init 2000).

Definition loongson3_pcie_init (machine : MachineState) : M unit :=
  do call (memory_region_init "pci-mem" VIRT_PCI_MEM_SIZE) then
  do call (memory_region_init_alias "pci-io" "io" 0 VIRT_PCI_IO_SIZE) then
  do call (memory_region_add_subregion "system" VIRT_PCI_IO_BASE "pci-io") then
  do call (memory_region_add_subregion "system" VIRT_PCI_MEM_BASE "pci-mem") then
  do call ls7a_init then
  do call pci_vga_init then
  for_each (host_nd_table host) (fun nd =>
    call (pci_nic_init_nofail (default "virtio" nd))).

Definition mips_loongson3_init (machine : MachineState) : M unit :=
  let kernel_cmdline := machine_kernel_cmdline machine in
  let kernel_filename := machine_kernel_filename machine in
  let initrd_filename := machine_initrd_filename machine in
  let ram_size := machine_ram_size machine in

  do (if decide (ram_size < 256 * 0x100000) then
        do error_report "Loongson-3 need at least 256MB memory" then
        exit 1
      else pure tt) then

  do for_each (seq 0 (smp_cpus machine)) (fun i =>
       (* init CPUs *)
       do call (cpu_create (machine_cpu_type machine)) then
       do modify (set_cpus (fun l =>
            l ++ [host_cpu_create host (machine_cpu_type machine)])) then
       (* Init internal devices *)
       do call (cpu_mips_irq_init_cpu i) then
       do call (cpu_mips_clock_init i) then
       call (qemu_register_reset_main_cpu i)) then

  (* Allocate RAM/BIOS, 0x00000000~0x10000000 is alias of 0x80000000~0x90000000 *)
  do call (memory_region_init_rom "loongson3.bios" BIOS_SIZE) then
  do call (memory_region_init_alias "loongson3.lowram" "loongson3.highram" 0
             (256 * 0x100000)) then
  do call (memory_region_init_io "loongson3_pm" PM_MMIO_SIZE) then

  do call (memory_region_add_subregion "system" 0x00000000 "loongson3.lowram") then
  do call (memory_region_add_subregion "system" 0x1fc00000 "loongson3.bios") then
  do call (memory_region_add_subregion "system" 0x80000000 "loongson3.highram") then
  do call (memory_region_add_subregion "system" PM_MMIO_ADDR "loongson3_pm") then

  do match kernel_filename with
     | Some kernel =>
       do modify (set_loaderparams (fun l =>
            mk_loaderparams ram_size kernel_cmdline kernel_filename
              initrd_filename (kernel_entry l) (a0 l) (a1 l) (a2 l))) then
       let* entry := load_kernel kernel in
       do modify (set_loaderparams (fun l =>
            mk_loaderparams (lp_ram_size l) (Loongson3.kernel_cmdline l)
              (Loongson3.kernel_filename l) (Loongson3.initrd_filename l)
              entry (a0 l) (a1 l) (a2 l))) then
       call (rom_add_blob_fixed "bios" Blob_bios_boot_code sizeof_bios_boot_code
               0x1fc00000)
     | None =>
       let* w := get in
       do (if bios_name w is None
           then modify (set_bios_name (Some LOONGSON3_BIOSNAME))
           else pure tt) then
       let* w := get in
       let filename := host_qemu_find_file host (default "" (bios_name w)) in
       let* bios_size :=
         match filename with
         | Some f =>
           do call (load_image_targphys f 0x1fc00000 BIOS_SIZE) then
           pure (host_load_image_targphys host f 0x1fc00000 BIOS_SIZE)
         | None => pure (-1)
         end in
       do (if decide ((bios_size < 0 \/ bios_size > BIOS_SIZE)
                      /\ kernel_filename = None
                      /\ host_qtest_enabled host = false) then
             do error_report ("Could not load MIPS bios '"
                              +:+ default "" (bios_name w) +:+ "'") then
             exit 1
           else pure tt) then
       do fw_conf_init ram_size then
       call (rom_add_blob_fixed "fw_conf" Blob_fw_config sizeof_fw_config
               FW_CONF_ADDR)
     end then

  do loongson3_isa_init then
  do loongson3_pcie_init machine then

  if host_serial_hd host 0
  then call (serial_mm_init 0x1fe001e0 115200)
  else pure tt.

End Board.
End Loongson3.
(** * Definitions used by the statements and proofs *)

(** A block of byte stores, and what a later read of one offset sees. *)
Definition store_bytes (ws : list (Z * Z)) (a : list Z) : list Z :=
  fold_left (fun acc w => Ls7a.pci_set_byte acc w.1 w.2) ws a.

Fixpoint read_after (ws : list (Z * Z)) (off init : Z) : Z :=
  match ws with
  | [] => init
  | w :: ws' => read_after ws' off (if decide (w.1 = off) then u8 w.2 else init)
  end.

Definition in_array (a : list Z) (w : Z * Z) : Prop :=
  0 <= w.1 /\ (Z.to_nat w.1 < length a)%nat.

(** The configuration bytes that [ls7a_reset] stores, in program order. *)
Definition ls7a_reset_config_stores : list (Z * Z) :=
  [ (0x0, 0x0014); (0x1, Z.shiftr 0x0014 8);
    (0x2, 0x7a00); (0x3, Z.shiftr 0x7a00 8);
    (0x4, 0); (0x5, Z.shiftr 0 8);
    (0x6, 0x0010); (0x7, Z.shiftr 0x0010 8);
    (0x8, 0x00); (0x9, 0x00); (0xa, 0x00); (0xb, 0x06); (0xc, 0x00);
    (0xe, 0x80);
    (0x10, 0); (0x11, 0); (0x12, 0); (0x13, 0);
    (0x14, 0); (0x15, 0); (0x16, 0); (0x17, 0);
    (0x18, 0); (0x19, 0); (0x1a, 0); (0x1b, 0);
    (0x1c, 4); (0x1d, Z.shiftr 4 8);
    (0x1e, Z.shiftr 4 16); (0x1f, Z.shiftr (Z.shiftr 4 16) 8);
    (0x20, 0); (0x21, 0); (0x22, 0); (0x23, 0);
    (0x24, 0); (0x25, 0); (0x26, 0); (0x27, 0);
    (0x28, 0); (0x29, 0);
    (0x2c, 0x0014); (0x2d, Z.shiftr 0x0014 8);
    (0x2e, 0x7a00); (0x2f, Z.shiftr 0x7a00 8);
    (0x34, 0x40); (0x3c, 0x00); (0x3d, 0x00);
    (0x3e, 0); (0x3f, 0);
    (0x4c, 0x60) ].


(** A bridge whose configuration space a guest has filled with ones. *)
Definition scrambled_bridge : Ls7a.PCIDevice :=
  Ls7a.mkPCIDevice 0 (replicate 256 0xff) (replicate 256 0xff) (replicate 256 0xff).

(** A device in slot 5 (function 0) whose interrupt-pin register holds [pin]. *)
Definition slot5_device (pin : Z) : Ls7a.PCIDevice :=
  Ls7a.mkPCIDevice (5 * 8) (<[Z.to_nat Ls7a.PCI_INTERRUPT_PIN := pin]> (replicate 256 0))
    (replicate 256 0) (replicate 256 0).

(** The folding rule of the extended configuration window in the words of
    the specification: bit 0x1000000 selects the 16-bit mask, otherwise the
    24-bit mask applies. *)
Definition folded_offset (addr : Z) : Z :=
  if Z.testbit addr 24 then Z.land addr 0xFFFF else Z.land addr 0xFFFFFF.

(** A host with no files and no readable /proc/cpuinfo, and an untouched
    machine: empty environment, zeroed host memory, nothing logged. *)
Definition idle_cpu : Loongson3.CPUMIPSState :=
  Loongson3.mk_CPUMIPSState (replicate 32 0) 0 0 [].

Definition null_host : Loongson3.Host :=
  Loongson3.mk_Host (fun _ => (-1, 0, 0, 0)) (fun _ => "") (fun _ => -1)
    (fun _ _ _ => -1) (fun _ => 0x10000) Loongson3.Open_failed (fun _ => None) false
    (fun _ => false) [] (fun _ => idle_cpu) (fun c => c).

Definition fresh_world (ram : Z) : Loongson3.world :=
  Loongson3.mk_world
    (Loongson3.mk_loaderparams ram "" None None 0 0 0 0)
    (Loongson3.mk_fw_config 0 0 0 0) 0 0 ram None ∅ ∅ [] [] [].

(** What [get_host_cpu_freq] returns on a host and the lines it prints on
    the way, when it returns: the result of running it in an empty state.
    [None] stands for a run without defined behaviour. *)
Definition cpu_freq_probe (host : Loongson3.Host) : option (Z * list string) :=
  let run := Loongson3.get_host_cpu_freq host (fresh_world 0) in
  match run.1 with
  | Loongson3.Ret freq => Some (freq, Loongson3.stderr run.2)
  | _ => None
  end.

(** How many reset and shutdown requests a log holds. *)
Definition is_reset_request (e : Loongson3.event) : bool :=
  match e with Loongson3.qemu_system_reset_request _ => true | _ => false end.
Definition is_shutdown_request (e : Loongson3.event) : bool :=
  match e with Loongson3.qemu_system_shutdown_request _ => true | _ => false end.
Definition reset_requests (t : list Loongson3.event) : nat :=
  length (List.filter is_reset_request t).
Definition shutdown_requests (t : list Loongson3.event) : nat :=
  length (List.filter is_shutdown_request t).

(** The two size fields of the memory map that [init_memory_map] leaves at
    [g_map]. *)
Definition map_mem_size (w : Loongson3.world) (g_map : Z) (i : nat) : option Z :=
  Loongson3.mem_size <$>
    Loongson3.map (Loongson3.deref_memory_map (Loongson3.heap w) g_map) !! i.

(** The memory split as the specification words it, for a total of [ram]
    bytes and the sizes [low], [high] found in map[0] and map[1]. *)
Definition spec_memory_split (ram : Z) (low high : option Z) : Prop :=
  (ram <= 256 * Loongson3.MiB -> low = Some (Z.shiftr ram 20) /\ high = Some 0) /\
  (ram > 256 * Loongson3.MiB ->
     low = Some 256 /\ high = Some (Z.shiftr ram 20 - 256)).

(** The boot-info chain: the records in the order [init_loongson_params]
    builds them, their sizes, the addresses a chain starting at [p] gives
    them, and the offset fields in the same order. *)
Definition chain_sizes : list Z :=
  [ Loongson3.sizeof_efi_memory_map_loongson;
    Loongson3.sizeof_efi_cpuinfo_loongson;
    Loongson3.sizeof_system_loongson;
    Loongson3.sizeof_irq_source_routing_table;
    Loongson3.sizeof_interface_info;
    Loongson3.sizeof_board_devices;
    Loongson3.sizeof_loongson_special_attribute ].

Fixpoint chain_starts (p : Z) (sizes : list Z) : list Z :=
  match sizes with
  | [] => []
  | sz :: rest => p :: chain_starts (p + Loongson3.align sz) rest
  end.

Definition chain_end (p : Z) (sizes : list Z) : Z :=
  fold_left (fun q sz => q + Loongson3.align sz) sizes p.

Definition chain_offsets (l : Loongson3.loongson_params) : list Z :=
  [ Loongson3.memory_offset l; Loongson3.cpu_offset l;
    Loongson3.system_offset l; Loongson3.irq_offset l;
    Loongson3.interface_offset l; Loongson3.boarddev_table_offset l;
    Loongson3.special_offset l ].

(** The position in the chain of the record kind an object belongs to. *)
Definition record_kind (o : Loongson3.object) : option nat :=
  match o with
  | Loongson3.Obj_memory_map _ => Some 0%nat
  | Loongson3.Obj_cpuinfo _ => Some 1%nat
  | Loongson3.Obj_system _ => Some 2%nat
  | Loongson3.Obj_irq_source _ => Some 3%nat
  | Loongson3.Obj_interface _ => Some 4%nat
  | Loongson3.Obj_board _ => Some 5%nat
  | Loongson3.Obj_special _ => Some 6%nat
  | _ => None
  end.

Definition record_kind_at (h : gmap Z Loongson3.object) (a : Z) : option nat :=
  h !! a ≫= record_kind.

(** A two-CPU machine with 512 MiB of RAM, a kernel and no ram-disk. *)
Definition demo_machine : Loongson3.MachineState :=
  Loongson3.mk_MachineState (512 * Loongson3.MiB) (Some "vmlinux") "" None
    "Loongson-3A" 2 16.

(** The state of the loader when [init_loongson_params] runs with the
    parameter buffer at 0x100000 and a 32-byte command-line blob:
    [boot_params_buf] is 0x100020, the offsets are measured from 0x100048
    and the chain starts at 0x1000e0. *)
Definition chain_world : Loongson3.world :=
  Loongson3.set_boot_params_p 0x1000e0 (fresh_world (512 * Loongson3.MiB)).

(** A computation that, however it ends, leaves one component [f] of the
    state as it found it. *)
Definition preserves {T A : Type} (f : Loongson3.world -> T) (m : Loongson3.M A)
    : Prop :=
  forall w, f (m w).2 = f w.

(** The calls that create the CPUs [s], [s+1], ..., [s+n-1]. *)
Definition cpu_events (cpu_type : string) (s n : nat) : list Loongson3.event :=
  List.flat_map (fun i =>
    [ Loongson3.cpu_create cpu_type; Loongson3.cpu_mips_irq_init_cpu i;
      Loongson3.cpu_mips_clock_init i; Loongson3.qemu_register_reset_main_cpu i ])
    (seq s n).

(** The text of argv[1] and the length of the command-line blob that
    [set_prom_bootparam] computes from it: three pointers and a terminator,
    "g", the text, each string with its NUL, rounded with [(n + 32) & ~31]. *)
Definition argv1_text (initrd_offset initrd_size : Z) (cmdline : string) : string :=
  if decide (initrd_size > 0) then
    "rd_start=0x" +:+ Loongson3.fmt_016lx (Loongson3.PHYS_TO_VIRT (u32 initrd_offset))
    +:+ " rd_size=" +:+ Loongson3.fmt_ld initrd_size +:+ " " +:+ cmdline
  else cmdline.

Definition blob_length (argv1 : string) : Z :=
  Z.land (16 + (1 + 1) + (1 + Z.of_nat (String.length argv1)) + 32) (Z.lnot 31).

(** A computation that, however it ends, only appends to the
    log of calls and leaves the CPU list alone. *)
Definition extends_log {A : Type} (m : Loongson3.M A) : Prop :=
  forall w, exists t,
    Loongson3.trace (m w).2 = Loongson3.trace w ++ t /\
    Loongson3.cpus (m w).2 = Loongson3.cpus w.

(** Modelled from the spec: [cpu_reset] belongs to the CPU core, which is
    not part of the sources under study.  The specification only names the
    "ordinary power-on state"; on a MIPS CPU that state has the registers
    cleared, the program counter at the reset vector 0xbfc00000 and the BEV
    and ERL bits of CP0 Status set, the two bits [main_cpu_reset] clears. *)
Definition mips_cpu_reset (c : Loongson3.CPUMIPSState) : Loongson3.CPUMIPSState :=
  Loongson3.mk_CPUMIPSState (replicate 32 0) 0xffffffffbfc00000
    (Z.lor (Z.shiftl 1 Loongson3.CP0St_BEV) (Z.shiftl 1 Loongson3.CP0St_ERL))
    (Loongson3.other_env c).

(** The start of /proc/cpuinfo on a Loongson-3A4000 host. *)
Definition demo_cpuinfo : string :=
  "system type : generic-loongson-machine processor : 0 "
  +:+ "model name : Loongson-3A R4 (Loongson-3A4000) @ 1800MHz isa : mips64r2".

(** A host that holds a kernel image "vmlinux" (entry 0xffffffff80200000,
    loaded up to 0x01000000) and a 1 GiB ram-disk "initrd.img". *)
Definition demo_host : Loongson3.Host :=
  Loongson3.mk_Host
    (fun f => if decide (f = "vmlinux")
              then (0x800000, 0xffffffff80200000 - 2^64, 0x200000, 0x1000000)
              else (-1, 0, 0, 0))
    (fun _ => "error")
    (fun f => if decide (f = "initrd.img") then 0x40000000 else -1)
    (fun _ _ max_sz => -1)
    (fun _ => 0x7f0000100000)
    (Loongson3.Read_bytes (Loongson3.bytes_of_string demo_cpuinfo))
    (fun _ => None) false (fun _ => false) []
    (fun _ => idle_cpu) mips_cpu_reset.

(** The machine as [mips_loongson3_init] leaves it after booting the
    kernel of [demo_host] on [demo_machine]. *)
Definition booted_world : Loongson3.world :=
  (Loongson3.mips_loongson3_init demo_host demo_machine demo_machine
     (fresh_world (512 * Loongson3.MiB))).2.

(** The same machine about to load a kernel and a ram-disk. *)
Definition initrd_world : Loongson3.world :=
  Loongson3.mk_world
    (Loongson3.mk_loaderparams (512 * Loongson3.MiB) "" (Some "vmlinux")
       (Some "initrd.img") 0 0 0 0)
    (Loongson3.mk_fw_config 0 0 0 0) 0 0 (512 * Loongson3.MiB) None ∅ ∅ [] [] [].


(** * Further definitions: the rest of the two files *)

(** ** More of [hw/pci-host/ls7a.c] *)

Module Ls7aExtra.

(** [pci_ls7a_set_irq]: [qemu_set_irq(pic[irq_num], level)].  The result is
    the line of the interrupt controller that is driven and the level it
    is driven to; there is none when [irq_num] is outside the array. *)
Definition pci_ls7a_set_irq {Line : Type} (pic : list Line) (irq_num level : Z)
    : option (Line * Z) :=
  if decide (irq_num < 0) then None
  else (fun line => (line, level)) <$> pic !! Z.to_nat irq_num.

(** The short configuration window: [ls7a_pciconf_readl] and
    [ls7a_pciconf_writel] call the device's own [config_read] and
    [config_write] with a length of 4, whatever the access size. *)
Section PciConf.
Variable Dev : Type.
Variable config_read : Dev -> Z -> Z -> Z.
Variable config_write : Dev -> Z -> Z -> Z -> Dev.

Definition ls7a_pciconf_readl (d : Dev) (addr size : Z) : Z :=
  let val := config_read d addr 4 in
  val.

Definition ls7a_pciconf_writel (d : Dev) (addr val size : Z) : Dev :=
  config_write d addr val 4.
End PciConf.

End Ls7aExtra.

(** The write-mask and check-mask bytes that [ls7a_reset] stores, in
    program order. *)
Definition ls7a_reset_wmask_stores : list (Z * Z) :=
  List.map (fun off => (off, 0))
    [ 0x0; 0x1; 0x2; 0x3; 0x6; 0x7; 0x8; 0x9; 0xa; 0xb; 0xc; 0xe;
      0x10; 0x11; 0x12; 0x13; 0x14; 0x15; 0x16; 0x17;
      0x18; 0x19; 0x1a; 0x1b; 0x1c; 0x1d; 0x1e; 0x1f;
      0x20; 0x21; 0x22; 0x23; 0x24; 0x25; 0x26; 0x27;
      0x2c; 0x2d; 0x2e; 0x2f; 0x34; 0x3d; 0x4c ].

Definition ls7a_reset_cmask_stores : list (Z * Z) :=
  List.map (fun off => (off, 0xff))
    [ 0x0; 0x1; 0x2; 0x3; 0x6; 0x7; 0x8; 0x9; 0xa; 0xb; 0xc; 0xe;
      0x10; 0x11; 0x12; 0x13; 0x14; 0x15; 0x16; 0x17;
      0x18; 0x19; 0x1a; 0x1b; 0x1c; 0x1d; 0x1e; 0x1f;
      0x20; 0x21; 0x22; 0x23; 0x24; 0x25; 0x26; 0x27;
      0x2c; 0x2d; 0x2e; 0x2f; 0x34 ].

(** The configuration offsets [ls7a_reset] does not store to. *)
Definition ls7a_reset_leaves (off : Z) : Prop :=
  off = 0xd \/ off = 0xf \/ 0x2a <= off <= 0x2b \/ 0x30 <= off <= 0x33 \/
  0x35 <= off <= 0x3b \/ 0x40 <= off <= 0x4b \/ 0x4d <= off.

(** A device whose three arrays have the size of a configuration space. *)
Definition config_sized (dev : Ls7a.PCIDevice) : Prop :=
  length (Ls7a.config dev) = Z.to_nat Ls7a.PCI_CONFIG_SPACE_SIZE /\
  length (Ls7a.cmask dev) = Z.to_nat Ls7a.PCI_CONFIG_SPACE_SIZE /\
  length (Ls7a.wmask dev) = Z.to_nat Ls7a.PCI_CONFIG_SPACE_SIZE.

(** The number of inputs of the interrupt controller behind [pic]. *)
Definition ISA_NUM_IRQS : Z := 16.

(** An [n]-function device in slot [slot] with interrupt pin [pin]. *)
Definition device_at (slot pin : Z) : Ls7a.PCIDevice :=
  Ls7a.mkPCIDevice (slot * 8)
    (<[Z.to_nat Ls7a.PCI_INTERRUPT_PIN := pin]> (replicate 256 0))
    (replicate 256 0) (replicate 256 0).

(** A configuration primitive that keeps the last value written per
    offset, for trying the window handlers on. *)
Definition table_read (bus : Z -> Z) (off size : Z) : Z := bus off.
Definition table_write (bus : Z -> Z) (off val size : Z) : Z -> Z :=
  fun o => if decide (o = off) then val else bus o.

(** A register bank holding 0, 1, 2, ... *)
Definition seq_regs (n : nat) : list Z := List.map Z.of_nat (seq 0 n).

(** ** More of [hw/mips/mips_loongson3.c] *)

(** A run of guest stores to the power-management window, each an
    (address, value) pair. *)
Definition pm_stores (ws : list (Z * Z)) : Loongson3.M unit :=
  Loongson3.for_each ws (fun s => Loongson3.loongson3_pm_write s.1 s.2 1).

Definition is_pm_reset (s : Z * Z) : bool :=
  bool_decide (s.1 = Loongson3.PM_CNTL_MODE /\ s.2 = 0x00).
Definition is_pm_shutdown (s : Z * Z) : bool :=
  bool_decide (s.1 = Loongson3.PM_CNTL_MODE /\ s.2 = 0xff).

(** A host without files whose /proc/cpuinfo starts with [text]. *)
Definition host_at (text : string) : Loongson3.Host :=
  Loongson3.mk_Host (fun _ => (-1, 0, 0, 0)) (fun _ => "") (fun _ => -1)
    (fun _ _ _ => -1) (fun _ => 0x10000)
    (Loongson3.Read_bytes (Loongson3.bytes_of_string text)) (fun _ => None) false
    (fun _ => false) [] (fun _ => idle_cpu) (fun c => c).

(** An [n]-CPU machine with 512 MiB of RAM and no kernel. *)
Definition bios_machine (n : nat) : Loongson3.MachineState :=
  Loongson3.mk_MachineState (512 * Loongson3.MiB) None "" None "Loongson-3A" n 16.

(** A host that holds the kernel image of [demo_host], reports [size] as
    the size of every other file and [loaded] as the number of bytes
    [load_image_targphys] brought in. *)
Definition initrd_host (size loaded : Z) : Loongson3.Host :=
  Loongson3.mk_Host
    (fun f => if decide (f = "vmlinux")
              then (0x800000, 0xffffffff80200000 - 2^64, 0x200000, 0x1000000)
              else (-1, 0, 0, 0))
    (fun _ => "error")
    (fun _ => size)
    (fun _ _ _ => loaded)
    (fun _ => 0x7f0000100000)
    (Loongson3.Read_bytes (Loongson3.bytes_of_string demo_cpuinfo))
    (fun _ => None) false (fun _ => false) []
    (fun _ => idle_cpu) mips_cpu_reset.

(** The loader's state when [load_kernel] is entered with a ram-disk
    file name. *)
Definition ramdisk_world (ram : Z) (initrd : string) : Loongson3.world :=
  Loongson3.mk_world
    (Loongson3.mk_loaderparams ram "console=ttyS0" (Some "vmlinux")
       (Some initrd) 0 0 0 0)
    (Loongson3.mk_fw_config 0 0 0 0) 0 0 ram None ∅ ∅ [] [] [].

(** The calls of [mips_loongson3_init] in program order: the memory
    regions behind the CPUs, the BIOS image, the firmware configuration of
    the BIOS path, and the devices. *)
Definition memory_events : list Loongson3.event :=
  [ Loongson3.memory_region_init_rom "loongson3.bios" Loongson3.BIOS_SIZE;
    Loongson3.memory_region_init_alias "loongson3.lowram" "loongson3.highram" 0
      (256 * 0x100000);
    Loongson3.memory_region_init_io "loongson3_pm" Loongson3.PM_MMIO_SIZE;
    Loongson3.memory_region_add_subregion "system" 0x00000000 "loongson3.lowram";
    Loongson3.memory_region_add_subregion "system" 0x1fc00000 "loongson3.bios";
    Loongson3.memory_region_add_subregion "system" 0x80000000 "loongson3.highram";
    Loongson3.memory_region_add_subregion "system" Loongson3.PM_MMIO_ADDR "loongson3_pm" ].

Definition bios_file (host : Loongson3.Host) (w : Loongson3.world) : option string :=
  Loongson3.host_qemu_find_file host
    (default Loongson3.LOONGSON3_BIOSNAME (Loongson3.bios_name w)).

Definition bios_load_events (host : Loongson3.Host) (w : Loongson3.world)
    : list Loongson3.event :=
  match bios_file host w with
  | Some f => [Loongson3.load_image_targphys f 0x1fc00000 Loongson3.BIOS_SIZE]
  | None => []
  end.

Definition bios_load_size (host : Loongson3.Host) (w : Loongson3.world) : Z :=
  match bios_file host w with
  | Some f => Loongson3.host_load_image_targphys host f 0x1fc00000 Loongson3.BIOS_SIZE
  | None => -1
  end.

Definition fw_conf_events (current_machine : Loongson3.MachineState) (ram : Z)
    : list Loongson3.event :=
  [ Loongson3.fw_cfg_init_mem_wide Loongson3.CFG_ADDR (Loongson3.CFG_ADDR + 8);
    Loongson3.fw_cfg_add_i16 "FW_CFG_NB_CPUS"
      (u16 (Z.of_nat (Loongson3.smp_cpus current_machine)));
    Loongson3.fw_cfg_add_i16 "FW_CFG_MAX_CPUS"
      (u16 (Loongson3.smp_max_cpus current_machine));
    Loongson3.fw_cfg_add_i64 "FW_CFG_RAM_SIZE" (u64 ram);
    Loongson3.qemu_register_boot_set;
    Loongson3.rom_add_blob_fixed "fw_conf" Loongson3.Blob_fw_config
      Loongson3.sizeof_fw_config Loongson3.FW_CONF_ADDR ].

Definition device_events (host : Loongson3.Host) : list Loongson3.event :=
  [ Loongson3.isa_bus_new; Loongson3.i8259_init; Loongson3.isa_bus_irqs;
    Loongson3.isa_create_simple "i8042"; Loongson3.mc146818_rtc_init 2000;
    Loongson3.memory_region_init "pci-mem" Loongson3.VIRT_PCI_MEM_SIZE;
    Loongson3.memory_region_init_alias "pci-io" "io" 0 Loongson3.VIRT_PCI_IO_SIZE;
    Loongson3.memory_region_add_subregion "system" Loongson3.VIRT_PCI_IO_BASE "pci-io";
    Loongson3.memory_region_add_subregion "system" Loongson3.VIRT_PCI_MEM_BASE "pci-mem";
    Loongson3.ls7a_init; Loongson3.pci_vga_init ]
  ++ List.map (fun nd => Loongson3.pci_nic_init_nofail (default "virtio" nd))
       (Loongson3.host_nd_table host)
  ++ (if Loongson3.host_serial_hd host 0
      then [Loongson3.serial_mm_init 0x1fe001e0 115200] else []).

(** A host with a BIOS image of [size] bytes under every name, or with
    none when [found] is false. *)
Definition bios_host (found : bool) (size : Z) : Loongson3.Host :=
  Loongson3.mk_Host (fun _ => (-1, 0, 0, 0)) (fun _ => "error") (fun _ => -1)
    (fun _ _ _ => size) (fun _ => 0x7f0000100000)
    (Loongson3.Read_bytes (Loongson3.bytes_of_string demo_cpuinfo))
    (fun name => if found then Some ("/usr/share/qemu/" +:+ name) else None)
    false (fun _ => true) [None] (fun _ => idle_cpu) mips_cpu_reset.

(** A two-CPU machine whose kernel file does not exist on [demo_host]. *)
Definition bad_kernel_machine : Loongson3.MachineState :=
  Loongson3.mk_MachineState (512 * Loongson3.MiB) (Some "nokernel") "" None
    "Loongson-3A" 2 16.

(** * Properties of the host bridge *)

Section ByteArray.
Import Ls7a.

Lemma pci_set_byte_length a off val :
  length (pci_set_byte a off val) = length a.
Proof. apply length_insert. Qed.

Lemma pci_get_set_byte_eq a off val :
  0 <= off -> (Z.to_nat off < length a)%nat ->
  pci_get_byte (pci_set_byte a off val) off = u8 val.
Proof.
  intros _ Hlt. unfold pci_get_byte, pci_set_byte.
  by rewrite list_lookup_insert_eq.
Qed.

Lemma pci_get_set_byte_ne a off off' val :
  0 <= off -> 0 <= off' -> off <> off' ->
  pci_get_byte (pci_set_byte a off val) off' = pci_get_byte a off'.
Proof.
  intros H0 H1 Hne. unfold pci_get_byte, pci_set_byte.
  rewrite list_lookup_insert_ne; [done | lia].
Qed.
End ByteArray.


Section Reset.
Import Ls7a.

Lemma read_store_bytes ws : forall a off,
  Forall (in_array a) ws -> 0 <= off ->
  pci_get_byte (store_bytes ws a) off = read_after ws off (pci_get_byte a off).
Proof.
  induction ws as [|[o v] ws IH]; intros a off Hall Hoff; [done|].
  apply Forall_cons in Hall as [[Ho Hlen] Hall].
  cbn [store_bytes fold_left read_after fst snd] in *.
  fold (store_bytes ws (pci_set_byte a o v)). rewrite IH; [|clear IH|done].
  - f_equal. case_decide as E.
    + subst. by apply pci_get_set_byte_eq.
    + by apply pci_get_set_byte_ne.
  - eapply Forall_impl; [exact Hall|]. intros [o' v'] [? ?]. split; [done|].
    by rewrite pci_set_byte_length.
Qed.

Lemma ls7a_reset_config dev :
  config (ls7a_reset dev) = store_bytes ls7a_reset_config_stores (config dev).
Proof. reflexivity. Qed.

Lemma ls7a_reset_devfn dev : devfn (ls7a_reset dev) = devfn dev.
Proof. reflexivity. Qed.

Lemma store_bytes_length ws : forall a, length (store_bytes ws a) = length a.
Proof.
  induction ws as [|w ws IH]; intros a; [done|].
  cbn [store_bytes fold_left]. fold (store_bytes ws (pci_set_byte a w.1 w.2)).
  by rewrite IH, pci_set_byte_length.
Qed.

Lemma ls7a_reset_stores_in_array a :
  length a = Z.to_nat PCI_CONFIG_SPACE_SIZE ->
  Forall (in_array a) ls7a_reset_config_stores.
Proof.
  intros Hlen. unfold in_array. rewrite Hlen.
  repeat (apply Forall_cons; split; [by vm_compute; split; [discriminate|lia]|]).
  apply Forall_nil_2.
Qed.

(** C1.  Whatever the bridge's configuration space holds when a system
    reset runs the handler, afterwards it reads the reset image: vendor
    0x0014, device 0x7a00, revision 0, class bytes 0x06/0x00, BAR3 = 4 and
    the five other base-address registers 0. *)
Theorem ls7a_reset_image (dev : PCIDevice) :
  length (config dev) = Z.to_nat PCI_CONFIG_SPACE_SIZE ->
  let cfg := config (ls7a_reset dev) in
  length cfg = Z.to_nat PCI_CONFIG_SPACE_SIZE /\
  pci_get_word cfg 0x0 = 0x0014 /\
  pci_get_word cfg 0x2 = 0x7A00 /\
  pci_get_byte cfg 0x8 = 0x00 /\
  pci_get_byte cfg 0xb = 0x06 /\
  pci_get_byte cfg 0xa = 0x00 /\
  pci_get_long cfg PCI_BASE_ADDRESS_3 = 0x00000004 /\
  pci_get_long cfg PCI_BASE_ADDRESS_0 = 0 /\
  pci_get_long cfg PCI_BASE_ADDRESS_1 = 0 /\
  pci_get_long cfg PCI_BASE_ADDRESS_2 = 0 /\
  pci_get_long cfg PCI_BASE_ADDRESS_4 = 0 /\
  pci_get_long cfg PCI_BASE_ADDRESS_5 = 0.
Proof.
  intros Hlen cfg. subst cfg. rewrite ls7a_reset_config.
  pose proof (ls7a_reset_stores_in_array _ Hlen) as Hin.
  split; [by rewrite store_bytes_length|].
  unfold pci_get_long, pci_get_word.
  rewrite !(read_store_bytes _ _ _ Hin) by (vm_compute; discriminate).
  repeat split; reflexivity.
Qed.
End Reset.

Section ResetWitness.
Import Ls7a.

Lemma ls7a_reset_image_witness :
  length (config scrambled_bridge) = Z.to_nat PCI_CONFIG_SPACE_SIZE /\
  pci_get_word (config (ls7a_reset scrambled_bridge)) 0x2 = 0x7A00 /\
  pci_get_long (config (ls7a_reset scrambled_bridge)) PCI_BASE_ADDRESS_3 = 4.
Proof.
  split; [reflexivity|].
  pose proof (ls7a_reset_image scrambled_bridge eq_refl) as H.
  cbv zeta in H. tauto.
Defined.
End ResetWitness.

(** * The interrupt router *)

Section Router.
Import Ls7a.

Lemma virq_lookup (i : Z) :
  0 <= i < 8 -> virq !! Z.to_nat i = Some (default 0 (virq !! Z.to_nat i)).
Proof.
  intros Hi.
  assert (i = 0 \/ i = 1 \/ i = 2 \/ i = 3 \/ i = 4 \/ i = 5 \/ i = 6 \/ i = 7)
    as Hcases by lia.
  repeat (destruct Hcases as [->|Hcases]; [reflexivity|]). by subst.
Qed.

(** C3.  For a device in slot 0..31 whose interrupt-pin register holds
    1..4, [pci_ls7a_map_irq] returns the entry of the 8-entry line table at
    index (pin + slot) mod 8, with the slot taken from the upper bits of
    devfn and the pin from configuration space; any two calls on devices
    with the same devfn and pin register agree, whatever [irq_num] is. *)
Theorem pci_ls7a_map_irq_table (d : PCIDevice) (irq_num slot pin : Z) :
  slot = Z.shiftr (devfn d) 3 ->
  pin = pci_get_byte (config d) PCI_INTERRUPT_PIN ->
  0 <= slot <= 31 -> 1 <= pin <= 4 ->
  length virq = 8%nat /\
  virq !! Z.to_nat ((pin + slot) mod 8) = Some (pci_ls7a_map_irq d irq_num) /\
  (forall (d' : PCIDevice) (irq_num' : Z),
      devfn d' = devfn d ->
      pci_get_byte (config d') PCI_INTERRUPT_PIN = pin ->
      pci_ls7a_map_irq d' irq_num' = pci_ls7a_map_irq d irq_num).
Proof.
  intros Hslot Hpin Hs Hp. split; [reflexivity|]. split.
  - unfold pci_ls7a_map_irq. rewrite <- Hslot, <- Hpin.
    rewrite Z.rem_mod_nonneg by lia.
    apply virq_lookup, Z.mod_pos_bound. lia.
  - intros d' irq_num' Hfn Hpin'. unfold pci_ls7a_map_irq.
    by rewrite Hfn, Hpin', Hpin.
Qed.

Lemma pci_ls7a_map_irq_table_witness :
  5 = Z.shiftr (devfn (slot5_device 4)) 3 /\
  4 = pci_get_byte (config (slot5_device 4)) PCI_INTERRUPT_PIN /\
  0 <= 5 <= 31 /\ 1 <= 4 <= 4 /\
  virq !! Z.to_nat ((4 + 5) mod 8) = Some (pci_ls7a_map_irq (slot5_device 4) 0) /\
  pci_ls7a_map_irq (slot5_device 4) 0 = 4.
Proof.
  assert (5 = Z.shiftr (devfn (slot5_device 4)) 3) as H1 by reflexivity.
  assert (4 = pci_get_byte (config (slot5_device 4)) PCI_INTERRUPT_PIN) as H2
    by reflexivity.
  assert (0 <= 5 <= 31) as H3 by lia.
  assert (1 <= 4 <= 4) as H4 by lia.
  destruct (pci_ls7a_map_irq_table (slot5_device 4) 0 5 4 H1 H2 H3 H4)
    as (_ & Hirq & _).
  repeat split; try assumption; try lia; reflexivity.
Defined.
End Router.

(** * The extended configuration window *)

Section Folding.
Import Ls7a.

Lemma land_bit24 (addr : Z) :
  Z.land addr 0x1000000 <> 0 <-> Z.testbit addr 24 = true.
Proof.
  change 0x1000000 with (2 ^ 24).
  destruct (Z.testbit addr 24) eqn:Hbit; split; try done.
  - intros _ Hz.
    assert (Z.testbit (Z.land addr (2 ^ 24)) 24 = true) as Ht
      by (by rewrite Z.land_spec, Hbit, Z.pow2_bits_true).
    by rewrite Hz, Z.bits_0 in Ht.
  - intros Hnz. exfalso. apply Hnz. apply Z.bits_inj'. intros n Hn.
    rewrite Z.land_spec, Z.bits_0.
    destruct (decide (n = 24)) as [->|Hne].
    + by rewrite Hbit.
    + rewrite (Z.pow2_bits_false 24 n) by lia. apply andb_false_r.
Qed.

Lemma ls7a_fold_spec (addr : Z) :
  (if decide (Z.land addr 0x1000000 <> 0)
   then Z.land addr 0xffff else Z.land addr 0xffffff) = folded_offset addr.
Proof.
  unfold folded_offset. case_decide as Hd.
  - apply land_bit24 in Hd. by rewrite Hd.
  - destruct (Z.testbit addr 24) eqn:Hbit; [|done].
    apply land_bit24 in Hbit. by destruct Hbit.
Qed.

(** C5.  Both handlers of the extended configuration window fold the
    address the same way before calling the PCI configuration primitive:
    with address bit 0x1000000 set the offset is [addr & 0xFFFF], otherwise
    [addr & 0xFFFFFF]; the read handler returns the primitive's result
    unchanged and the write handler hands the written value and the access
    size over unchanged. *)
Theorem ls7a_pci_config_folding (Bus : Type)
    (pci_data_read : Bus -> Z -> Z -> Z)
    (pci_data_write : Bus -> Z -> Z -> Z -> Bus)
    (bus : Bus) (addr val size : Z) :
  ls7a_pci_config_read Bus pci_data_read bus addr size
    = pci_data_read bus (folded_offset addr) size /\
  ls7a_pci_config_write Bus pci_data_write bus addr val size
    = pci_data_write bus (folded_offset addr) val size /\
  folded_offset addr =
    (if Z.testbit addr 24 then Z.land addr 0xFFFF else Z.land addr 0xFFFFFF).
Proof.
  unfold ls7a_pci_config_read, ls7a_pci_config_write.
  rewrite !ls7a_fold_spec. done.
Qed.
End Folding.

(** * The power-management trap *)

Section PowerManagement.
Import Loongson3.

Lemma reset_requests_app t t' :
  reset_requests (t ++ t') = (reset_requests t + reset_requests t')%nat.
Proof. unfold reset_requests. by rewrite List.filter_app, length_app. Qed.

Lemma shutdown_requests_app t t' :
  shutdown_requests (t ++ t') = (shutdown_requests t + shutdown_requests t')%nat.
Proof. unfold shutdown_requests. by rewrite List.filter_app, length_app. Qed.

(** C4.  A write to the trap returns normally and only ever extends the
    log of run-state requests: by exactly one reset request and no
    shutdown request for value 0x00 at the control offset, by exactly one
    shutdown request and no reset request for value 0xFF there, and by
    nothing for any other value or any other offset.  Reads return 0 at
    every offset. *)
Theorem loongson3_pm_trap (addr val size : Z) (w : world) :
  let w' := (loongson3_pm_write addr val size w).2 in
  (loongson3_pm_write addr val size w).1 = Ret tt /\
  trace w' = trace w ++
    (if decide (addr = PM_CNTL_MODE /\ val = 0x00)
     then [qemu_system_reset_request SHUTDOWN_CAUSE_GUEST_RESET]
     else if decide (addr = PM_CNTL_MODE /\ val = 0xFF)
     then [qemu_system_shutdown_request SHUTDOWN_CAUSE_GUEST_SHUTDOWN]
     else []) /\
  reset_requests (trace w') =
    (reset_requests (trace w) +
     (if decide (addr = PM_CNTL_MODE /\ val = 0x00)%Z then 1 else 0))%nat /\
  shutdown_requests (trace w') =
    (shutdown_requests (trace w) +
     (if decide (addr = PM_CNTL_MODE /\ val = 0xFF)%Z then 1 else 0))%nat /\
  (forall addr' size', loongson3_pm_read addr' size' = 0).
Proof.
  intros w'.
  assert ((loongson3_pm_write addr val size w).1 = Ret tt /\
          trace w' = trace w ++
            (if decide (addr = PM_CNTL_MODE /\ val = 0x00)
             then [qemu_system_reset_request SHUTDOWN_CAUSE_GUEST_RESET]
             else if decide (addr = PM_CNTL_MODE /\ val = 0xFF)
             then [qemu_system_shutdown_request SHUTDOWN_CAUSE_GUEST_SHUTDOWN]
             else [])) as [Hret Htr].
  { subst w'. unfold loongson3_pm_write.
    destruct (decide (addr <> PM_CNTL_MODE)) as [Hne|Heq%dec_stable].
    - rewrite !decide_False by tauto. cbn. by rewrite app_nil_r.
    - destruct (decide (val = 0x00)) as [Hz|Hnz].
      + by rewrite decide_True by done.
      + rewrite (decide_False (P := addr = PM_CNTL_MODE /\ val = 0)) by tauto.
        destruct (decide (val = 0xff)) as [Hf|Hnf].
        * by rewrite decide_True by done.
        * rewrite decide_False by tauto. cbn. by rewrite app_nil_r. }
  split; [done|]. split; [done|].
  rewrite Htr, reset_requests_app, shutdown_requests_app.
  split; [|split; [|done]].
  - f_equal. case_decide as H0; [done|]. by case_decide.
  - f_equal. case_decide as H0.
    + by rewrite decide_False by lia.
    + by case_decide.
Qed.
End PowerManagement.

(** * The memory map record *)

Section MemoryMap.
Import Loongson3.

Lemma u32_u64 (x : Z) : u32 (u64 x) = u32 x.
Proof.
  unfold u32, u64. apply Z.mod_mod_divide.
  exists (2 ^ 32). reflexivity.
Qed.

Lemma init_memory_map_run (w : world) (g_map : Z) :
  init_memory_map g_map w =
    (Ret g_map,
     set_heap (insert g_map (Obj_memory_map
       (mk_efi_memory_map_loongson
          (emap_vers (deref_memory_map (heap w) g_map)) 2 300000000
          (<[1%nat :=
              mk_mem_map 0 2 0x90000000
                (u32 (if decide (lp_ram_size (loaderparams w) > 0x10000000)
                      then u64 (Z.shiftr (lp_ram_size (loaderparams w)) 20 - 256)
                      else 0))]>
             (<[0%nat :=
                 mk_mem_map 0 1 0
                   (u32 (u64 ((if decide (lp_ram_size (loaderparams w) > 0x10000000)
                               then 256
                               else Z.shiftr (lp_ram_size (loaderparams w)) 20) - 16)))]>
                (map (deref_memory_map (heap w) g_map))))))) w).
Proof. reflexivity. Qed.

Lemma shiftr20_bound (ram : Z) : 0 <= ram < 2^64 -> 0 <= Z.shiftr ram 20 < 2^44.
Proof.
  intros H. rewrite Z.shiftr_div_pow2 by lia. split.
  - apply Z.div_pos; lia.
  - apply Z.div_lt_upper_bound; lia.
Qed.

(** C2, as amended.  [init_memory_map] stores in map[0] the low-memory
    size minus 16: with R bytes of RAM, (R>>20) - 16 when R <= 256 MiB and
    240 when R > 256 MiB; in map[1] it stores 0 when R <= 256 MiB and
    (R>>20) - 256 when R > 256 MiB.  Both fields are 32 bits wide, so the
    values are taken modulo 2^32: they are exact from 16 MiB up for map[0]
    and below 2^52 bytes for map[1]. *)
Theorem init_memory_map_split (w : world) (g_map : Z) :
  let ram := lp_ram_size (loaderparams w) in
  0 <= ram < 2^64 ->
  (2 <= length (map (deref_memory_map (heap w) g_map)))%nat ->
  let w' := (init_memory_map g_map w).2 in
  (init_memory_map g_map w).1 = Ret g_map /\
  map_mem_size w' g_map 0 =
    Some (if decide (ram > 256 * MiB) then 240 else u32 (Z.shiftr ram 20 - 16)) /\
  map_mem_size w' g_map 1 =
    Some (if decide (ram > 256 * MiB) then u32 (Z.shiftr ram 20 - 256) else 0) /\
  (16 * MiB <= ram <= 256 * MiB ->
     u32 (Z.shiftr ram 20 - 16) = Z.shiftr ram 20 - 16) /\
  (256 * MiB < ram < 2^52 -> u32 (Z.shiftr ram 20 - 256) = Z.shiftr ram 20 - 256).
Proof.
  intros ram Hram Hlen w'. subst w'. rewrite init_memory_map_run. cbn [fst snd].
  fold ram. pose proof (shiftr20_bound ram Hram) as Hsh.
  set (old := deref_memory_map (heap w) g_map) in *.
  unfold map_mem_size, deref_memory_map, set_heap. cbn [heap map].
  rewrite lookup_insert_eq. cbn [map].
  split; [done|]. split; [|split; [|split]].
  - rewrite list_lookup_insert_ne by done.
    rewrite list_lookup_insert_eq by lia. cbn. f_equal.
    change (256 * MiB) with 0x10000000. rewrite u32_u64.
    by case_decide.
  - rewrite list_lookup_insert_eq by (rewrite length_insert; lia). cbn. f_equal.
    change (256 * MiB) with 0x10000000.
    case_decide; [by rewrite u32_u64|done].
  - intros [Hge Hle]. unfold u32. apply Z.mod_small.
    assert (16 <= Z.shiftr ram 20 <= 256); [|lia].
    rewrite Z.shiftr_div_pow2 by lia. unfold MiB in Hge, Hle. split.
    + apply Z.div_le_lower_bound; lia.
    + apply Z.div_le_upper_bound; lia.
  - intros [Hgt Hlt]. unfold u32. apply Z.mod_small.
    assert (256 <= Z.shiftr ram 20 < 2^32); [|lia].
    rewrite Z.shiftr_div_pow2 by lia. unfold MiB in Hgt. split.
    + apply Z.div_le_lower_bound; lia.
    + apply Z.div_lt_upper_bound; lia.
Qed.

Lemma init_memory_map_split_witness :
  0 <= lp_ram_size (loaderparams (fresh_world (512 * MiB))) < 2^64 /\
  (2 <= length (map (deref_memory_map (heap (fresh_world (512 * MiB))) 0x1000)))%nat /\
  map_mem_size (init_memory_map 0x1000 (fresh_world (512 * MiB))).2 0x1000 0 = Some 240 /\
  map_mem_size (init_memory_map 0x1000 (fresh_world (512 * MiB))).2 0x1000 1 = Some 256.
Proof.
  assert (0 <= lp_ram_size (loaderparams (fresh_world (512 * MiB))) < 2^64) as H1
    by (vm_compute; split; [discriminate | reflexivity]).
  assert (2 <= length (map (deref_memory_map (heap (fresh_world (512 * MiB))) 0x1000)))%nat
    as H2 by (vm_compute; lia).
  split; [exact H1|]. split; [exact H2|].
  pose proof (init_memory_map_split (fresh_world (512 * MiB)) 0x1000 H1 H2) as H.
  cbv zeta in H. destruct H as (_ & H0 & H3 & _).
  split; [exact H0 | exact H3].
Defined.

(** C2 as the claim words it fails for 512 MiB of RAM: map[0] then holds
    240, not 256. *)
Lemma init_memory_map_split_counterexample :
  let w' := (init_memory_map 0x1000 (fresh_world (512 * MiB))).2 in
  map_mem_size w' 0x1000 0 = Some 240 /\
  ~ spec_memory_split (512 * MiB) (map_mem_size w' 0x1000 0) (map_mem_size w' 0x1000 1).
Proof.
  split; [reflexivity|].
  intros [_ Hhigh]. destruct Hhigh as [Hlow _]; [reflexivity|].
  vm_compute in Hlow. discriminate.
Qed.
End MemoryMap.

(** * Running the monad step by step *)

Section Stepping.
Import Loongson3.

Lemma bind_run {A B} (m : M A) (k : A -> M B) (w w' : world) (a : A) :
  m w = (Ret a, w') -> bind m k w = k a w'.
Proof. intros H. unfold bind. by rewrite H. Qed.

Lemma bind_exit_run {A B} (m : M A) (k : A -> M B) (w w' : world) (status : Z) :
  m w = (Exit status, w') -> bind m k w = (Exit status, w').
Proof. intros H. unfold bind. by rewrite H. Qed.

Lemma bind_undefined_run {A B} (m : M A) (k : A -> M B) (w w' : world) :
  m w = (Undefined, w') -> bind m k w = (Undefined, w').
Proof. intros H. unfold bind. by rewrite H. Qed.

Lemma u64_small (x : Z) : 0 <= x < 2^64 -> u64 x = x.
Proof. apply Z.mod_small. Qed.

Lemma setenv_overwrite var value w :
  setenv var value 1 w = (Ret tt, set_environ (insert var value) w).
Proof.
  unfold setenv, modify, set_environ. do 2 f_equal.
  by destruct (environ w !! var).
Qed.

Lemma store_run p o w : store p o w = (Ret tt, set_heap (insert p o) w).
Proof. reflexivity. Qed.
Lemma get_run w : get w = (Ret w, w).
Proof. reflexivity. Qed.
Lemma modify_run f w : modify f w = (Ret tt, f w).
Proof. reflexivity. Qed.
Lemma call_run e w : call e w = (Ret tt, set_trace (fun t => t ++ [e]) w).
Proof. reflexivity. Qed.
Lemma error_report_run msg w :
  error_report msg w = (Ret tt, set_stderr (fun l => l ++ [msg]) w).
Proof. reflexivity. Qed.
Lemma pure_run {A} (a : A) w : pure a w = (Ret a, w).
Proof. reflexivity. Qed.
Lemma snprintf_run str size text w :
  snprintf str size text w =
    (Ret (Z.of_nat (String.length text)),
     set_heap (insert str (Obj_chars (String.substring 0 (Z.to_nat (size - 1)) text))) w).
Proof. reflexivity. Qed.
Lemma bind_exit {A B} (k : A -> M B) status w :
  bind (exit status) k w = (Exit status, w).
Proof. reflexivity. Qed.
Lemma bind_assoc {A B C} (m : M A) (k1 : A -> M B) (k2 : B -> M C) w :
  bind (bind m k1) k2 w = bind m (fun a => bind (k1 a) k2) w.
Proof. unfold bind. destruct (m w) as [[a|status|] w']; reflexivity. Qed.

Lemma bind_pure_r {A} (m : M A) w : bind m pure w = m w.
Proof. unfold bind. by destruct (m w) as [[a|status|] w']. Qed.

Lemma assign_lp_run lp f w :
  assign_lp lp f w =
    (Ret tt, set_heap (insert lp (Obj_loongson_params
                         (f (deref_loongson_params (heap w) lp)))) w).
Proof. reflexivity. Qed.

Lemma deref_loongson_params_insert_ne (h : gmap Z object) p o lp :
  p <> lp -> deref_loongson_params (<[p := o]> h) lp = deref_loongson_params h lp.
Proof. intros Hne. unfold deref_loongson_params. by rewrite lookup_insert_ne. Qed.

Lemma deref_loongson_params_insert_eq (h : gmap Z object) lp l :
  deref_loongson_params (<[lp := Obj_loongson_params l]> h) lp = l.
Proof. unfold deref_loongson_params. by rewrite lookup_insert_eq. Qed.

Lemma chain_sizes_aligned :
  List.map align chain_sizes = [3136; 128; 9088; 128; 128; 11392; 11392].
Proof. reflexivity. Qed.

(** The frequency probe: it returns with the lines [cpu_freq_probe] lists
    on the error output, or it leaves defined behaviour with the state
    untouched; it never ends the process. *)
Lemma get_host_cpu_freq_run (host : Host) (w : world) :
  get_host_cpu_freq host w =
    match cpu_freq_probe host with
    | Some (freq, msgs) => (Ret freq, set_stderr (fun l => l ++ msgs) w)
    | None => (Undefined, w)
    end.
Proof.
  unfold cpu_freq_probe, get_host_cpu_freq. cbv zeta.
  destruct (host_proc_cpuinfo host) as [| |data]; [by destruct w..|].
  destruct (strstr _ _) as [[i|]|]; [|by destruct w..].
  destruct (scan_for _ _) as [j|]; [|by destruct w].
  destruct (decide _); [|by destruct w].
  destruct (scan_digits _) as [digits|]; [|by destruct w].
  destruct (atoi _) as [freq|]; [|by destruct w].
  destruct (_ ≫= _) as [r|]; [|by destruct w].
  destruct w. unfold pure, set_stderr. cbn. by rewrite app_nil_r.
Qed.

Lemma get_host_cpu_freq_returns (host : Host) (w : world) freq msgs :
  cpu_freq_probe host = Some (freq, msgs) ->
  get_host_cpu_freq host w = (Ret freq, set_stderr (fun l => l ++ msgs) w).
Proof. intros H. by rewrite get_host_cpu_freq_run, H. Qed.

Lemma get_host_cpu_freq_undefined (host : Host) (w : world) :
  cpu_freq_probe host = None -> get_host_cpu_freq host w = (Undefined, w).
Proof. intros H. by rewrite get_host_cpu_freq_run, H. Qed.

(** ** What a computation leaves alone *)

Lemma preserves_pure {T A} (f : world -> T) (a : A) : preserves f (pure a).
Proof. by intros w. Qed.
Lemma preserves_get {T} (f : world -> T) : preserves f get.
Proof. by intros w. Qed.
Lemma preserves_exit {T A} (f : world -> T) status : preserves f (@exit A status).
Proof. by intros w. Qed.
Lemma preserves_undefined {T A} (f : world -> T) : preserves f (@undefined A).
Proof. by intros w. Qed.
Lemma preserves_modify {T} (f : world -> T) (g : world -> world) :
  (forall w, f (g w) = f w) -> preserves f (modify g).
Proof. intros Hg w. apply Hg. Qed.
Lemma preserves_bind {T A B} (f : world -> T) (m : M A) (k : A -> M B) :
  preserves f m -> (forall a, preserves f (k a)) -> preserves f (bind m k).
Proof.
  intros Hm Hk w. specialize (Hm w). unfold bind.
  destruct (m w) as [[a|status|] w']; cbn [snd] in *; [|done..].
  by rewrite Hk.
Qed.
Lemma preserves_for_each {T A} (f : world -> T) (l : list A) (body : A -> M unit) :
  (forall x, preserves f (body x)) -> preserves f (for_each l body).
Proof.
  intros Hbody. induction l as [|x l IH]; cbn [for_each].
  - apply preserves_pure.
  - apply preserves_bind; [apply Hbody | intros _; apply IH].
Qed.
Lemma preserves_store_ne (key p : Z) (o : object) :
  p <> key -> preserves (fun w => heap w !! key) (store p o).
Proof. intros Hne [] . cbn. by rewrite lookup_insert_ne. Qed.

Lemma extends_log_pure {A} (a : A) : extends_log (pure a).
Proof. intros w. exists []. by rewrite app_nil_r. Qed.

Lemma extends_log_get : extends_log get.
Proof. intros w. exists []. by rewrite app_nil_r. Qed.

Lemma extends_log_exit {A} status : extends_log (@exit A status).
Proof. intros w. exists []. by rewrite app_nil_r. Qed.

Lemma extends_log_undefined {A} : extends_log (@undefined A).
Proof. intros w. exists []. by rewrite app_nil_r. Qed.

Lemma extends_log_call e : extends_log (call e).
Proof. intros w. exists [e]. by destruct w. Qed.

Lemma extends_log_modify (f : world -> world) :
  (forall w, trace (f w) = trace w /\ cpus (f w) = cpus w) ->
  extends_log (modify f).
Proof.
  intros Hf w. exists []. rewrite app_nil_r. apply Hf.
Qed.

Lemma extends_log_error_report msg : extends_log (error_report msg).
Proof. apply extends_log_modify. by intros []. Qed.

Lemma extends_log_fprintf_stderr line : extends_log (fprintf_stderr line).
Proof. apply extends_log_modify. by intros []. Qed.

Lemma extends_log_store p o : extends_log (store p o).
Proof. apply extends_log_modify. by intros []. Qed.

Lemma extends_log_setenv var value overwrite : extends_log (setenv var value overwrite).
Proof. apply extends_log_modify. by intros []. Qed.

Lemma extends_log_bind {A B} (m : M A) (k : A -> M B) :
  extends_log m -> (forall a, extends_log (k a)) -> extends_log (bind m k).
Proof.
  intros Hm Hk w. destruct (Hm w) as (t & Ht & Hc). unfold bind.
  destruct (m w) as [[a|status|] w'] eqn:Hrun; cbn [snd] in *.
  - destruct (Hk a w') as (t' & Ht' & Hc'). exists (t ++ t').
    rewrite Ht', Hc', Ht, Hc. by rewrite app_assoc.
  - exists t. done.
  - exists t. done.
Qed.

Lemma extends_log_for_each {A} (l : list A) (body : A -> M unit) :
  (forall x, extends_log (body x)) -> extends_log (for_each l body).
Proof.
  intros Hbody. induction l as [|x l IH]; cbn [for_each].
  - apply extends_log_pure.
  - apply extends_log_bind; [apply Hbody | intros _; apply IH].
Qed.

Lemma extends_log_get_host_cpu_freq (host : Host) :
  extends_log (get_host_cpu_freq host).
Proof.
  intros w. exists []. rewrite app_nil_r, get_host_cpu_freq_run.
  destruct (cpu_freq_probe host) as [[freq msgs]|]; by destruct w.
Qed.

End Stepping.
Ltac run_init :=
  eexists; split;
  [| unfold Loongson3.init_memory_map, Loongson3.init_cpu_info, Loongson3.init_system_loongson, Loongson3.init_irq_source,
       Loongson3.init_interface_info, Loongson3.board_devices_info, Loongson3.init_special_info;
     unfold Loongson3.bind, Loongson3.get, Loongson3.store, Loongson3.modify, Loongson3.pure; cbv beta iota zeta; reflexivity];
  reflexivity.

Ltac align_values :=
  change (Loongson3.align Loongson3.sizeof_efi_memory_map_loongson) with 3136 in *;
  change (Loongson3.align Loongson3.sizeof_efi_cpuinfo_loongson) with 128 in *;
  change (Loongson3.align Loongson3.sizeof_system_loongson) with 9088 in *;
  change (Loongson3.align Loongson3.sizeof_irq_source_routing_table) with 128 in *;
  change (Loongson3.align Loongson3.sizeof_interface_info) with 128 in *;
  change (Loongson3.align Loongson3.sizeof_board_devices) with 11392 in *;
  change (Loongson3.align Loongson3.sizeof_loongson_special_attribute) with 11392 in *.

Ltac world_simpl :=
  unfold Loongson3.set_heap, Loongson3.set_boot_params_p, Loongson3.set_stderr;
  cbn [Loongson3.heap Loongson3.loaderparams Loongson3.fw_config Loongson3.boot_params_p Loongson3.boot_params_buf
       Loongson3.ram_size Loongson3.bios_name Loongson3.environ Loongson3.stderr Loongson3.trace Loongson3.cpus].

Ltac world_norm :=
  unfold Loongson3.set_heap, Loongson3.set_boot_params_p, Loongson3.set_boot_params_buf, Loongson3.set_trace, Loongson3.set_stderr,
    Loongson3.set_environ, Loongson3.set_loaderparams, Loongson3.set_cpus, Loongson3.set_bios_name, Loongson3.set_fw_config;
  cbn [Loongson3.heap Loongson3.loaderparams Loongson3.fw_config Loongson3.boot_params_p Loongson3.boot_params_buf
       Loongson3.ram_size Loongson3.bios_name Loongson3.environ Loongson3.stderr Loongson3.trace Loongson3.cpus
       Loongson3.lp_ram_size Loongson3.kernel_cmdline Loongson3.kernel_filename Loongson3.initrd_filename Loongson3.kernel_entry
       Loongson3.a0 Loongson3.a1 Loongson3.a2].

Ltac run0 :=
  rewrite ?bind_assoc;
  first
    [ rewrite (bind_run _ _ _ _ _ (snprintf_run _ _ _ _))
    | rewrite (bind_run _ _ _ _ _ (store_run _ _ _))
    | rewrite (bind_run _ _ _ _ _ (get_run _))
    | rewrite (bind_run _ _ _ _ _ (call_run _ _))
    | rewrite (bind_run _ _ _ _ _ (error_report_run _ _))
    | rewrite (bind_run _ _ _ _ _ (setenv_overwrite _ _ _))
    | rewrite (bind_run _ _ _ _ _ (modify_run _ _))
    | rewrite (bind_run _ _ _ _ _ (pure_run _ _))
    | rewrite bind_exit ];
  cbv beta zeta.

Ltac run1 := run0; world_norm.

(** One link of the chain: build the record at [p], then store its offset. *)
Ltac chain_link obj_lemma :=
  match goal with
  | |- context [Loongson3.bind (?init ?p) _ ?w] =>
    let o := fresh "o" in
    let Hk := fresh "Hk" in
    let Hr := fresh "Hr" in
    destruct (obj_lemma w p) as (o & Hk & Hr);
    rewrite (bind_run _ _ _ _ _ Hr);
    rewrite (bind_run _ _ _ _ _ (assign_lp_run _ _ _));
    world_simpl;
    rewrite deref_loongson_params_insert_ne by lia;
    rewrite ?deref_loongson_params_insert_eq
  end.

Ltac extends_log_step :=
  lazymatch goal with
  | |- extends_log (Loongson3.bind _ _) => apply extends_log_bind; [|intros ?]
  | |- extends_log (Loongson3.pure _) => apply extends_log_pure
  | |- extends_log Loongson3.get => apply extends_log_get
  | |- extends_log (Loongson3.exit _) => apply extends_log_exit
  | |- extends_log Loongson3.undefined => apply extends_log_undefined
  | |- extends_log (Loongson3.call _) => apply extends_log_call
  | |- extends_log (Loongson3.error_report _) => apply extends_log_error_report
  | |- extends_log (Loongson3.fprintf_stderr _) => apply extends_log_fprintf_stderr
  | |- extends_log (Loongson3.get_host_cpu_freq _) =>
    apply extends_log_get_host_cpu_freq
  | |- extends_log (Loongson3.store _ _) => apply extends_log_store
  | |- extends_log (Loongson3.setenv _ _ _) => apply extends_log_setenv
  | |- extends_log (Loongson3.snprintf _ _ _) => unfold Loongson3.snprintf
  | |- extends_log (Loongson3.assign_lp _ _) => unfold Loongson3.assign_lp
  | |- extends_log (Loongson3.modify _) =>
    apply extends_log_modify; intros []; split; reflexivity
  | |- extends_log (Loongson3.for_each _ _) => apply extends_log_for_each; intros ?
  | |- extends_log (if ?c then _ else _) => destruct c
  | |- extends_log (match ?x with _ => _ end) => destruct x
  | |- extends_log (let _ := _ in _) => cbv zeta
  end.

(** One step of a proof that a computation leaves a component alone. *)
Ltac preserves_step :=
  lazymatch goal with
  | |- preserves _ (Loongson3.bind _ _) => apply preserves_bind; [|intros ?]
  | |- preserves _ (Loongson3.pure _) => apply preserves_pure
  | |- preserves _ Loongson3.get => apply preserves_get
  | |- preserves _ (Loongson3.exit _) => apply preserves_exit
  | |- preserves _ Loongson3.undefined => apply preserves_undefined
  | |- preserves (fun w => Loongson3.heap w !! _) (Loongson3.store _ _) =>
    apply preserves_store_ne; lia
  | |- preserves _ (Loongson3.store _ _) =>
    apply preserves_modify; intros []; reflexivity
  | |- preserves _ (Loongson3.call _) =>
    apply preserves_modify; intros []; reflexivity
  | |- preserves _ (Loongson3.error_report _) =>
    apply preserves_modify; intros []; reflexivity
  | |- preserves _ (Loongson3.fprintf_stderr _) =>
    apply preserves_modify; intros []; reflexivity
  | |- preserves _ (Loongson3.setenv _ _ _) =>
    apply preserves_modify; intros []; reflexivity
  | |- preserves _ (Loongson3.modify _) =>
    apply preserves_modify; intros []; reflexivity
  | |- preserves _ (Loongson3.for_each _ _) => apply preserves_for_each; intros ?
  | |- preserves _ (Loongson3.snprintf _ _ _) => unfold Loongson3.snprintf
  | |- preserves _ (Loongson3.assign_lp _ _) => unfold Loongson3.assign_lp
  | |- preserves _ (Loongson3.get_host_cpu_freq _) =>
    unfold Loongson3.get_host_cpu_freq
  | |- preserves _ (Loongson3.init_memory_map _) => unfold Loongson3.init_memory_map
  | |- preserves _ (Loongson3.init_cpu_info _ _ _) => unfold Loongson3.init_cpu_info
  | |- preserves _ (Loongson3.init_system_loongson _) =>
    unfold Loongson3.init_system_loongson
  | |- preserves _ (Loongson3.init_irq_source _) => unfold Loongson3.init_irq_source
  | |- preserves _ (Loongson3.init_interface_info _) =>
    unfold Loongson3.init_interface_info
  | |- preserves _ (Loongson3.board_devices_info _) =>
    unfold Loongson3.board_devices_info
  | |- preserves _ (Loongson3.init_special_info _) =>
    unfold Loongson3.init_special_info
  | |- preserves _ (Loongson3.init_reset_system _) =>
    unfold Loongson3.init_reset_system
  | |- preserves _ (Loongson3.fw_conf_init _ _ _) => unfold Loongson3.fw_conf_init
  | |- preserves _ Loongson3.loongson3_isa_init => unfold Loongson3.loongson3_isa_init
  | |- preserves _ (Loongson3.loongson3_pcie_init _ _) =>
    unfold Loongson3.loongson3_pcie_init
  | |- preserves _ (if ?c then _ else _) => destruct c
  | |- preserves _ (match ?x with _ => _ end) => destruct x
  | |- preserves _ (let _ := _ in _) => cbv zeta
  end.

(** * The boot-info chain *)

Section Chain.
Import Loongson3.
Variable host : Host.
Variable current_machine : MachineState.

Lemma init_memory_map_obj w p :
  exists o, record_kind o = Some 0%nat /\
    init_memory_map p w = (Ret p, set_heap (insert p o) w).
Proof. run_init. Qed.

Lemma deref_cpuinfo_insert_eq (h : gmap Z object) p c :
  deref_cpuinfo (<[p := Obj_cpuinfo c]> h) p = c.
Proof. unfold deref_cpuinfo. by rewrite lookup_insert_eq. Qed.

Lemma deref_cpuinfo_insert_ne (h : gmap Z object) p o q :
  p <> q -> deref_cpuinfo (<[p := o]> h) q = deref_cpuinfo h q.
Proof. intros Hne. unfold deref_cpuinfo. by rewrite lookup_insert_ne. Qed.

(** [init_cpu_info] on a host where the frequency probe returns. *)
Lemma init_cpu_info_run (w : world) (p freq : Z) (msgs : list string) :
  cpu_freq_probe host = Some (freq, msgs) ->
  let c := deref_cpuinfo (heap w) p in
  init_cpu_info host current_machine p w =
    (Ret p,
     set_stderr (fun l => l ++ msgs)
       (set_heap (insert p (Obj_cpuinfo
          (mk_efi_cpuinfo_loongson (cpuinfo_vers c) 0x14C000 Loongson_3A
             ((Z.of_nat (smp_cpus current_machine) + 3) / 4) 0
             (reserved_cores_mask c)
             (if decide (u32 freq = 0) then 400000000 else u32 freq)
             (Z.of_nat (smp_cpus current_machine)) (cpuname c)))) w)).
Proof.
  intros Hprobe. cbv zeta. unfold init_cpu_info.
  do 2 run0.
  rewrite (bind_run _ _ _ _ _ (get_host_cpu_freq_returns _ _ _ _ Hprobe)).
  do 2 run0. rewrite pure_run.
  destruct w as [lprm fwc p0 buf ram bn env h err tr cp]. world_norm.
  rewrite !deref_cpuinfo_insert_eq.
  cbn [cpuinfo_vers processor_id cputype reserved_cores_mask cpuname].
  by rewrite insert_insert_eq.
Qed.

(** [init_cpu_info] on a host where the probe has no defined behaviour:
    the two identification fields are stored, nothing else. *)
Lemma init_cpu_info_undefined (w : world) (p : Z) :
  cpu_freq_probe host = None ->
  let c := deref_cpuinfo (heap w) p in
  init_cpu_info host current_machine p w =
    (Undefined,
     set_heap (insert p (Obj_cpuinfo
       (mk_efi_cpuinfo_loongson (cpuinfo_vers c) 0x14C000 Loongson_3A
          (total_node c) (cpu_startup_core_id c) (reserved_cores_mask c)
          (cpu_clock_freq c) (nr_cpus c) (cpuname c)))) w).
Proof.
  intros Hprobe. cbv zeta. unfold init_cpu_info.
  do 2 run0.
  by rewrite (bind_undefined_run _ _ _ _ (get_host_cpu_freq_undefined _ _ Hprobe)).
Qed.

Lemma init_cpu_info_obj w p freq msgs :
  cpu_freq_probe host = Some (freq, msgs) ->
  exists o, record_kind o = Some 1%nat /\
    init_cpu_info host current_machine p w =
      (Ret p, set_stderr (fun l => l ++ msgs) (set_heap (insert p o) w)).
Proof.
  intros Hprobe. eexists. split; [|apply (init_cpu_info_run w p freq msgs Hprobe)].
  reflexivity.
Qed.

Lemma init_system_loongson_obj w p :
  exists o, record_kind o = Some 2%nat /\
    init_system_loongson p w = (Ret p, set_heap (insert p o) w).
Proof. run_init. Qed.

Lemma init_irq_source_obj w p :
  exists o, record_kind o = Some 3%nat /\
    init_irq_source p w = (Ret p, set_heap (insert p o) w).
Proof. run_init. Qed.

Lemma init_interface_info_obj w p :
  exists o, record_kind o = Some 4%nat /\
    init_interface_info p w = (Ret p, set_heap (insert p o) w).
Proof. run_init. Qed.

Lemma board_devices_info_obj w p :
  exists o, record_kind o = Some 5%nat /\
    board_devices_info p w = (Ret p, set_heap (insert p o) w).
Proof. run_init. Qed.

Lemma init_special_info_obj w p :
  exists o, record_kind o = Some 6%nat /\
    init_special_info p w = (Ret p, set_heap (insert p o) w).
Proof. run_init. Qed.

Lemma init_loongson_params_run (w : world) (lp freq : Z) (msgs : list string) :
  cpu_freq_probe host = Some (freq, msgs) ->
  lp < boot_params_p w ->
  exists o0 o1 o2 o3 o4 o5 o6,
    List.map record_kind [o0; o1; o2; o3; o4; o5; o6] =
      List.map Some [0; 1; 2; 3; 4; 5; 6]%nat /\
    heap (init_memory_map (boot_params_p w) w).2 !! boot_params_p w = Some o0 /\
    heap (init_cpu_info host current_machine (boot_params_p w + 3136) w).2
      !! (boot_params_p w + 3136) = Some o1 /\
    let p0 := boot_params_p w in
    let p1 := p0 + 3136 in
    let p2 := p1 + 128 in
    let p3 := p2 + 9088 in
    let p4 := p3 + 128 in
    let p5 := p4 + 128 in
    let p6 := p5 + 11392 in
    let l1 := with_memory_offset (u64 (p0 - lp)) (deref_loongson_params (heap w) lp) in
    let l2 := with_cpu_offset (u64 (p1 - lp)) l1 in
    let l3 := with_system_offset (u64 (p2 - lp)) l2 in
    let l4 := with_irq_offset (u64 (p3 - lp)) l3 in
    let l5 := with_interface_offset (u64 (p4 - lp)) l4 in
    let l6 := with_boarddev_table_offset (u64 (p5 - lp)) l5 in
    let l7 := with_special_offset (u64 (p6 - lp)) l6 in
    init_loongson_params host current_machine lp w =
      (Ret tt,
       set_stderr (fun l => l ++ msgs)
         (set_boot_params_p (p6 + 11392)
            (set_heap (fun h =>
               <[lp := Obj_loongson_params l7]> (<[p6 := o6]>
               (<[lp := Obj_loongson_params l6]> (<[p5 := o5]>
               (<[lp := Obj_loongson_params l5]> (<[p4 := o4]>
               (<[lp := Obj_loongson_params l4]> (<[p3 := o3]>
               (<[lp := Obj_loongson_params l3]> (<[p2 := o2]>
               (<[lp := Obj_loongson_params l2]> (<[p1 := o1]>
               (<[lp := Obj_loongson_params l1]> (<[p0 := o0]> h)))))))))))))) w))).
Proof.
  intros Hprobe Hlp.
  destruct w as [lprm fwc p0 buf ram bn env h err tr cp].
  cbn [boot_params_p heap] in *.
  rewrite init_memory_map_run, (init_cpu_info_run _ _ _ _ Hprobe).
  unfold init_loongson_params.
  rewrite (bind_run _ _ _ _ _ (get_run _)). cbv zeta. cbn [boot_params_p].
  align_values.
  rewrite (bind_run _ _ _ _ _ (init_memory_map_run _ _)).
  rewrite (bind_run _ _ _ _ _ (assign_lp_run _ _ _)).
  world_simpl.
  rewrite deref_loongson_params_insert_ne by lia.
  rewrite (bind_run _ _ _ _ _ (init_cpu_info_run _ _ _ _ Hprobe)).
  rewrite (bind_run _ _ _ _ _ (assign_lp_run _ _ _)).
  world_simpl.
  rewrite deref_loongson_params_insert_ne by lia.
  rewrite deref_loongson_params_insert_eq.
  rewrite !deref_cpuinfo_insert_ne by lia.
  chain_link init_system_loongson_obj.
  chain_link init_irq_source_obj.
  chain_link init_interface_info_obj.
  chain_link board_devices_info_obj.
  chain_link init_special_info_obj.
  unfold modify. world_simpl.
  eexists (Obj_memory_map _), (Obj_cpuinfo _), o, o0, o1, o2, o3.
  split; [|split; [|split]].
  - cbn [List.map record_kind]. rewrite Hk, Hk0, Hk1, Hk2, Hk3. reflexivity.
  - cbn [snd heap]. apply lookup_insert_eq.
  - cbn [snd heap]. apply lookup_insert_eq.
  - reflexivity.
Qed.

(** C6.  [init_loongson_params] lays the seven records out back to back
    from [boot_params_p], in the order memory map, CPU info, system info,
    IRQ routing, interface info, board devices, special attribute: each
    record starts [align(sizeof(previous))] bytes after the previous one,
    each offset field holds its record's start address minus the address
    [lp] the offsets are measured from, so consecutive offsets differ by
    the 64-byte-aligned size of the record between them.  The offset table
    at [lp] lies below the chain, and the frequency probe that
    [init_cpu_info] runs in between returns. *)
Theorem init_loongson_params_chain (w : world) (lp freq : Z) (msgs : list string) :
  cpu_freq_probe host = Some (freq, msgs) ->
  0 <= lp ->
  lp + sizeof_loongson_params <= boot_params_p w ->
  chain_end (boot_params_p w) chain_sizes < 2^64 ->
  let w' := (init_loongson_params host current_machine lp w).2 in
  let starts := chain_starts (boot_params_p w) chain_sizes in
  let offsets := chain_offsets (deref_loongson_params (heap w') lp) in
  (init_loongson_params host current_machine lp w).1 = Ret tt /\
  List.map (record_kind_at (heap w')) starts =
    List.map Some [0; 1; 2; 3; 4; 5; 6]%nat /\
  (forall (i : nat) (a a' sz : Z),
      starts !! i = Some a -> starts !! S i = Some a' ->
      chain_sizes !! i = Some sz -> a' = a + align sz) /\
  offsets = List.map (fun a => a - lp) starts /\
  (forall (i : nat) (o o' sz : Z),
      offsets !! i = Some o -> offsets !! S i = Some o' ->
      chain_sizes !! i = Some sz -> o' - o = align sz) /\
  boot_params_p w' = chain_end (boot_params_p w) chain_sizes /\
  stderr w' = stderr w ++ msgs.
Proof.
  intros Hprobe Hlp0 Hlp Hend. cbv zeta.
  change sizeof_loongson_params with 56 in Hlp.
  assert (forall i a a' sz,
            chain_starts (boot_params_p w) chain_sizes !! i = Some a ->
            chain_starts (boot_params_p w) chain_sizes !! S i = Some a' ->
            chain_sizes !! i = Some sz -> a' = a + align sz) as Hstarts.
  { intros i a a' sz.
    do 7 (destruct i as [|i]; [cbn; intros; simplify_eq; reflexivity|]).
    cbn. intros; simplify_eq. }
  destruct (init_loongson_params_run w lp freq msgs Hprobe ltac:(lia))
    as (o0 & o1 & o2 & o3 & o4 & o5 & o6 & Hkinds & Hrun).
  destruct Hrun as (_ & _ & Hrun). cbv zeta in Hrun. rewrite Hrun. clear Hrun.
  cbn [List.map] in Hkinds. simplify_eq.
  unfold chain_end, chain_starts, chain_sizes in *. cbn [fold_left] in *.
  align_values.
  set (p0 := boot_params_p w) in *.
  world_simpl. cbn [fst snd heap boot_params_p stderr].
  rewrite deref_loongson_params_insert_eq.
  rewrite !u64_small by lia.
  split; [done|]. split; [|split; [exact Hstarts|split; [|split; [|done]]]].
  - unfold record_kind_at. cbn [List.map].
    repeat first [rewrite lookup_insert_eq | rewrite lookup_insert_ne by lia].
    cbn [mbind option_bind].
    by repeat match goal with H : record_kind _ = _ |- _ => rewrite H; clear H end.
  - reflexivity.
  - intros i o o' sz.
    do 7 (destruct i as [|i]; [cbn; intros; simplify_eq; align_values; lia|]).
    cbn. intros; simplify_eq.
Qed.

End Chain.

Section ChainWitness.
Import Loongson3.

Lemma init_loongson_params_chain_witness :
  cpu_freq_probe null_host = Some (0, ["Failed to open /proc/cpuinfo!"]) /\
  0x100048 + sizeof_loongson_params <= boot_params_p chain_world /\
  chain_end (boot_params_p chain_world) chain_sizes < 2^64 /\
  chain_offsets
    (deref_loongson_params
       (heap (init_loongson_params null_host demo_machine 0x100048 chain_world).2)
       0x100048)
  = [152; 3288; 3416; 12504; 12632; 12760; 24152].
Proof.
  assert (0x100048 + sizeof_loongson_params <= boot_params_p chain_world) as H1
    by (vm_compute; discriminate).
  assert (chain_end (boot_params_p chain_world) chain_sizes < 2^64) as H2
    by (vm_compute; done).
  split; [reflexivity|]. split; [exact H1|]. split; [exact H2|].
  pose proof (init_loongson_params_chain null_host demo_machine chain_world
                0x100048 0 _ eq_refl ltac:(lia) H1 H2) as H.
  cbv zeta in H. destruct H as (_ & _ & _ & Hoff & _).
  rewrite Hoff. reflexivity.
Defined.
End ChainWitness.
(** * The kernel loader *)

Section Loader.
Import Loongson3.
Variable host : Host.
Variable current_machine : MachineState.

Lemma blob_length_spec (text : string) :
  let n := 16 + (1 + 1) + (1 + Z.of_nat (String.length text)) in
  blob_length text = 32 * ((n + 32) / 32) /\ n < blob_length text <= n + 32.
Proof.
  cbv zeta. unfold blob_length.
  set (n := 16 + (1 + 1) + (1 + Z.of_nat (String.length text))).
  assert (0 <= n) as Hn by lia.
  change (Z.lnot 31) with (Z.lnot (Z.ones 5)).
  rewrite <- Z.ldiff_land, Z.ldiff_ones_r by lia.
  rewrite Z.shiftl_mul_pow2, Z.shiftr_div_pow2 by lia.
  change (2 ^ 5) with 32.
  pose proof (Z.div_mod (n + 32) 32 ltac:(lia)) as Hdm.
  pose proof (Z.mod_pos_bound (n + 32) 32 ltac:(lia)). lia.
Qed.

Lemma deref_reset_system_insert_eq (h : gmap Z object) p r :
  deref_reset_system (<[p := Obj_reset_system r]> h) p = r.
Proof. unfold deref_reset_system. by rewrite lookup_insert_eq. Qed.

Lemma init_memory_map_cong (w1 w2 : world) (p : Z) :
  heap w1 !! p = heap w2 !! p ->
  lp_ram_size (loaderparams w1) = lp_ram_size (loaderparams w2) ->
  heap (init_memory_map p w1).2 !! p = heap (init_memory_map p w2).2 !! p.
Proof.
  intros Hh Hr. rewrite !init_memory_map_run. unfold set_heap. cbn [snd heap].
  rewrite !lookup_insert_eq. unfold deref_memory_map. by rewrite Hh, Hr.
Qed.

Lemma init_cpu_info_cong (w1 w2 : world) (p freq : Z) (msgs : list string) :
  cpu_freq_probe host = Some (freq, msgs) ->
  heap w1 !! p = heap w2 !! p ->
  heap (init_cpu_info host current_machine p w1).2 !! p =
  heap (init_cpu_info host current_machine p w2).2 !! p.
Proof.
  intros Hprobe Hh. rewrite !(init_cpu_info_run _ _ _ _ _ _ Hprobe).
  unfold set_heap, set_stderr. cbn [snd heap].
  rewrite !lookup_insert_eq. unfold deref_cpuinfo. by rewrite Hh.
Qed.

(** What the chain builder leaves at the first two record addresses, in
    the offset table and outside the chain, when the probe returns. *)
Lemma init_loongson_params_records (w : world) (lp freq : Z) (msgs : list string) :
  cpu_freq_probe host = Some (freq, msgs) ->
  lp < boot_params_p w ->
  let p0 := boot_params_p w in
  exists h',
    init_loongson_params host current_machine lp w =
      (Ret tt,
       set_stderr (fun l => l ++ msgs)
         (set_boot_params_p (p0 + 35392) (set_heap (fun _ => h') w))) /\
    h' !! p0 = heap (init_memory_map p0 w).2 !! p0 /\
    h' !! (p0 + 3136) =
      heap (init_cpu_info host current_machine (p0 + 3136) w).2 !! (p0 + 3136) /\
    memory_offset (deref_loongson_params h' lp) = u64 (p0 - lp) /\
    cpu_offset (deref_loongson_params h' lp) = u64 (p0 + 3136 - lp) /\
    (forall a, a <> lp -> a < p0 \/ p0 + 35392 <= a -> h' !! a = heap w !! a).
Proof.
  intros Hprobe Hlp. cbv zeta.
  destruct (init_loongson_params_run host current_machine w lp freq msgs Hprobe Hlp)
    as (o0 & o1 & o2 & o3 & o4 & o5 & o6 & _ & Hm & Hc & Hrun).
  cbv zeta in Hrun. rewrite Hrun, Hm, Hc. clear Hrun Hm Hc.
  set (p0 := boot_params_p w) in *.
  replace (p0 + 3136 + 128 + 9088 + 128 + 128 + 11392 + 11392)
    with (p0 + 35392) by lia.
  eexists. split.
  { destruct w. unfold set_heap. reflexivity. }
  rewrite deref_loongson_params_insert_eq.
  split; [|split; [|split; [reflexivity|split; [reflexivity|]]]].
  - by rewrite !lookup_insert_ne, lookup_insert_eq by lia.
  - by rewrite !lookup_insert_ne, lookup_insert_eq by lia.
  - intros a Ha Hout. by rewrite !lookup_insert_ne by lia.
Qed.

(** [init_loongson_params] writes, however it ends, at [lp] and inside the chain only. *)
Lemma init_loongson_params_heap_frame (w : world) (lp key : Z) :
  key <> lp ->
  key < boot_params_p w \/ boot_params_p w + 35392 <= key ->
  heap (init_loongson_params host current_machine lp w).2 !! key = heap w !! key.
Proof.
  intros Hne Hout. unfold init_loongson_params.
  rewrite (bind_run _ _ _ _ _ (get_run _)). cbv zeta. align_values.
  match goal with
  | |- heap (?m w).2 !! _ = _ =>
    enough (preserves (fun x => heap x !! key) m) as H by apply H
  end.
  repeat preserves_step.
Qed.

(** [init_boot_param] on a block whose chain cursor stands right behind
    the aligned [struct boot_params], when the probe returns. *)
Lemma init_boot_param_run (w : world) (bp freq : Z) (msgs : list string) :
  cpu_freq_probe host = Some (freq, msgs) ->
  boot_params_p w = bp + align sizeof_boot_params ->
  exists h',
    init_boot_param host current_machine bp w =
      (Ret 0,
       set_stderr (fun l => l ++ msgs)
         (set_boot_params_p (bp + 192 + 35392) (set_heap (fun _ => h') w))) /\
    h' !! (bp + 24) = Some (Obj_smbios_vers 1) /\
    memory_offset (deref_loongson_params h' (bp + 40)) = 152 /\
    deref_reset_system h' (bp + 112) =
      mk_efi_reset_system_t 0xffffffffbfc00088 0xffffffffbfc00088
        (ResetType (deref_reset_system (heap w) (bp + 112)))
        0xffffffffbfc000b0
        (DoSuspend (deref_reset_system (heap w) (bp + 112))) /\
    (forall a, a < bp \/ bp + 192 + 35392 <= a -> h' !! a = heap w !! a) /\
    h' !! (bp + 192) = heap (init_memory_map (bp + 192) w).2 !! (bp + 192) /\
    h' !! (bp + 192 + 3136) =
      heap (init_cpu_info host current_machine (bp + 192 + 3136) w).2
        !! (bp + 192 + 3136).
Proof.
  intros Hprobe Hp.
  change (align sizeof_boot_params) with 192 in Hp.
  unfold init_boot_param, init_efi, init_smbios.
  change offsetof_boot_params_efi with 0.
  change offsetof_efi_loongson_smbios with 24.
  change offsetof_smbios_tables_lp with 16.
  change offsetof_boot_params_reset_system with 112.
  replace (bp + 0 + 24) with (bp + 24) by lia.
  replace (bp + 24 + 16) with (bp + 40) by lia.
  run0.
  match goal with
  | |- context [bind (init_loongson_params _ _ ?lp) _ ?W] =>
    destruct (init_loongson_params_records W lp freq msgs Hprobe)
      as (h1 & Hrun & Hmm & Hci & Hmo & _ & Hframe)
  end.
  { destruct w; cbn in *; lia. }
  cbv zeta in Hrun, Hmo, Hframe, Hmm, Hci.
  rewrite (bind_run _ _ _ _ _ Hrun). clear Hrun.
  unfold init_reset_system. run0. run0.
  destruct w as [lprm fwc p0 buf ram bn env h err tr cp].
  cbn [boot_params_p heap] in *. subst p0. world_simpl.
  unfold set_heap in Hframe, Hmo. cbn [heap boot_params_p] in Hframe, Hmo.
  unfold set_heap in Hmm at 1 2. cbn [boot_params_p] in Hmm.
  unfold set_heap in Hci at 1 2. cbn [boot_params_p] in Hci.
  rewrite pure_run.
  eexists. split; [reflexivity|].
  assert (h1 !! (bp + 112) = h !! (bp + 112)) as H112.
  { rewrite Hframe by lia. by rewrite lookup_insert_ne by lia. }
  assert (deref_reset_system h1 (bp + 112) = deref_reset_system h (bp + 112)) as Hrs.
  { unfold deref_reset_system. by rewrite H112. }
  rewrite Hrs.
  split; [|split; [|split; [|split; [|split]]]].
  - rewrite lookup_insert_ne by lia. rewrite Hframe by lia.
    by rewrite lookup_insert_eq.
  - unfold deref_loongson_params. rewrite lookup_insert_ne by lia.
    fold (deref_loongson_params h1 (bp + 40)). rewrite Hmo.
    replace (bp + 192 - (bp + 40)) with 152 by lia. reflexivity.
  - by rewrite deref_reset_system_insert_eq.
  - intros a Ha. rewrite lookup_insert_ne by lia. rewrite Hframe by lia.
    by rewrite lookup_insert_ne by lia.
  - rewrite lookup_insert_ne by lia. rewrite Hmm.
    apply init_memory_map_cong; [|done].
    unfold set_heap. cbn [heap]. by rewrite lookup_insert_ne by lia.
  - rewrite lookup_insert_ne by lia. rewrite Hci.
    apply (init_cpu_info_cong _ _ _ _ _ Hprobe).
    unfold set_heap. cbn [heap]. by rewrite lookup_insert_ne by lia.
Qed.

(** The start of [set_prom_bootparam], up to the call of
    [init_boot_param]: the argument vector, the two environment variables
    and the two cursors. *)
Lemma set_prom_bootparam_start {B} (k : Z -> M B)
    (initrd_offset initrd_size : Z) (w : world) :
  let buf := host_g_malloc0 host 0x100000 in
  let text := argv1_text initrd_offset initrd_size (kernel_cmdline (loaderparams w)) in
  let len := Z.of_nat (String.length text) in
  let ram := lp_ram_size (loaderparams w) in
  let bp := buf + blob_length text in
  bind (set_prom_bootparam host current_machine initrd_offset initrd_size) k w =
    bind (init_boot_param host current_machine bp)
      (fun _ =>
         do call (rom_add_blob_fixed "params" (Blob_at buf) 0x100000
                    BOOTPARAM_PHYADDR) then
         do modify (set_loaderparams (fun l =>
              mk_loaderparams (lp_ram_size l) (kernel_cmdline l) (kernel_filename l)
                (initrd_filename l) (kernel_entry l)
                2
                (u64 (0xffffffff80000000 + BOOTPARAM_PHYADDR))
                (u64 (0xffffffff80000000 + BOOTPARAM_PHYADDR + blob_length text)))) then
         k 0)
      (mk_world (loaderparams w) (fw_config w) (bp + align sizeof_boot_params) bp
         (Loongson3.ram_size w) (bios_name w)
         (<["highmemsize" :=
              fmt_ld (if decide (ram > 0x10000000)
                      then u64 (Z.shiftr ram 20 - 256) else 0)]>
            (<["memsize" :=
                 fmt_ld (if decide (ram > 0x10000000)
                         then 256 else Z.shiftr ram 20)]>
               (environ w)))
         (<[buf + 8 := Obj_uint (u32 (BOOTPARAM_ADDR + 4 * (19 + len)))]>
            (<[buf + 18 := Obj_chars (String.substring 0 237 text)]>
               (<[buf + 4 := Obj_uint (u32 (BOOTPARAM_ADDR + 18))]>
                  (<[buf + 16 := Obj_chars "g"]>
                     (<[buf := Obj_uint (u32 (BOOTPARAM_ADDR + 16))]> (heap w))))))
         (stderr w) (trace w) (cpus w)).
Proof.
  cbv zeta.
  destruct w as [lprm fwc p0 buf0 ram bn env h err tr cp].
  cbn [loaderparams heap fw_config Loongson3.ram_size bios_name environ stderr
       trace cpus].
  set (text := argv1_text initrd_offset initrd_size (kernel_cmdline lprm)) in *.
  set (buf := host_g_malloc0 host 0x100000) in *.
  unfold set_prom_bootparam. cbv zeta. fold buf. world_norm.
  change ((3 + 1) * 4) with 16.
  do 4 run1.
  change (Z.of_nat (String.length "g")) with 1.
  change (16 + (1 + 1)) with 18. change (256 - 18 - 1) with 237.
  change (256 - 16 - 1) with 239.
  assert (forall C (k' : Z -> M C) W,
    bind (if decide (initrd_size > 0) then
            snprintf (buf + 18) (256 - 18)
              ("rd_start=0x" +:+ fmt_016lx (PHYS_TO_VIRT (u32 initrd_offset))
               +:+ " rd_size=" +:+ fmt_ld initrd_size
               +:+ " " +:+ kernel_cmdline lprm)
          else snprintf (buf + 18) (256 - 18) (kernel_cmdline lprm)) k' W
    = k' (Z.of_nat (String.length text))
        (set_heap (insert (buf + 18) (Obj_chars (String.substring 0 237 text))) W))
    as Hargv1.
  { intros C k' W. unfold text, argv1_text.
    destruct (decide (initrd_size > 0)); by rewrite (bind_run _ _ _ _ _ (snprintf_run _ _ _ _)). }
  rewrite !bind_assoc. rewrite Hargv1. clear Hargv1. world_norm.
  unfold blob_length.
  replace (16 + (1 + 1) + (1 + Z.of_nat (String.length text)) + 32)
    with (18 + (1 + Z.of_nat (String.length text)) + 32) by lia.
  do 5 run1. rewrite !bind_assoc.
  replace (buf + 4 + 4) with (buf + 8) by lia.
  replace (18 + (1 + Z.of_nat (String.length text)))
    with (19 + Z.of_nat (String.length text)) by lia.
  change (String.substring 0 (Z.to_nat 239) "g") with "g".
  reflexivity.
Qed.

(** [set_prom_bootparam] with the contents of the command-line blob, when
    the probe returns. *)
Lemma set_prom_bootparam_heap (initrd_offset initrd_size : Z) (w : world)
    (freq : Z) (msgs : list string) :
  cpu_freq_probe host = Some (freq, msgs) ->
  let buf := host_g_malloc0 host 0x100000 in
  let text := argv1_text initrd_offset initrd_size (kernel_cmdline (loaderparams w)) in
  let len := Z.of_nat (String.length text) in
  let ram := lp_ram_size (loaderparams w) in
  exists h',
    set_prom_bootparam host current_machine initrd_offset initrd_size w =
      (Ret 0,
       mk_world
         (mk_loaderparams ram
            (kernel_cmdline (loaderparams w)) (kernel_filename (loaderparams w))
            (initrd_filename (loaderparams w)) (kernel_entry (loaderparams w))
            2
            (u64 (0xffffffff80000000 + BOOTPARAM_PHYADDR))
            (u64 (0xffffffff80000000 + BOOTPARAM_PHYADDR + blob_length text)))
         (fw_config w) (buf + blob_length text + 192 + 35392)
         (buf + blob_length text)
         (Loongson3.ram_size w) (bios_name w)
         (<["highmemsize" :=
              fmt_ld (if decide (ram > 0x10000000)
                      then u64 (Z.shiftr ram 20 - 256) else 0)]>
            (<["memsize" :=
                 fmt_ld (if decide (ram > 0x10000000)
                         then 256 else Z.shiftr ram 20)]>
               (environ w)))
         h' (stderr w ++ msgs)
         (trace w ++ [rom_add_blob_fixed "params" (Blob_at buf) 0x100000
                        BOOTPARAM_PHYADDR])
         (cpus w)) /\
    h' !! buf = Some (Obj_uint (u32 (BOOTPARAM_ADDR + 16))) /\
    h' !! (buf + 4) = Some (Obj_uint (u32 (BOOTPARAM_ADDR + 18))) /\
    h' !! (buf + 8) = Some (Obj_uint (u32 (BOOTPARAM_ADDR + 4 * (19 + len)))) /\
    h' !! (buf + 16) = Some (Obj_chars "g") /\
    h' !! (buf + 18) = Some (Obj_chars (String.substring 0 237 text)) /\
    h' !! (buf + blob_length text + 24) = Some (Obj_smbios_vers 1) /\
    (forall a, a < buf \/ buf + blob_length text + 192 + 35392 <= a ->
               h' !! a = heap w !! a).
Proof.
  intros Hprobe. cbv zeta.
  pose proof (blob_length_spec
    (argv1_text initrd_offset initrd_size (kernel_cmdline (loaderparams w)))) as [_ Hlen].
  rewrite <- (bind_pure_r (set_prom_bootparam host current_machine initrd_offset initrd_size) w).
  rewrite set_prom_bootparam_start.
  cbv zeta.
  set (text := argv1_text initrd_offset initrd_size (kernel_cmdline (loaderparams w))) in *.
  set (buf := host_g_malloc0 host 0x100000) in *.
  set (R := blob_length text) in *.
  match goal with
  | |- context [bind (init_boot_param _ _ ?bp) _ ?W] =>
    destruct (init_boot_param_run W bp freq msgs Hprobe eq_refl)
      as (h' & Hrun & Hs & _ & _ & Hframe & _)
  end.
  rewrite (bind_run _ _ _ _ _ Hrun). clear Hrun.
  cbn [heap] in Hframe.
  do 2 run1. rewrite pure_run.
  exists h'. split; [reflexivity|].
  rewrite !Hframe by lia.
  split; [|split; [|split; [|split; [|split; [|split; [done|]]]]]].
  - rewrite !lookup_insert_ne by lia. by rewrite lookup_insert_eq.
  - rewrite !lookup_insert_ne by lia. by rewrite lookup_insert_eq.
  - by rewrite lookup_insert_eq.
  - rewrite !lookup_insert_ne by lia. by rewrite lookup_insert_eq.
  - rewrite !lookup_insert_ne by lia. by rewrite lookup_insert_eq.
  - intros a Ha. rewrite Hframe by lia. by rewrite !lookup_insert_ne by lia.
Qed.

Lemma extends_log_init_boot_param bp :
  extends_log (init_boot_param host current_machine bp).
Proof.
  unfold init_boot_param, init_efi, init_smbios, init_loongson_params,
    init_reset_system, init_memory_map, init_cpu_info, init_system_loongson,
    init_irq_source, init_interface_info, board_devices_info, init_special_info.
  repeat extends_log_step.
Qed.

Lemma extends_log_set_prom_bootparam off size :
  extends_log (set_prom_bootparam host current_machine off size).
Proof.
  unfold set_prom_bootparam.
  repeat lazymatch goal with
    | |- extends_log (init_boot_param _ _ _) => apply extends_log_init_boot_param
    | |- _ => extends_log_step
    end.
Qed.

(** What [load_kernel] does up to the ram-disk. *)
Lemma load_kernel_no_initrd {B} (k : Z -> M B) (w : world) (kernel : string)
    (ksz entry low high : Z) :
  host_load_elf host kernel = (ksz, entry, low, high) -> 0 <= ksz ->
  initrd_filename (loaderparams w) = None ->
  bind (load_kernel host current_machine kernel) k w =
    bind (set_prom_bootparam host current_machine 0 0) (fun _ => k entry)
      (set_trace (fun t => t ++ [load_elf kernel]) w).
Proof.
  intros Helf Hksz Hrd. unfold load_kernel.
  rewrite bind_assoc, (bind_run _ _ _ _ _ (get_run _)).
  rewrite bind_assoc, (bind_run _ _ _ _ _ (call_run _ _)).
  rewrite Helf. rewrite (decide_False (P := ksz < 0)) by lia.
  rewrite bind_assoc, (bind_run _ _ _ _ _ (pure_run _ _)).
  rewrite Hrd.
  rewrite bind_assoc, (bind_run _ _ _ _ _ (pure_run _ _)).
  rewrite bind_assoc. unfold bind. cbn [fst snd].
  by destruct (set_prom_bootparam _ _ _ _ _) as [[r|status|] w'].
Qed.

Lemma page_round_up (x : Z) :
  Z.land (x + Z.lnot INITRD_PAGE_MASK) INITRD_PAGE_MASK = 0x10000 * ((x + 0xffff) / 0x10000).
Proof.
  change (Z.lnot INITRD_PAGE_MASK) with 0xffff.
  change INITRD_PAGE_MASK with (Z.lnot (Z.ones 16)).
  rewrite <- Z.ldiff_land, Z.ldiff_ones_r by lia.
  rewrite Z.shiftl_mul_pow2, Z.shiftr_div_pow2 by lia.
  change (2 ^ 16) with 0x10000. lia.
Qed.

Lemma initrd_offset_spec (high : Z) :
  0 <= high < 2^63 - 0x10000 ->
  let off :=
    Z.max (u64 (Z.land (high + Z.lnot INITRD_PAGE_MASK) INITRD_PAGE_MASK))
      INITRD_OFFSET in
  off mod 0x10000 = 0 /\ high <= off /\ INITRD_OFFSET <= off /\ off < 2^63 /\
  (forall a, a mod 0x10000 = 0 -> high <= a -> INITRD_OFFSET <= a -> off <= a).
Proof.
  intros Hhigh. cbv zeta. rewrite page_round_up.
  set (q := (high + 0xffff) / 0x10000).
  assert (0x10000 * q <= high + 0xffff < 0x10000 * q + 0x10000) as Hq.
  { pose proof (Z.div_mod (high + 0xffff) 0x10000 ltac:(lia)) as Hdm.
    pose proof (Z.mod_pos_bound (high + 0xffff) 0x10000 ltac:(lia)). fold q in Hdm. lia. }
  rewrite u64_small by lia.
  change INITRD_OFFSET with (0x10000 * 0x3ea).
  split; [|split; [|split; [|split]]].
  - destruct (Z.max_spec (0x10000 * q) (0x10000 * 0x3ea)) as [[_ ->]|[_ ->]];
      rewrite Z.mul_comm; apply Z.mod_mul; lia.
  - lia.
  - lia.
  - lia.
  - intros a Ha Hge Hmin.
    apply Z.mod_divide in Ha; [|lia]. destruct Ha as [c ->]. lia.
Qed.

(** C8.  With a ram-disk of [size] > 0 bytes, [load_kernel] places it at the
    least 64 KiB-aligned address [off] that is at or above both the
    kernel's highest address and [INITRD_OFFSET].  If [off + size] exceeds
    [ram_size] the process exits with status 1 after reporting the ram-disk
    file, having done nothing but the [load_elf] call: host memory, the
    environment and the loader parameters are as before and no "params"
    blob was added.  Otherwise the image is loaded at [off]. *)
Theorem load_kernel_initrd_placement (w : world) (kernel initrd : string)
    (ksz entry low high size : Z) :
  initrd_filename (loaderparams w) = Some initrd ->
  host_load_elf host kernel = (ksz, entry, low, high) ->
  0 <= ksz ->
  0 <= high < 2^63 - 0x10000 ->
  host_get_image_size host initrd = size ->
  0 < size < 2^63 ->
  0 <= Loongson3.ram_size w < 2^64 ->
  exists off,
    (off mod 0x10000 = 0 /\ high <= off /\ INITRD_OFFSET <= off /\
     forall a, a mod 0x10000 = 0 -> high <= a -> INITRD_OFFSET <= a -> off <= a) /\
    let run := load_kernel host current_machine kernel w in
    if decide (off + size > Loongson3.ram_size w) then
      run.1 = Exit 1 /\
      stderr run.2 =
        stderr w ++ ["memory too small for initial ram disk '" +:+ initrd +:+ "'"] /\
      trace run.2 = trace w ++ [load_elf kernel] /\
      heap run.2 = heap w /\
      environ run.2 = environ w /\
      loaderparams run.2 = loaderparams w /\
      boot_params_buf run.2 = boot_params_buf w
    else
      exists rest,
        trace run.2 =
          trace w ++ [load_elf kernel;
                      load_image_targphys initrd off (Loongson3.ram_size w - off)]
                  ++ rest.
Proof.
  intros Hrd Helf Hksz Hhigh Hsize Hpos Hram.
  pose proof (initrd_offset_spec high Hhigh) as Hoff. cbv zeta in Hoff.
  set (off := Z.max (u64 (Z.land (high + Z.lnot INITRD_PAGE_MASK) INITRD_PAGE_MASK))
                INITRD_OFFSET) in *.
  destruct Hoff as (Hal & Hge & Hmin & Hlt & Hleast).
  exists off. split; [done|]. cbv zeta.
  unfold load_kernel.
  rewrite (bind_run _ _ _ _ _ (get_run _)).
  rewrite (bind_run _ _ _ _ _ (call_run _ _)).
  rewrite Helf. rewrite (decide_False (P := ksz < 0)) by lia.
  rewrite (bind_run _ _ _ _ _ (pure_run _ _)).
  rewrite Hrd, Hsize. cbv zeta.
  rewrite (decide_True (P := size > 0)) by lia.
  fold off. rewrite (u64_small (off + size)) by lia.
  rewrite !bind_assoc.
  destruct w as [lprm fwc p0 buf ram bn env h err tr cp]. world_norm.
  cbn [Loongson3.ram_size initrd_filename loaderparams] in *.
  destruct (decide (off + size > ram)) as [Hbig|Hfit].
  - rewrite !bind_assoc. run1. run1. cbn [fst snd]. world_norm. done.
  - run1. run1. rewrite (u64_small (ram - off)) by lia. run1.
    cbn [fst snd].
    destruct (decide (u64 (host_load_image_targphys host initrd off (ram - off))
                      = u64 (-1))) as [Hfail|Hok].
    + do 2 run1. exists []. cbn [fst snd]. world_norm.
      by rewrite <- app_assoc.
    + do 2 run1. cbn [fst snd].
      match goal with
      | |- context [(?m ?W).2] =>
        assert (extends_log m) as Hrest;
          [| destruct (Hrest W) as (t & Ht & _); rewrite Ht ]
      end.
      * repeat lazymatch goal with
          | |- extends_log (set_prom_bootparam _ _ _ _) =>
            apply extends_log_set_prom_bootparam
          | |- _ => extends_log_step
          end.
      * exists t. cbn [trace]. by rewrite <- !app_assoc.
Qed.

End Loader.
(** * Machine initialisation and CPU reset *)

Section Machine.
Import Loongson3.
Variable host : Host.
Variable current_machine : MachineState.

Lemma for_each_cpus (cpu_type : string) (n : nat) : forall (s : nat) (w : world),
  for_each (seq s n) (fun i =>
      do call (cpu_create cpu_type) then
      do modify (set_cpus (fun l => l ++ [host_cpu_create host cpu_type])) then
      do call (cpu_mips_irq_init_cpu i) then
      do call (cpu_mips_clock_init i) then
      call (qemu_register_reset_main_cpu i)) w =
    (Ret tt,
     set_cpus (fun l => l ++ replicate n (host_cpu_create host cpu_type))
       (set_trace (fun t => t ++ cpu_events cpu_type s n) w)).
Proof.
  induction n as [|n IH]; intros s w.
  - destruct w. cbn. unfold pure, set_cpus, set_trace, cpu_events. cbn.
    by rewrite !app_nil_r.
  - cbn [seq for_each]. do 4 run1.
    rewrite (bind_run _ _ _ _ _ (call_run _ _)). rewrite IH.
    destruct w. world_norm. unfold cpu_events. cbn [List.flat_map replicate].
    do 2 f_equal.
    + rewrite <- !app_assoc. reflexivity.
    + rewrite <- !app_assoc. reflexivity.
Qed.

Lemma for_each_nics (nics : list (option string)) : forall (w : world),
  for_each nics (fun nd => call (pci_nic_init_nofail (default "virtio" nd))) w =
    (Ret tt,
     set_trace (fun t =>
       t ++ List.map (fun nd => pci_nic_init_nofail (default "virtio" nd)) nics) w).
Proof.
  induction nics as [|nd nics IH]; intros w.
  - destruct w. cbn. unfold pure, set_trace. cbn. by rewrite app_nil_r.
  - cbn [for_each List.map]. rewrite (bind_run _ _ _ _ _ (call_run _ _)), IH.
    destruct w. world_norm. by rewrite <- app_assoc.
Qed.

Lemma loongson3_isa_init_run (w : world) :
  loongson3_isa_init w =
    (Ret tt,
     set_trace (fun t => t ++ [isa_bus_new; i8259_init; isa_bus_irqs;
                               isa_create_simple "i8042"; mc146818_rtc_init 2000]) w).
Proof.
  unfold loongson3_isa_init. do 4 run1. rewrite call_run.
  destruct w. world_norm. by rewrite <- !app_assoc.
Qed.

Lemma loongson3_pcie_init_run (machine : MachineState) (w : world) :
  loongson3_pcie_init host machine w =
    (Ret tt,
     set_trace (fun t =>
       t ++ [memory_region_init "pci-mem" VIRT_PCI_MEM_SIZE;
             memory_region_init_alias "pci-io" "io" 0 VIRT_PCI_IO_SIZE;
             memory_region_add_subregion "system" VIRT_PCI_IO_BASE "pci-io";
             memory_region_add_subregion "system" VIRT_PCI_MEM_BASE "pci-mem";
             ls7a_init; pci_vga_init]
         ++ List.map (fun nd => pci_nic_init_nofail (default "virtio" nd))
              (host_nd_table host)) w).
Proof.
  unfold loongson3_pcie_init. do 6 run1. rewrite for_each_nics.
  destruct w. world_norm. by rewrite <- !app_assoc.
Qed.

Lemma extends_log_load_kernel kernel :
  extends_log (load_kernel host current_machine kernel).
Proof.
  unfold load_kernel.
  repeat lazymatch goal with
    | |- extends_log (set_prom_bootparam _ _ _ _) =>
      apply extends_log_set_prom_bootparam
    | |- _ => extends_log_step
    end.
Qed.

Lemma extends_log_fw_conf_init ram : extends_log (fw_conf_init host current_machine ram).
Proof. unfold fw_conf_init. repeat extends_log_step. Qed.

Lemma extends_log_loongson3_isa_init : extends_log loongson3_isa_init.
Proof. unfold loongson3_isa_init. repeat extends_log_step. Qed.

Lemma extends_log_loongson3_pcie_init machine :
  extends_log (loongson3_pcie_init host machine).
Proof. unfold loongson3_pcie_init. repeat extends_log_step. Qed.

(** C10.  With less than 256 MiB of RAM, [mips_loongson3_init] reports
    "Loongson-3 need at least 256MB memory" and exits with status 1 before
    anything else: no CPU exists and no call into the emulator was made.
    With 256 MiB or more it goes on and creates the CPUs. *)
Theorem mips_loongson3_init_ram_check (machine : MachineState) (w : world) :
  let run := mips_loongson3_init host current_machine machine w in
  if decide (machine_ram_size machine < 256 * MiB) then
    run = (Exit 1,
           set_stderr (fun l => l ++ ["Loongson-3 need at least 256MB memory"]) w) /\
    cpus run.2 = cpus w /\ trace run.2 = trace w
  else
    cpus run.2 =
      cpus w ++ replicate (smp_cpus machine)
                  (host_cpu_create host (machine_cpu_type machine)) /\
    exists rest,
      trace run.2 =
        trace w ++ cpu_events (machine_cpu_type machine) 0 (smp_cpus machine) ++ rest.
Proof.
  cbv zeta. unfold mips_loongson3_init. cbv zeta.
  change (256 * 0x100000) with (256 * MiB).
  destruct (decide (machine_ram_size machine < 256 * MiB)) as [Hsmall|Hbig].
  - rewrite bind_assoc. run1. rewrite bind_exit. by destruct w.
  - run0. rewrite (bind_run _ _ _ _ _ (for_each_cpus _ _ _ _)).
    match goal with
    | |- context [(?m ?W).2] =>
      assert (extends_log m) as Hrest;
        [| destruct (Hrest W) as (t & Ht & Hc); rewrite Ht, Hc ]
    end.
    + repeat lazymatch goal with
        | |- extends_log (load_kernel _ _ _) => apply extends_log_load_kernel
        | |- extends_log (fw_conf_init _ _ _) => apply extends_log_fw_conf_init
        | |- extends_log loongson3_isa_init => apply extends_log_loongson3_isa_init
        | |- extends_log (loongson3_pcie_init _ _) =>
          apply extends_log_loongson3_pcie_init
        | |- _ => extends_log_step
        end.
    + destruct w. world_norm. split; [done|]. exists t. by rewrite <- app_assoc.
Qed.

Lemma mips_loongson3_init_kernel_run (machine : MachineState) (w : world)
    (kernel : string) (ksz entry low high freq : Z) (msgs : list string) :
  cpu_freq_probe host = Some (freq, msgs) ->
  machine_ram_size machine = 512 * MiB ->
  machine_kernel_filename machine = Some kernel ->
  machine_initrd_filename machine = None ->
  host_load_elf host kernel = (ksz, entry, low, high) ->
  0 <= ksz ->
  exists h' tr',
    mips_loongson3_init host current_machine machine w =
      (Ret tt,
       mk_world
         (mk_loaderparams (512 * MiB) (machine_kernel_cmdline machine)
            (Some kernel) None entry 2
            (u64 (0xffffffff80000000 + BOOTPARAM_PHYADDR))
            (u64 (0xffffffff80000000 + BOOTPARAM_PHYADDR
                  + blob_length (machine_kernel_cmdline machine))))
         (fw_config w)
         (host_g_malloc0 host 0x100000 + blob_length (machine_kernel_cmdline machine)
          + 192 + 35392)
         (host_g_malloc0 host 0x100000 + blob_length (machine_kernel_cmdline machine))
         (Loongson3.ram_size w) (bios_name w)
         (<["highmemsize" := "256"]> (<["memsize" := "256"]> (environ w)))
         h' (stderr w ++ msgs) tr'
         (cpus w ++ replicate (smp_cpus machine)
                      (host_cpu_create host (machine_cpu_type machine)))) /\
    rom_add_blob_fixed "params" (Blob_at (host_g_malloc0 host 0x100000)) 0x100000
      BOOTPARAM_PHYADDR ∈ tr'.
Proof.
  intros Hprobe Hram Hkernel Hinitrd Helf Hksz.
  destruct w as [lprm fwc p0 buf ram bn env h err tr cp].
  unfold mips_loongson3_init. cbv zeta.
  rewrite Hram, Hkernel, Hinitrd.
  rewrite (decide_False (P := 512 * MiB < 256 * 0x100000)) by (vm_compute; discriminate).
  run0. rewrite (bind_run _ _ _ _ _ (for_each_cpus _ _ _ _)). world_norm.
  do 8 run1. rewrite !bind_assoc.
  match goal with
  | |- context [bind (load_kernel _ _ _) ?K ?W] =>
    rewrite (load_kernel_no_initrd host current_machine K W _ _ _ _ _ Helf Hksz eq_refl)
  end.
  world_norm.
  match goal with
  | |- context [bind (set_prom_bootparam _ _ ?o ?s) _ ?W] =>
    destruct (set_prom_bootparam_heap host current_machine o s W freq msgs Hprobe)
      as (h' & Hrun & _)
  end.
  cbv zeta in Hrun. rewrite (bind_run _ _ _ _ _ Hrun). clear Hrun. world_norm.
  do 2 run1.
  rewrite (bind_run _ _ _ _ _ (loongson3_isa_init_run _)).
  rewrite (bind_run _ _ _ _ _ (loongson3_pcie_init_run _ _)).
  world_norm.
  change (argv1_text 0 0 (machine_kernel_cmdline machine))
    with (machine_kernel_cmdline machine).
  change (fmt_ld (if decide (512 * MiB > 268435456)
                  then u64 (Z.shiftr (512 * MiB) 20 - 256) else 0)) with "256".
  change (fmt_ld (if decide (512 * MiB > 268435456)
                  then 256 else Z.shiftr (512 * MiB) 20)) with "256".
  destruct (host_serial_hd host 0).
  - rewrite call_run. world_norm. eexists _, _. split; [reflexivity|].
    rewrite !elem_of_app, !elem_of_cons. tauto.
  - rewrite pure_run. eexists _, _. split; [reflexivity|].
    rewrite !elem_of_app, !elem_of_cons. tauto.
Qed.

(** C7.  A machine with 512 MiB of RAM, a kernel that [load_elf] accepts
    and no ram-disk, on a host where the frequency probe returns:
    [mips_loongson3_init] returns and reports nothing but what the probe
    printed; the environment then has memsize = "256" and highmemsize =
    "256"; the "params" blob, the 1 MiB buffer of [set_prom_bootparam], is
    registered at [BOOTPARAM_PHYADDR], the boot parameter block starts
    [blob_length] bytes into it and the tables end inside it; and the reset
    handler of the first CPU leaves 2 in register 4 (a0), the
    guest-virtual address of [BOOTPARAM_PHYADDR] in register 5 (a1) and
    that address plus the computed length of the command-line blob, the
    guest address of the boot parameter block, in register 6 (a2). *)
Theorem boot_512MiB_kernel (machine : MachineState) (w : world) (kernel : string)
    (ksz entry low high freq : Z) (msgs : list string) :
  cpu_freq_probe host = Some (freq, msgs) ->
  machine_ram_size machine = 512 * MiB ->
  machine_kernel_filename machine = Some kernel ->
  machine_initrd_filename machine = None ->
  host_load_elf host kernel = (ksz, entry, low, high) ->
  0 <= ksz ->
  Z.of_nat (String.length (machine_kernel_cmdline machine)) <= 1012972 ->
  (0 < smp_cpus machine)%nat ->
  cpus w = [] ->
  length (gpr (cpu_reset host (host_cpu_create host (machine_cpu_type machine))))
    = 32%nat ->
  let run := mips_loongson3_init host current_machine machine w in
  let w' := main_cpu_reset host first_cpu run.2 in
  let buf := host_g_malloc0 host 0x100000 in
  run.1 = Ret tt /\
  stderr run.2 = stderr w ++ msgs /\
  environ run.2 !! "memsize" = Some "256" /\
  environ run.2 !! "highmemsize" = Some "256" /\
  rom_add_blob_fixed "params" (Blob_at buf) 0x100000 BOOTPARAM_PHYADDR
    ∈ trace run.2 /\
  boot_params_buf run.2 = buf + blob_length (machine_kernel_cmdline machine) /\
  boot_params_p run.2 <= buf + 0x100000 /\
  exists env,
    cpus w' !! first_cpu = Some env /\
    gpr env !! 4%nat = Some 2 /\
    gpr env !! 5%nat = Some (PHYS_TO_VIRT BOOTPARAM_PHYADDR) /\
    gpr env !! 6%nat =
      Some (PHYS_TO_VIRT BOOTPARAM_PHYADDR
            + blob_length (machine_kernel_cmdline machine)) /\
    PC env = u64 entry.
Proof.
  intros Hprobe Hram Hkernel Hinitrd Helf Hksz Hlen Hsmp Hcpus Hgpr. cbv zeta.
  destruct (mips_loongson3_init_kernel_run machine w kernel ksz entry low high
              freq msgs Hprobe Hram Hkernel Hinitrd Helf Hksz)
    as (h' & tr' & Hrun & Hblob_in).
  rewrite Hrun. cbn [fst snd stderr environ trace boot_params_buf boot_params_p].
  clear Hrun.
  pose proof (blob_length_spec (machine_kernel_cmdline machine)) as [HR Hblob].
  cbv zeta in HR, Hblob.
  assert (blob_length (machine_kernel_cmdline machine) <= 1012992) as Hfit.
  { set (n := 16 + (1 + 1)
              + (1 + Z.of_nat (String.length (machine_kernel_cmdline machine)))) in *.
    pose proof (Z.div_mod (n + 32) 32 ltac:(lia)) as Hdm.
    pose proof (Z.mod_pos_bound (n + 32) 32 ltac:(lia)) as Hmb.
    lia. }
  split; [done|]. split; [done|].
  split; [by rewrite lookup_insert_ne, lookup_insert_eq|].
  split; [by rewrite lookup_insert_eq|].
  split; [exact Hblob_in|]. split; [done|]. split; [lia|].
  unfold main_cpu_reset. cbn [cpus loaderparams kernel_filename a0 a1 a2 kernel_entry].
  rewrite Hcpus. cbn [app].
  destruct (smp_cpus machine) as [|n]; [lia|]. cbn [replicate lookup list_lookup first_cpu].
  rewrite decide_True by done. eexists. split; [reflexivity|]. cbn [gpr PC].
  split; [|split; [|split; [|done]]].
  - rewrite !list_lookup_insert_ne by done.
    apply list_lookup_insert_eq. lia.
  - rewrite list_lookup_insert_ne by done.
    rewrite list_lookup_insert_eq by (rewrite length_insert; lia). reflexivity.
  - rewrite list_lookup_insert_eq by (rewrite !length_insert; lia).
    f_equal. change (PHYS_TO_VIRT BOOTPARAM_PHYADDR) with 0xffffffff8ff00000.
    change (0xffffffff80000000 + BOOTPARAM_PHYADDR) with 0xffffffff8ff00000.
    apply u64_small. lia.
Qed.

(** C9, as amended.  [main_cpu_reset] first applies the CPU core's reset
    to the CPU and touches no other CPU.  Without a kernel that is all it
    does.  With a kernel loaded it seeds registers 4, 5, 6 and the program
    counter of the first CPU only, from the loader parameters; for every
    other CPU the registers, the program counter and all remaining state
    are exactly what the plain reset produced.  On every CPU, the first or
    not, it then clears the BEV and ERL bits of CP0 Status. *)
Theorem main_cpu_reset_effect (w : world) (i : nat) (cpu : CPUMIPSState) :
  cpus w !! i = Some cpu ->
  let env := cpu_reset host cpu in
  let w' := main_cpu_reset host i w in
  exists env',
    cpus w' !! i = Some env' /\
    (forall j, j <> i -> cpus w' !! j = cpus w !! j) /\
    other_env env' = other_env env /\
    match kernel_filename (loaderparams w) with
    | None => env' = env
    | Some _ =>
      CP0_Status env' =
        Z.land (CP0_Status env) (Z.lnot (Z.lor (2 ^ CP0St_BEV) (2 ^ CP0St_ERL))) /\
      if decide (i = first_cpu) then
        gpr env' = <[6%nat := a2 (loaderparams w)]>
                     (<[5%nat := a1 (loaderparams w)]>
                        (<[4%nat := a0 (loaderparams w)]> (gpr env))) /\
        PC env' = u64 (kernel_entry (loaderparams w))
      else
        gpr env' = gpr env /\ PC env' = PC env
    end.
Proof.
  intros Hcpu. cbv zeta. unfold main_cpu_reset. rewrite Hcpu.
  destruct w as [lprm fwc p0 buf ram bn env h err tr cp]. world_norm.
  cbn [cpus loaderparams] in *.
  pose proof (lookup_lt_Some _ _ _ Hcpu) as Hlt.
  eexists. split; [apply list_lookup_insert_eq; exact Hlt|].
  split; [intros j Hj; by apply list_lookup_insert_ne|].
  destruct (kernel_filename lprm); [|done].
  destruct (decide (i = first_cpu)); done.
Qed.

End Machine.

Lemma main_cpu_reset_effect_witness :
  Loongson3.cpus booted_world !! 1%nat = Some idle_cpu /\
  exists env',
    Loongson3.cpus (Loongson3.main_cpu_reset demo_host 1 booted_world) !! 1%nat
      = Some env' /\
    Loongson3.gpr env' = Loongson3.gpr (mips_cpu_reset idle_cpu) /\
    Loongson3.PC env' = Loongson3.PC (mips_cpu_reset idle_cpu) /\
    Loongson3.CP0_Status env' = 0.
Proof.
  assert (Loongson3.cpus booted_world !! 1%nat = Some idle_cpu) as Hcpu
    by (vm_compute; reflexivity).
  split; [exact Hcpu|].
  pose proof (main_cpu_reset_effect demo_host booted_world 1 idle_cpu Hcpu) as H.
  cbv zeta in H. destruct H as (env' & Hat & _ & _ & H).
  change (Loongson3.kernel_filename (Loongson3.loaderparams booted_world))
    with (Some "vmlinux") in H.
  cbv beta iota in H. destruct H as (Hst & Hgpr & Hpc).
  exists env'. split; [exact Hat|]. split; [exact Hgpr|]. split; [exact Hpc|].
  rewrite Hst. reflexivity.
Defined.

(** C9 as the claim words it fails: with a kernel loaded, the handler does
    not leave a secondary CPU in its power-on state, where BEV and ERL are
    set; it returns it with both bits cleared. *)
Lemma main_cpu_reset_secondary_counterexample :
  Loongson3.kernel_filename (Loongson3.loaderparams booted_world) = Some "vmlinux" /\
  Loongson3.cpus booted_world !! 1%nat = Some idle_cpu /\
  Loongson3.cpus (Loongson3.main_cpu_reset demo_host 1 booted_world) !! 1%nat
    <> Some (Loongson3.cpu_reset demo_host idle_cpu) /\
  Loongson3.CP0_Status <$>
    Loongson3.cpus (Loongson3.main_cpu_reset demo_host 1 booted_world) !! 1%nat
    = Some 0 /\
  Loongson3.CP0_Status (Loongson3.cpu_reset demo_host idle_cpu) = 0x400004.
Proof.
  split; [vm_compute; reflexivity|]. split; [vm_compute; reflexivity|].
  split; [vm_compute; discriminate|]. split; vm_compute; reflexivity.
Qed.

(** * The end-to-end scenarios on a concrete host *)

Lemma boot_512MiB_kernel_witness :
  cpu_freq_probe demo_host = Some (1800000000, []) /\
  Loongson3.machine_ram_size demo_machine = 512 * Loongson3.MiB /\
  Loongson3.host_load_elf demo_host "vmlinux"
    = (0x800000, 0xffffffff80200000 - 2^64, 0x200000, 0x1000000) /\
  let run := Loongson3.mips_loongson3_init demo_host demo_machine demo_machine
               (fresh_world (512 * Loongson3.MiB)) in
  run.1 = Loongson3.Ret tt /\
  Loongson3.stderr run.2 = [] /\
  Loongson3.environ run.2 !! "memsize" = Some "256" /\
  Loongson3.environ run.2 !! "highmemsize" = Some "256" /\
  Loongson3.boot_params_buf run.2 = 0x7f0000100000 + 0x20 /\
  exists env,
    Loongson3.cpus (Loongson3.main_cpu_reset demo_host Loongson3.first_cpu run.2)
      !! Loongson3.first_cpu = Some env /\
    Loongson3.gpr env !! 4%nat = Some 2 /\
    Loongson3.gpr env !! 5%nat = Some 0xffffffff8ff00000 /\
    Loongson3.gpr env !! 6%nat = Some 0xffffffff8ff00020.
Proof.
  assert (Loongson3.host_load_elf demo_host "vmlinux"
          = (0x800000, 0xffffffff80200000 - 2^64, 0x200000, 0x1000000)) as Helf
    by reflexivity.
  assert (cpu_freq_probe demo_host = Some (1800000000, [])) as Hprobe
    by (vm_compute; reflexivity).
  split; [exact Hprobe|]. split; [reflexivity|]. split; [exact Helf|].
  destruct (boot_512MiB_kernel demo_host demo_machine demo_machine
              (fresh_world (512 * Loongson3.MiB)) "vmlinux" _ _ _ _ _ _
              Hprobe eq_refl eq_refl eq_refl Helf)
    as (Hret & Herr & Hmem & Hhigh & _ & Hbuf & _ & env & Hat & H4 & H5 & H6 & _).
  - lia.
  - vm_compute. discriminate.
  - vm_compute. lia.
  - reflexivity.
  - reflexivity.
  - cbv zeta. split; [exact Hret|]. split; [exact Herr|].
    split; [exact Hmem|]. split; [exact Hhigh|]. split; [exact Hbuf|].
    exists env. split; [exact Hat|]. split; [exact H4|]. split; [exact H5|exact H6].
Defined.

Lemma load_kernel_initrd_placement_witness :
  Loongson3.initrd_filename (Loongson3.loaderparams initrd_world) = Some "initrd.img" /\
  Loongson3.host_get_image_size demo_host "initrd.img" = 0x40000000 /\
  (Loongson3.load_kernel demo_host demo_machine "vmlinux" initrd_world).1
    = Loongson3.Exit 1 /\
  Loongson3.stderr (Loongson3.load_kernel demo_host demo_machine "vmlinux" initrd_world).2
    = ["memory too small for initial ram disk 'initrd.img'"] /\
  Loongson3.heap (Loongson3.load_kernel demo_host demo_machine "vmlinux" initrd_world).2
    = Loongson3.heap initrd_world.
Proof.
  split; [reflexivity|]. split; [reflexivity|].
  destruct (load_kernel_initrd_placement demo_host demo_machine initrd_world
              "vmlinux" "initrd.img" 0x800000 (0xffffffff80200000 - 2^64)
              0x200000 0x1000000 0x40000000)
    as (off & (_ & _ & Hmin & _) & Hrun).
  - reflexivity.
  - reflexivity.
  - lia.
  - lia.
  - reflexivity.
  - lia.
  - vm_compute. split; [discriminate | reflexivity].
  - cbv zeta in Hrun.
    rewrite decide_True in Hrun.
    + destruct Hrun as (Hexit & Herr & _ & Hheap & _).
      split; [exact Hexit|]. split; [exact Herr | exact Hheap].
    + change (Loongson3.ram_size initrd_world) with 0x20000000.
      change Loongson3.INITRD_OFFSET with 0x03ea0000 in Hmin. lia.
Defined.

(** * Further properties of the host bridge *)

Section ResetMore.
Import Ls7a.

Lemma ls7a_reset_wmask dev :
  wmask (ls7a_reset dev) = store_bytes ls7a_reset_wmask_stores (wmask dev).
Proof. reflexivity. Qed.

Lemma ls7a_reset_cmask dev :
  cmask (ls7a_reset dev) = store_bytes ls7a_reset_cmask_stores (cmask dev).
Proof. reflexivity. Qed.

Lemma stores_in_array (ws : list (Z * Z)) (a : list Z) :
  length a = Z.to_nat PCI_CONFIG_SPACE_SIZE ->
  forallb (fun w => (0 <=? w.1) && (w.1 <? 256)) ws = true ->
  Forall (in_array a) ws.
Proof.
  intros Hlen Hall. apply Forall_forall. intros w Hw.
  rewrite forallb_forall in Hall.
  apply list_elem_of_In, Hall in Hw.
  apply andb_true_iff in Hw as [H0 H1].
  apply Z.leb_le in H0. apply Z.ltb_lt in H1.
  split; [done|]. rewrite Hlen. change (Z.to_nat PCI_CONFIG_SPACE_SIZE) with (Z.to_nat 256).
  lia.
Qed.

Lemma read_after_absorbs (ws : list (Z * Z)) (off : Z) : forall x y,
  read_after ws off x = read_after ws off y \/
  (read_after ws off x = x /\ read_after ws off y = y).
Proof.
  induction ws as [|w ws IH]; intros x y; cbn [read_after]; [by right|].
  case_decide.
  - by left.
  - apply IH.
Qed.

Lemma read_after_idem (ws : list (Z * Z)) (off x : Z) :
  read_after ws off (read_after ws off x) = read_after ws off x.
Proof.
  destruct (read_after_absorbs ws off (read_after ws off x) x) as [H|[H _]]; done.
Qed.

Lemma lookup_store_bytes (ws : list (Z * Z)) (a : list Z) (i : nat) :
  Forall (in_array a) ws -> (i < length a)%nat ->
  store_bytes ws a !! i = Some (read_after ws (Z.of_nat i) (default 0 (a !! i))).
Proof.
  intros Hin Hi.
  pose proof (read_store_bytes ws a (Z.of_nat i) Hin ltac:(lia)) as Hread.
  unfold pci_get_byte in Hread. rewrite Nat2Z.id in Hread.
  destruct (store_bytes ws a !! i) as [x|] eqn:Hx.
  - cbn in Hread. by rewrite Hread.
  - apply lookup_ge_None in Hx. rewrite store_bytes_length in Hx. lia.
Qed.

Lemma store_bytes_idem (ws : list (Z * Z)) (a : list Z) :
  Forall (in_array a) ws ->
  store_bytes ws (store_bytes ws a) = store_bytes ws a.
Proof.
  intros Hin. apply list_eq. intros i.
  destruct (decide (i < length a)%nat) as [Hi|Hi].
  - rewrite lookup_store_bytes.
    + rewrite (lookup_store_bytes ws a i Hin Hi). cbn. by rewrite read_after_idem.
    + eapply Forall_impl; [exact Hin|]. intros w [? ?]. split; [done|].
      by rewrite store_bytes_length.
    + by rewrite store_bytes_length.
  - rewrite !lookup_ge_None_2; [done| |]; rewrite ?store_bytes_length; lia.
Qed.

(** X1.  Resetting the bridge twice is the same as resetting it once. *)
Theorem ls7a_reset_idempotent (dev : PCIDevice) :
  config_sized dev ->
  ls7a_reset (ls7a_reset dev) = ls7a_reset dev.
Proof.
  intros (Hc & Hm & Hw).
  assert (forall d d', devfn d = devfn d' -> config d = config d' ->
            cmask d = cmask d' -> wmask d = wmask d' -> d = d') as Hext.
  { intros [] []; cbn; by intros -> -> -> ->. }
  apply Hext.
  - by rewrite !ls7a_reset_devfn.
  - rewrite (ls7a_reset_config (ls7a_reset dev)), (ls7a_reset_config dev).
    by apply store_bytes_idem, stores_in_array.
  - rewrite (ls7a_reset_cmask (ls7a_reset dev)), (ls7a_reset_cmask dev).
    by apply store_bytes_idem, stores_in_array.
  - rewrite (ls7a_reset_wmask (ls7a_reset dev)), (ls7a_reset_wmask dev).
    by apply store_bytes_idem, stores_in_array.
Qed.

Lemma ls7a_reset_idempotent_witness :
  config_sized scrambled_bridge /\
  ls7a_reset (ls7a_reset scrambled_bridge) = ls7a_reset scrambled_bridge.
Proof.
  assert (config_sized scrambled_bridge) as H by (repeat split).
  split; [exact H | exact (ls7a_reset_idempotent scrambled_bridge H)].
Defined.

(** X2.  The reset handler does not clear configuration space: the bytes
    it has no store for (latency timer, BIST, the second half of the
    CardBus pointer, the expansion ROM register, 0x35..0x3b, 0x40..0x4b and
    everything from 0x4d on) keep whatever they held. *)
Theorem ls7a_reset_leaves_rest (dev : PCIDevice) (off : Z) :
  length (config dev) = Z.to_nat PCI_CONFIG_SPACE_SIZE ->
  ls7a_reset_leaves off ->
  pci_get_byte (config (ls7a_reset dev)) off = pci_get_byte (config dev) off.
Proof.
  intros Hlen Hoff. rewrite ls7a_reset_config.
  rewrite read_store_bytes;
    [| by apply ls7a_reset_stores_in_array | unfold ls7a_reset_leaves in Hoff; lia].
  unfold ls7a_reset_leaves in Hoff.
  unfold ls7a_reset_config_stores. cbn [read_after fst snd].
  repeat (rewrite decide_False by lia). reflexivity.
Qed.

Lemma ls7a_reset_leaves_rest_witness :
  length (config scrambled_bridge) = Z.to_nat PCI_CONFIG_SPACE_SIZE /\
  ls7a_reset_leaves 0x40 /\
  pci_get_byte (config (ls7a_reset scrambled_bridge)) 0x40 = 0xff.
Proof.
  assert (ls7a_reset_leaves 0x40) as H by (unfold ls7a_reset_leaves; lia).
  split; [reflexivity|]. split; [exact H|].
  rewrite (ls7a_reset_leaves_rest scrambled_bridge 0x40 eq_refl H). reflexivity.
Defined.

(** X3.  The masks after a reset.  The write mask is 0, so that the
    guest can change no bit, and the check mask is all ones in the
    identification registers (0x0-0x3, 0x8-0xb), the status word, the cache
    line size, the header type, the six base-address registers, the
    subsystem IDs and the capability pointer; the write mask is also 0 in
    the interrupt pin and in the byte at 0x4c. *)
Theorem ls7a_reset_masks (dev : PCIDevice) :
  config_sized dev ->
  let d := ls7a_reset dev in
  Forall (fun bar => pci_get_long (wmask d) bar = 0 /\
                     pci_get_long (cmask d) bar = 0xffffffff)
    [PCI_BASE_ADDRESS_0; PCI_BASE_ADDRESS_1; PCI_BASE_ADDRESS_2;
     PCI_BASE_ADDRESS_3; PCI_BASE_ADDRESS_4; PCI_BASE_ADDRESS_5] /\
  pci_get_long (wmask d) 0x0 = 0 /\ pci_get_long (cmask d) 0x0 = 0xffffffff /\
  pci_get_word (wmask d) 0x6 = 0 /\ pci_get_word (cmask d) 0x6 = 0xffff /\
  pci_get_long (wmask d) 0x8 = 0 /\ pci_get_long (cmask d) 0x8 = 0xffffffff /\
  pci_get_byte (wmask d) 0xc = 0 /\ pci_get_byte (cmask d) 0xc = 0xff /\
  pci_get_byte (wmask d) 0xe = 0 /\ pci_get_byte (cmask d) 0xe = 0xff /\
  pci_get_long (wmask d) 0x2c = 0 /\ pci_get_long (cmask d) 0x2c = 0xffffffff /\
  pci_get_byte (wmask d) 0x34 = 0 /\ pci_get_byte (cmask d) 0x34 = 0xff /\
  pci_get_byte (wmask d) 0x3d = 0 /\
  pci_get_byte (wmask d) 0x4c = 0.
Proof.
  intros (Hc & Hm & Hw) d. subst d.
  rewrite ls7a_reset_wmask, ls7a_reset_cmask.
  assert (Forall (in_array (wmask dev)) ls7a_reset_wmask_stores) as Hinw
    by (by apply stores_in_array).
  assert (Forall (in_array (cmask dev)) ls7a_reset_cmask_stores) as Hinc
    by (by apply stores_in_array).
  unfold pci_get_long, pci_get_word.
  repeat (apply Forall_cons; split) || apply Forall_nil_2 || split.
  all: rewrite ?(read_store_bytes _ _ _ Hinw), ?(read_store_bytes _ _ _ Hinc)
         by (vm_compute; discriminate).
  all: reflexivity.
Qed.

Lemma ls7a_reset_masks_witness :
  config_sized scrambled_bridge /\
  pci_get_long (wmask (ls7a_reset scrambled_bridge)) PCI_BASE_ADDRESS_0 = 0 /\
  pci_get_long (cmask (ls7a_reset scrambled_bridge)) 0x8 = 0xffffffff.
Proof.
  assert (config_sized scrambled_bridge) as H by (repeat split).
  split; [exact H|].
  pose proof (ls7a_reset_masks scrambled_bridge H) as Hm. cbv zeta in Hm.
  destruct Hm as (Hbars & _ & _ & _ & _ & _ & Hc8 & _).
  apply Forall_cons in Hbars as [[Hw _] _]. split; [exact Hw | exact Hc8].
Defined.

(** X4.  The rest of the reset image: command 0, status 0x0010, programming
    interface 0, cache line size 0, header type 0x80, subsystem vendor
    0x0014 and device 0x7a00, capability pointer 0x40, interrupt line and
    pin 0, and 0x60 in the byte at 0x4c. *)
Theorem ls7a_reset_image_rest (dev : PCIDevice) :
  length (config dev) = Z.to_nat PCI_CONFIG_SPACE_SIZE ->
  let cfg := config (ls7a_reset dev) in
  pci_get_word cfg 0x4 = 0x0000 /\
  pci_get_word cfg 0x6 = 0x0010 /\
  pci_get_byte cfg 0x9 = 0x00 /\
  pci_get_byte cfg 0xc = 0x00 /\
  pci_get_byte cfg 0xe = 0x80 /\
  pci_get_word cfg PCI_CARDBUS_CIS = 0x0000 /\
  pci_get_word cfg 0x2c = 0x0014 /\
  pci_get_word cfg 0x2e = 0x7a00 /\
  pci_get_byte cfg 0x34 = 0x40 /\
  pci_get_byte cfg 0x3c = 0x00 /\
  pci_get_byte cfg PCI_INTERRUPT_PIN = 0x00 /\
  pci_get_word cfg 0x3e = 0x0000 /\
  pci_get_byte cfg 0x4c = 0x60.
Proof.
  intros Hlen cfg. subst cfg. rewrite ls7a_reset_config.
  pose proof (ls7a_reset_stores_in_array _ Hlen) as Hin.
  unfold pci_get_word.
  rewrite !(read_store_bytes _ _ _ Hin) by (vm_compute; discriminate).
  repeat split; reflexivity.
Qed.

Lemma ls7a_reset_image_rest_witness :
  length (config scrambled_bridge) = Z.to_nat PCI_CONFIG_SPACE_SIZE /\
  pci_get_byte (config (ls7a_reset scrambled_bridge)) 0x34 = 0x40 /\
  pci_get_byte (config (ls7a_reset scrambled_bridge)) 0xe = 0x80.
Proof.
  split; [reflexivity|].
  pose proof (ls7a_reset_image_rest scrambled_bridge eq_refl) as H.
  cbv zeta in H. tauto.
Defined.
End ResetMore.

(** * Further properties of the interrupt router *)

Section RouterMore.
Import Ls7a Ls7aExtra.

Lemma map_irq_index (d : PCIDevice) (irq_num : Z) :
  0 <= devfn d -> 0 <= pci_get_byte (config d) PCI_INTERRUPT_PIN ->
  let k := (pci_get_byte (config d) PCI_INTERRUPT_PIN + Z.shiftr (devfn d) 3) mod 8 in
  0 <= k < 8 /\ virq !! Z.to_nat k = Some (pci_ls7a_map_irq d irq_num).
Proof.
  intros Hfn Hpin k.
  assert (0 <= Z.shiftr (devfn d) 3) as Hslot by (by apply Z.shiftr_nonneg).
  assert (0 <= k < 8) as Hk by (apply Z.mod_pos_bound; lia).
  split; [done|]. unfold pci_ls7a_map_irq.
  rewrite Z.rem_mod_nonneg by lia. by apply virq_lookup.
Qed.

(** X5.  Whatever a device's slot and interrupt-pin byte are, the routed
    line is one of 3, 4, 5, 6, 7, 9, 10, 11: never the timer, keyboard,
    cascade or real-time-clock inputs, and always an input the 16-line
    controller array has, so that [pci_ls7a_set_irq] on it drives a line. *)
Theorem pci_ls7a_map_irq_range {Line : Type} (d : PCIDevice) (irq_num level : Z)
    (pic : list Line) :
  0 <= devfn d ->
  0 <= pci_get_byte (config d) PCI_INTERRUPT_PIN ->
  length pic = Z.to_nat ISA_NUM_IRQS ->
  let line := pci_ls7a_map_irq d irq_num in
  line ∈ virq /\
  3 <= line <= 11 /\ line <> 8 /\
  exists l, pci_ls7a_set_irq pic line level = Some (l, level).
Proof.
  intros Hfn Hpin Hlen line.
  destruct (map_irq_index d irq_num Hfn Hpin) as [Hk Hat]. fold line in Hat.
  assert (line ∈ virq) as Hin by (eapply list_elem_of_lookup_2; exact Hat).
  split; [exact Hin|].
  assert (3 <= line <= 11 /\ line <> 8) as Hrange.
  { unfold virq in Hin.
    repeat (apply elem_of_cons in Hin as [->|Hin]; [lia|]).
    by apply elem_of_nil in Hin. }
  split; [tauto|]. split; [tauto|].
  unfold pci_ls7a_set_irq. rewrite decide_False by lia.
  destruct (pic !! Z.to_nat line) as [l|] eqn:Hl.
  - by exists l.
  - apply lookup_ge_None in Hl. rewrite Hlen in Hl.
    change (Z.to_nat ISA_NUM_IRQS) with 16%nat in Hl. lia.
Qed.

Lemma pci_ls7a_map_irq_range_witness :
  0 <= devfn (device_at 31 255) /\
  0 <= pci_get_byte (config (device_at 31 255)) PCI_INTERRUPT_PIN /\
  length (seq 0 16) = Z.to_nat ISA_NUM_IRQS /\
  pci_ls7a_map_irq (device_at 31 255) 0 ∈ virq.
Proof.
  assert (0 <= devfn (device_at 31 255)) as H1 by (vm_compute; discriminate).
  assert (0 <= pci_get_byte (config (device_at 31 255)) PCI_INTERRUPT_PIN) as H2
    by (vm_compute; discriminate).
  assert (length (seq 0 16) = Z.to_nat ISA_NUM_IRQS) as H3 by reflexivity.
  split; [exact H1|]. split; [exact H2|]. split; [exact H3|].
  pose proof (pci_ls7a_map_irq_range (device_at 31 255) 0 1 (seq 0 16) H1 H2 H3) as H.
  cbv zeta in H. tauto.
Defined.

Lemma virq_injective (i j : Z) :
  0 <= i < 8 -> 0 <= j < 8 ->
  virq !! Z.to_nat i = virq !! Z.to_nat j -> i = j.
Proof.
  intros Hi Hj.
  assert (i = 0 \/ i = 1 \/ i = 2 \/ i = 3 \/ i = 4 \/ i = 5 \/ i = 6 \/ i = 7)
    as Hic by lia.
  assert (j = 0 \/ j = 1 \/ j = 2 \/ j = 3 \/ j = 4 \/ j = 5 \/ j = 6 \/ j = 7)
    as Hjc by lia.
  destruct Hic as [->|[->|[->|[->|[->|[->|[->| ->]]]]]]];
    destruct Hjc as [->|[->|[->|[->|[->|[->|[->| ->]]]]]]];
    cbn; intros; simplify_eq; reflexivity.
Qed.

(** X6.  Two devices are routed to the same line exactly when their
    pin + slot sums agree modulo 8: the four pins of one slot get four
    different lines, and slots 8 apart share all of them. *)
Theorem pci_ls7a_map_irq_shared (d d' : PCIDevice) (irq_num irq_num' : Z) :
  0 <= devfn d -> 0 <= pci_get_byte (config d) PCI_INTERRUPT_PIN ->
  0 <= devfn d' -> 0 <= pci_get_byte (config d') PCI_INTERRUPT_PIN ->
  pci_ls7a_map_irq d irq_num = pci_ls7a_map_irq d' irq_num' <->
  (pci_get_byte (config d) PCI_INTERRUPT_PIN + Z.shiftr (devfn d) 3) mod 8 =
  (pci_get_byte (config d') PCI_INTERRUPT_PIN + Z.shiftr (devfn d') 3) mod 8.
Proof.
  intros Hfn Hpin Hfn' Hpin'.
  destruct (map_irq_index d irq_num Hfn Hpin) as [Hk Hat].
  destruct (map_irq_index d' irq_num' Hfn' Hpin') as [Hk' Hat'].
  split.
  - intros Heq. apply virq_injective; [done|done|]. by rewrite Hat, Hat', Heq.
  - intros Heq. rewrite Heq in Hat. rewrite Hat in Hat'. by simplify_eq.
Qed.

Lemma pci_ls7a_map_irq_shared_witness :
  0 <= devfn (device_at 2 1) /\
  0 <= pci_get_byte (config (device_at 2 1)) PCI_INTERRUPT_PIN /\
  0 <= devfn (device_at 10 1) /\
  0 <= pci_get_byte (config (device_at 10 1)) PCI_INTERRUPT_PIN /\
  pci_ls7a_map_irq (device_at 2 1) 0 = pci_ls7a_map_irq (device_at 10 1) 0 /\
  pci_ls7a_map_irq (device_at 2 1) 0 <> pci_ls7a_map_irq (device_at 2 2) 0.
Proof.
  assert (forall s p, 0 <= s <= 31 -> 0 <= p <= 255 ->
            0 <= devfn (device_at s p) /\
            0 <= pci_get_byte (config (device_at s p)) PCI_INTERRUPT_PIN) as Hok.
  { intros s p Hs Hp. split; [cbn; lia|].
    unfold pci_get_byte, device_at. cbn [config].
    rewrite list_lookup_insert_eq by (vm_compute; lia). cbn. lia. }
  destruct (Hok 2 1 ltac:(lia) ltac:(lia)) as [H1 H2].
  destruct (Hok 10 1 ltac:(lia) ltac:(lia)) as [H3 H4].
  destruct (Hok 2 2 ltac:(lia) ltac:(lia)) as [H5 H6].
  split; [exact H1|]. split; [exact H2|]. split; [exact H3|]. split; [exact H4|].
  split.
  - apply (pci_ls7a_map_irq_shared (device_at 2 1) (device_at 10 1) 0 0 H1 H2 H3 H4).
    reflexivity.
  - intros Heq.
    apply (pci_ls7a_map_irq_shared (device_at 2 1) (device_at 2 2) 0 0 H1 H2 H5 H6)
      in Heq.
    vm_compute in Heq. discriminate.
Defined.
End RouterMore.

(** * The register bank and the configuration windows *)

Section Windows.
Import Ls7a Ls7aExtra.

Lemma u32_small (x : Z) : 0 <= x < 2^32 -> u32 x = x.
Proof. apply Z.mod_small. Qed.

Lemma ls7a_pci_config_folding_aux (Bus : Type)
    (pci_data_read : Bus -> Z -> Z -> Z)
    (pci_data_write : Bus -> Z -> Z -> Z -> Bus)
    (bus : Bus) (addr val size : Z) :
  ls7a_pci_config_read Bus pci_data_read bus addr size
    = pci_data_read bus (folded_offset addr) size /\
  ls7a_pci_config_write Bus pci_data_write bus addr val size
    = pci_data_write bus (folded_offset addr) val size.
Proof.
  unfold ls7a_pci_config_read, ls7a_pci_config_write.
  by rewrite !ls7a_fold_spec.
Qed.


(** X7.  Every address of the internal register window (0xE0 bytes) reads
    one of the [NR_REGS] registers of the bank, never beyond it, and a
    write changes no register: any later read returns what it returned
    before the write. *)
Theorem ls7a_register_bank (regs : list Z) (addr waddr wval : Z) :
  length regs = Z.to_nat NR_REGS ->
  0 <= addr < 0xE0 ->
  0 <= Z.shiftr addr 2 < NR_REGS /\
  regs !! Z.to_nat (Z.shiftr addr 2) = Some (ls7a_readl regs addr) /\
  ls7a_readl (ls7a_writel regs waddr wval) addr = ls7a_readl regs addr.
Proof.
  intros Hlen Haddr.
  assert (0 <= Z.shiftr addr 2 < NR_REGS) as Hidx.
  { rewrite Z.shiftr_div_pow2 by lia. change NR_REGS with 56. split.
    - apply Z.div_pos; lia.
    - apply Z.div_lt_upper_bound; lia. }
  split; [exact Hidx|]. split; [|reflexivity].
  unfold ls7a_readl. cbv zeta. change NR_REGS with 56 in *.
  rewrite (u32_small (Z.shiftr addr 2)) by lia.
  destruct (regs !! Z.to_nat (Z.shiftr addr 2)) as [v|] eqn:Hv; [done|].
  apply lookup_ge_None in Hv. rewrite Hlen in Hv. lia.
Qed.

Lemma ls7a_register_bank_witness :
  length (seq_regs 56) = Z.to_nat NR_REGS /\ 0 <= 0xDC < 0xE0 /\
  ls7a_readl (ls7a_writel (seq_regs 56) 0xDC 0xffffffff) 0xDC = 55.
Proof.
  assert (length (seq_regs 56) = Z.to_nat NR_REGS) as H1 by reflexivity.
  assert (0 <= 0xDC < 0xE0) as H2 by lia.
  split; [exact H1|]. split; [exact H2|].
  destruct (ls7a_register_bank (seq_regs 56) 0xDC 0xDC 0xffffffff H1 H2)
    as (_ & _ & Hrw).
  rewrite Hrw. reflexivity.
Defined.

Lemma testbit24_range (addr : Z) :
  0 <= addr < HT1LO_PCICFG_SIZE ->
  Z.testbit addr 24 = negb (addr <? 0x1000000).
Proof.
  intros Haddr. change HT1LO_PCICFG_SIZE with (2 ^ 25) in Haddr.
  rewrite Z.testbit_eqb by lia. change (2 ^ 24) with 0x1000000.
  destruct (addr <? 0x1000000) eqn:Hlt; cbn.
  - apply Z.ltb_lt in Hlt. rewrite Z.div_small by lia. reflexivity.
  - apply Z.ltb_ge in Hlt.
    assert (addr / 0x1000000 = 1) as ->; [|reflexivity].
    symmetry. apply Z.div_unique with (r := addr - 0x1000000); lia.
Qed.

(** X8.  Inside the 32 MiB extended window, the lower 16 MiB reach the
    configuration primitive at the address itself, while the upper 16 MiB
    reach it at the address modulo 64 KiB: an offset below 0x10000, which
    is bus 0, so every 64 KiB block of the upper half is an alias of the
    same 64 KiB. *)
Theorem ls7a_pci_config_window (Bus : Type)
    (pci_data_read : Bus -> Z -> Z -> Z)
    (pci_data_write : Bus -> Z -> Z -> Z -> Bus)
    (bus : Bus) (addr val size : Z) :
  0 <= addr < HT1LO_PCICFG_SIZE ->
  let target := if decide (addr < 0x1000000) then addr else addr mod 0x10000 in
  ls7a_pci_config_read Bus pci_data_read bus addr size
    = pci_data_read bus target size /\
  ls7a_pci_config_write Bus pci_data_write bus addr val size
    = pci_data_write bus target val size /\
  (0x1000000 <= addr -> 0 <= target < 0x10000) /\
  (0x1000000 <= addr -> addr + 0x10000 < HT1LO_PCICFG_SIZE ->
   ls7a_pci_config_read Bus pci_data_read bus (addr + 0x10000) size
     = ls7a_pci_config_read Bus pci_data_read bus addr size).
Proof.
  intros Haddr target.
  assert (forall a, 0 <= a < HT1LO_PCICFG_SIZE ->
            folded_offset a = if decide (a < 0x1000000) then a else a mod 0x10000)
    as Hfold.
  { intros a Ha. unfold folded_offset. rewrite testbit24_range by done.
    change HT1LO_PCICFG_SIZE with 0x2000000 in Ha.
    case_decide as Hlt.
    - rewrite (proj2 (Z.ltb_lt _ _) Hlt). cbn.
      change 0xFFFFFF with (Z.ones 24). rewrite Z.land_ones by lia.
      apply Z.mod_small. lia.
    - rewrite (proj2 (Z.ltb_ge _ _)) by lia. cbn.
      change 0xFFFF with (Z.ones 16). by rewrite Z.land_ones by lia. }
  destruct (ls7a_pci_config_folding_aux Bus pci_data_read pci_data_write bus addr val size)
    as (Hr & Hw).
  rewrite Hr, Hw, (Hfold addr Haddr). fold target.
  split; [done|]. split; [done|]. split.
  - intros Hup. subst target. rewrite decide_False by lia.
    apply Z.mod_pos_bound. lia.
  - intros Hup Hnext.
    destruct (ls7a_pci_config_folding_aux Bus pci_data_read pci_data_write bus
                (addr + 0x10000) val size) as (Hr' & _).
    rewrite Hr', Hfold by lia. subst target.
    rewrite !decide_False by lia.
    f_equal. change 0x10000 with (1 * 0x10000) at 1. by rewrite Z.mod_add by lia.
Qed.

Lemma ls7a_pci_config_window_witness :
  0 <= 0x1234568 < HT1LO_PCICFG_SIZE /\
  ls7a_pci_config_read (Z -> Z) table_read
    (ls7a_pci_config_write (Z -> Z) table_write (fun _ => 0) 0x1234568 77 4)
    0x1994568 4 = 77.
Proof.
  assert (0 <= 0x1234568 < HT1LO_PCICFG_SIZE) as H by (vm_compute; split; done).
  split; [exact H|].
  destruct (ls7a_pci_config_window (Z -> Z) table_read table_write (fun _ => 0)
              0x1234568 77 4 H) as (_ & Hw & _).
  rewrite Hw. reflexivity.
Defined.
End Windows.

(** * Further properties of the board *)

Section AlignMore.
Import Loongson3.

Lemma align_div (x : Z) :
  0 <= x < 2^64 -> align x = 64 * (((x + 63) mod 2^64) / 64).
Proof.
  intros Hx. unfold align, u64.
  pose proof (Z.mod_pos_bound (x + 63) (2^64) ltac:(lia)) as Ha.
  set (a := (x + 63) mod 2^64) in *.
  rewrite <- (Z.land_ones (Z.lnot 63) 64) by lia.
  rewrite (Z.land_comm (Z.lnot 63)), Z.land_assoc.
  rewrite (Z.land_ones a 64) by lia. rewrite (Z.mod_small a) by lia.
  change (Z.lnot 63) with (Z.lnot (Z.ones 6)).
  rewrite <- Z.ldiff_land, Z.ldiff_ones_r by lia.
  rewrite Z.shiftl_mul_pow2, Z.shiftr_div_pow2 by lia.
  change (2 ^ 6) with 64. lia.
Qed.

(** X9.  The [align] macro on a 64-bit operand.  Its result is a 64-bit
    multiple of 64.  Up to 2^64 - 64 it rounds up: the result is the least
    multiple of 64 that is not below the argument, less than 64 above it,
    equal to an argument that is a multiple already, and aligning twice
    changes nothing.  Above 2^64 - 64 the sum wraps and the result is 0. *)
Theorem align_rounds_up (x : Z) :
  0 <= x < 2^64 ->
  0 <= align x < 2^64 /\
  align x mod 64 = 0 /\
  (x <= 2^64 - 64 ->
     x <= align x < x + 64 /\
     (forall y, y mod 64 = 0 -> x <= y -> align x <= y) /\
     (x mod 64 = 0 -> align x = x) /\
     align (align x) = align x) /\
  (2^64 - 64 < x -> align x = 0).
Proof.
  intros Hx.
  assert (forall z, 0 <= z <= 2^64 - 64 ->
            align z = 64 * ((z + 63) / 64) /\
            z <= 64 * ((z + 63) / 64) < z + 64) as Hlow.
  { intros z Hz. rewrite align_div by lia. rewrite (Z.mod_small (z + 63)) by lia.
    pose proof (Z.div_mod (z + 63) 64 ltac:(lia)).
    pose proof (Z.mod_pos_bound (z + 63) 64 ltac:(lia)). lia. }
  assert (align x mod 64 = 0) as Hmod.
  { rewrite align_div by lia. rewrite Z.mul_comm. apply Z.mod_mul; lia. }
  change (2 ^ 64) with 18446744073709551616 in *.
  split; [|split; [exact Hmod|split]].
  - destruct (decide (x <= 18446744073709551616 - 64)) as [Hle|Hgt].
    + destruct (Hlow x ltac:(lia)) as [-> ?]. 
      apply Z.mod_divide in Hmod as [c Hc]; [|lia].
      destruct (Hlow x ltac:(lia)) as [Heq ?]. lia.
    + rewrite align_div by lia.
      change (2 ^ 64) with 18446744073709551616.
      replace ((x + 63) mod 18446744073709551616)
        with (x + 63 - 18446744073709551616).
      2:{ symmetry. rewrite <- (Z.mod_add _ (-1)) by lia.
          apply Z.mod_small. lia. }
      rewrite Z.div_small by lia. lia.
  - intros Hle. destruct (Hlow x ltac:(lia)) as [Heq Hbound].
    pose proof (Z.div_mod (x + 63) 64 ltac:(lia)) as Hdm.
    pose proof (Z.mod_pos_bound (x + 63) 64 ltac:(lia)) as Hb.
    apply Z.mod_divide in Hmod as [c Hc]; [|lia].
    assert (align x <= 18446744073709551616 - 64) as Hle' by lia.
    split; [lia|]. split; [|split].
    + intros y Hy Hxy. apply Z.mod_divide in Hy as [d ->]; lia.
    + intros Hx0. apply Z.mod_divide in Hx0 as [d ->]; lia.
    + destruct (Hlow (align x) ltac:(lia)) as [Heq' Hbound'].
      rewrite Heq'. rewrite Hc in *.
      replace (c * 64 + 63) with (63 + c * 64) by lia.
      rewrite Z.div_add by lia. change (63 / 64) with 0. lia.
  - intros Hgt. rewrite align_div by lia.
    change (2 ^ 64) with 18446744073709551616.
    replace ((x + 63) mod 18446744073709551616)
      with (x + 63 - 18446744073709551616).
    2:{ symmetry. rewrite <- (Z.mod_add _ (-1)) by lia.
        apply Z.mod_small. lia. }
    rewrite Z.div_small by lia. lia.
Qed.
End AlignMore.

Lemma align_rounds_up_witness :
  Loongson3.align 3080 = 3136 /\ Loongson3.align (2^64 - 1) = 0.
Proof.
  split.
  - destruct (align_rounds_up 3080 ltac:(lia)) as (_ & _ & Hup & _).
    destruct (Hup ltac:(lia)) as (Hb & _).
    destruct (align_rounds_up 3080 ltac:(lia)) as (_ & Hmod & _).
    apply Z.mod_divide in Hmod as [c Hc]; [|lia]. lia.
  - destruct (align_rounds_up (2^64 - 1) ltac:(lia)) as (_ & _ & _ & Hwrap).
    apply Hwrap. lia.
Defined.

Section PmMore.
Import Loongson3.

Lemma loongson3_pm_write_run (addr val size : Z) (w : world) :
  loongson3_pm_write addr val size w =
    (Ret tt,
     set_trace (fun t => t ++
       (if is_pm_reset (addr, val)
        then [qemu_system_reset_request SHUTDOWN_CAUSE_GUEST_RESET]
        else if is_pm_shutdown (addr, val)
        then [qemu_system_shutdown_request SHUTDOWN_CAUSE_GUEST_SHUTDOWN]
        else [])) w).
Proof.
  unfold loongson3_pm_write, is_pm_reset, is_pm_shutdown. cbn [fst snd].
  destruct (decide (addr <> PM_CNTL_MODE)) as [Hne|Heq%dec_stable].
  - rewrite !bool_decide_eq_false_2 by tauto.
    destruct w. unfold pure, set_trace. cbn. by rewrite app_nil_r.
  - destruct (decide (val = 0x00)) as [Hz|Hnz].
    + by rewrite bool_decide_eq_true_2 by done.
    + rewrite (bool_decide_eq_false_2 (addr = PM_CNTL_MODE /\ val = 0)) by tauto.
      destruct (decide (val = 0xff)) as [Hf|Hnf].
      * by rewrite bool_decide_eq_true_2 by done.
      * rewrite bool_decide_eq_false_2 by tauto.
        destruct w. unfold pure, set_trace. cbn. by rewrite app_nil_r.
Qed.

(** X10.  Over any run of guest stores to the power-management window, the
    machine receives one reset request for each store of 0x00 to offset
    0x10 and one shutdown request for each store of 0xFF to it, nothing
    else is logged and nothing but the log changes. *)
Theorem pm_stores_requests (ws : list (Z * Z)) (w : world) :
  exists t,
    pm_stores ws w = (Ret tt, set_trace (fun t0 => t0 ++ t) w) /\
    reset_requests t = length (List.filter is_pm_reset ws) /\
    shutdown_requests t = length (List.filter is_pm_shutdown ws) /\
    length t = (reset_requests t + shutdown_requests t)%nat.
Proof.
  revert w. induction ws as [|[addr val] ws IH]; intros w.
  - exists []. split; [|done]. destruct w. cbn. unfold pure, set_trace. cbn.
    by rewrite app_nil_r.
  - unfold pm_stores. cbn [for_each fst snd].
    rewrite (bind_run _ _ _ _ _ (loongson3_pm_write_run _ _ _ _)).
    fold (pm_stores ws).
    destruct (IH (set_trace (fun t => t ++
       (if is_pm_reset (addr, val)
        then [qemu_system_reset_request SHUTDOWN_CAUSE_GUEST_RESET]
        else if is_pm_shutdown (addr, val)
        then [qemu_system_shutdown_request SHUTDOWN_CAUSE_GUEST_SHUTDOWN]
        else [])) w)) as (t & Hrun & Hr & Hs & Hlen).
    eexists. split.
    { rewrite Hrun. destruct w. unfold set_trace. cbn.
      rewrite <- app_assoc. reflexivity. }
    rewrite reset_requests_app, shutdown_requests_app, length_app, Hr, Hs.
    cbn [List.filter].
    assert (is_pm_reset (addr, val) = true -> is_pm_shutdown (addr, val) = false)
      as Hexcl.
    { unfold is_pm_reset, is_pm_shutdown. cbn.
      intros [_ ->]%bool_decide_eq_true. apply bool_decide_eq_false. lia. }
    destruct (is_pm_reset (addr, val)) eqn:E1.
    + rewrite Hexcl by done. cbn. rewrite Hlen, Hr, Hs. lia.
    + destruct (is_pm_shutdown (addr, val)) eqn:E2; cbn; rewrite Hlen, Hr, Hs; lia.
Qed.
End PmMore.

(** * More on the boot tables *)

Section ProbeMore.
Import Loongson3.

Lemma scan_digits_range : forall (s : list (option Z)) (digits : list Z),
  scan_digits s = Some digits -> Forall (fun d => 48 <= d <= 57) digits.
Proof.
  induction s as [|[c|] s IH]; intros digits Hs; cbn in Hs; try discriminate.
  destruct (decide (48 <= c <= 57)) as [Hc|Hc].
  - destruct (scan_digits s) as [ds|]; [|discriminate].
    cbn in Hs. simplify_eq. apply Forall_cons. split; [done|]. by apply IH.
  - simplify_eq. apply Forall_nil_2.
Qed.

Lemma atoi_range (digits : list Z) (v : Z) :
  Forall (fun d => 48 <= d <= 57) digits ->
  atoi digits = Some v -> 0 <= v <= INT_MAX.
Proof.
  intros Hd. unfold atoi. cbv zeta.
  assert (forall acc, 0 <= acc ->
            0 <= fold_left (fun acc d => 10 * acc + (d - 48)) digits acc) as Hnn.
  { induction Hd as [|d ds Hd0 Hds IH]; intros acc Hacc; cbn; [done|].
    apply IH. lia. }
  specialize (Hnn 0 ltac:(lia)).
  destruct (decide _); [|discriminate]. intros; simplify_eq. lia.
Qed.

(** What the probe can return: a whole number of MHz that fits an [int],
    printed nothing; or 0 after the one line of a failed [open] or
    [read]. *)
Lemma cpu_freq_probe_range (host : Host) (freq : Z) (msgs : list string) :
  cpu_freq_probe host = Some (freq, msgs) ->
  0 <= freq <= INT_MAX /\ freq mod 1000000 = 0 /\
  (msgs = [] \/ freq = 0 /\ length msgs = 1%nat).
Proof.
  unfold cpu_freq_probe, get_host_cpu_freq. cbv zeta.
  destruct (host_proc_cpuinfo host) as [| |data].
  - cbn. intros; simplify_eq. unfold INT_MAX. split; [lia|]. split; [done|].
    right. done.
  - cbn. intros; simplify_eq. unfold INT_MAX. split; [lia|]. split; [done|].
    right. done.
  - destruct (strstr _ _) as [[i|]|]; [|discriminate..].
    destruct (scan_for _ _) as [j|]; [|discriminate].
    destruct (decide _); [|discriminate].
    destruct (scan_digits _) as [digits|] eqn:Hdigits; [|discriminate].
    destruct (atoi _) as [v|] eqn:Hv; [|discriminate].
    pose proof (atoi_range _ _ (scan_digits_range _ _ Hdigits) Hv) as Hrange.
    unfold int_mul. cbn [mbind option_bind].
    destruct (decide (INT_MIN <= v * 1000 <= INT_MAX)); [|discriminate].
    cbn [mbind option_bind].
    destruct (decide (INT_MIN <= v * 1000 * 1000 <= INT_MAX)); [|discriminate].
    cbn. intros; simplify_eq.
    split; [lia|]. split; [|by left].
    replace (v * 1000 * 1000) with (v * 1000000) by lia.
    apply Z.mod_mul. lia.
Qed.

End ProbeMore.

(** The probe on sample hosts.  The digits behind "@ " count MHz, whatever
    follows them; without "model name" among the bytes read, or without '@'
    behind it, the function has no defined behaviour, and neither has the
    product for a clock of 2148 MHz or more. *)
Example cpu_freq_probe_samples :
  cpu_freq_probe (host_at "model name : Loongson-3A R4 @ 1800MHz") =
    Some (1800000000, []) /\
  cpu_freq_probe (host_at "model name : Generic CPU @ 2.40GHz") =
    Some (2000000, []) /\
  cpu_freq_probe (host_at "processor : 0") = None /\
  cpu_freq_probe (host_at "model name : Loongson-3A4000") = None /\
  cpu_freq_probe (host_at "model name : Loongson-3A R5 @ 2500MHz") = None.
Proof. repeat split; vm_compute; reflexivity. Qed.

Section TableMore.
Import Loongson3.
Variable host : Host.
Variable current_machine : MachineState.

(** X11.  The CPU record [init_cpu_info] writes on a host where the
    frequency probe returns.  It never advertises a zero clock: the clock
    is the probe's result, a whole number of MHz below 2^31, or 400 MHz
    when the probe gave 0, as it does after a failed [open] or [read] of
    /proc/cpuinfo, which it reports on the error output.  The record gives
    the machine's CPU count, the number of 4-CPU nodes that many CPUs
    need, boot core 0, the Loongson-3A type and its processor id, and keeps
    the fields the function does not assign. *)
Theorem init_cpu_info_record (w : world) (p freq : Z) (msgs : list string) :
  cpu_freq_probe host = Some (freq, msgs) ->
  let run := init_cpu_info host current_machine p w in
  let c := deref_cpuinfo (heap run.2) p in
  let old := deref_cpuinfo (heap w) p in
  let n := Z.of_nat (smp_cpus current_machine) in
  run.1 = Ret p /\
  stderr run.2 = stderr w ++ msgs /\
  cpu_clock_freq c = (if decide (freq = 0) then 400000000 else freq) /\
  0 < cpu_clock_freq c < 2^31 /\
  cpu_clock_freq c mod 1000000 = 0 /\
  (host_proc_cpuinfo host = Open_failed ->
     cpu_clock_freq c = 400000000 /\ msgs = ["Failed to open /proc/cpuinfo!"]) /\
  (host_proc_cpuinfo host = Read_failed ->
     cpu_clock_freq c = 400000000 /\ msgs = ["Failed to read /proc/cpuinfo!"]) /\
  nr_cpus c = n /\
  4 * (total_node c - 1) < n <= 4 * total_node c /\
  cpu_startup_core_id c = 0 /\ cputype c = Loongson_3A /\
  processor_id c = 0x14C000 /\
  cpuinfo_vers c = cpuinfo_vers old /\ cpuname c = cpuname old /\
  reserved_cores_mask c = reserved_cores_mask old.
Proof.
  intros Hprobe. cbv zeta.
  rewrite (init_cpu_info_run host current_machine w p freq msgs Hprobe).
  cbn [fst snd]. unfold set_heap, set_stderr. cbn [heap stderr].
  rewrite !deref_cpuinfo_insert_eq.
  set (old := deref_cpuinfo (heap w) p).
  cbn [cpu_clock_freq nr_cpus total_node cpu_startup_core_id cputype cpuinfo_vers
       cpuname reserved_cores_mask processor_id].
  destruct (cpu_freq_probe_range host freq msgs Hprobe) as (Hrange & Hmhz & _).
  unfold INT_MAX in Hrange.
  change (2 ^ 31) with 2147483648 in *.
  assert (u32 freq = freq) as Hu32.
  { apply Z.mod_small. change (2 ^ 32) with 4294967296. lia. }
  rewrite Hu32.
  split; [done|]. split; [done|]. split; [done|].
  split; [case_decide; lia|].
  split; [by case_decide|].
  split.
  { intros Hopen. unfold cpu_freq_probe, get_host_cpu_freq in Hprobe.
    rewrite Hopen in Hprobe. cbn in Hprobe. by simplify_eq. }
  split.
  { intros Hread. unfold cpu_freq_probe, get_host_cpu_freq in Hprobe.
    rewrite Hread in Hprobe. cbn in Hprobe. by simplify_eq. }
  split; [done|]. split; [|done].
  pose proof (Z.div_mod (Z.of_nat (smp_cpus current_machine) + 3) 4 ltac:(lia)).
  pose proof (Z.mod_pos_bound (Z.of_nat (smp_cpus current_machine) + 3) 4 ltac:(lia)).
  lia.
Qed.

(** X12.  On a host where the frequency probe returns,
    [init_loongson_params] writes host memory inside the offset table (the
    56 bytes from [lp]) and inside the chain (from [boot_params_p] to the
    cursor it leaves) only: an address outside both holds what it held.
    The log of calls, the environment, the CPUs, the loader parameters and
    [boot_params_buf] are untouched, and the error output gains what the
    probe printed. *)
Theorem init_loongson_params_frame (w : world) (lp a freq : Z) (msgs : list string) :
  cpu_freq_probe host = Some (freq, msgs) ->
  0 <= lp ->
  lp + sizeof_loongson_params <= boot_params_p w ->
  a < lp \/ lp + sizeof_loongson_params <= a ->
  a < boot_params_p w \/ chain_end (boot_params_p w) chain_sizes <= a ->
  let w' := (init_loongson_params host current_machine lp w).2 in
  heap w' !! a = heap w !! a /\
  trace w' = trace w /\ environ w' = environ w /\ stderr w' = stderr w ++ msgs /\
  cpus w' = cpus w /\ loaderparams w' = loaderparams w /\
  boot_params_buf w' = boot_params_buf w.
Proof.
  intros Hprobe Hlp0 Hlp Ha Hout. cbv zeta.
  change sizeof_loongson_params with 56 in *.
  unfold chain_end, chain_sizes in Hout. cbn [fold_left] in Hout. align_values.
  destruct (init_loongson_params_records host current_machine w lp freq msgs Hprobe)
    as (h' & Hrun & _ & _ & _ & _ & Hframe); [lia|].
  cbv zeta in Hrun, Hframe. rewrite Hrun. clear Hrun.
  destruct w as [lprm fwc p0 buf ram bn env h err tr cp].
  cbn [boot_params_p heap] in *. world_simpl. cbn [snd heap].
  split; [|done]. apply Hframe; lia.
Qed.

(** X13.  A guest that follows the offsets finds the data, when the offset
    table lies below the chain and the frequency probe returns: the
    address of the offset table plus [memory_offset] holds the two-entry
    memory map with the sizes [init_memory_map] computes from the RAM size,
    and the address plus [cpu_offset] holds the CPU record with the
    machine's CPU count and a non-zero clock. *)
Theorem init_loongson_params_walk (w : world) (lp freq : Z) (msgs : list string) :
  cpu_freq_probe host = Some (freq, msgs) ->
  0 <= lp ->
  lp + sizeof_loongson_params <= boot_params_p w ->
  chain_end (boot_params_p w) chain_sizes < 2^64 ->
  0 <= lp_ram_size (loaderparams w) < 2^64 ->
  (2 <= length (map (deref_memory_map (heap w) (boot_params_p w))))%nat ->
  let ram := lp_ram_size (loaderparams w) in
  let w' := (init_loongson_params host current_machine lp w).2 in
  let offsets := deref_loongson_params (heap w') lp in
  let emap := deref_memory_map (heap w') (lp + memory_offset offsets) in
  let cpu := deref_cpuinfo (heap w') (lp + cpu_offset offsets) in
  nr_map emap = 2 /\
  mem_size <$> map emap !! 0%nat =
    Some (if decide (ram > 256 * MiB) then 240 else u32 (Z.shiftr ram 20 - 16)) /\
  mem_size <$> map emap !! 1%nat =
    Some (if decide (ram > 256 * MiB) then u32 (Z.shiftr ram 20 - 256) else 0) /\
  mem_start <$> map emap !! 1%nat = Some 0x90000000 /\
  nr_cpus cpu = Z.of_nat (smp_cpus current_machine) /\
  cpu_clock_freq cpu <> 0.
Proof.
  intros Hprobe Hlp0 Hlp Hend Hram Hlen. cbv zeta.
  change sizeof_loongson_params with 56 in *.
  destruct (init_loongson_params_records host current_machine w lp freq msgs Hprobe)
    as (h' & Hrun & Hm & Hc & Hmo & Hco & _); [lia|].
  cbv zeta in Hrun, Hm, Hc, Hmo, Hco. rewrite Hrun. clear Hrun.
  assert (forall w0 p f, heap (set_stderr f (set_boot_params_p p
                                 (set_heap (fun _ => h') w0))) = h')
    as Hheap by (by intros []).
  cbn [snd]. rewrite Hheap.
  unfold chain_end, chain_sizes in Hend. cbn [fold_left] in Hend. align_values.
  rewrite Hmo, Hco, !u64_small by lia.
  replace (lp + (boot_params_p w - lp)) with (boot_params_p w) by lia.
  replace (lp + (boot_params_p w + 3136 - lp)) with (boot_params_p w + 3136) by lia.
  unfold deref_memory_map at 1 2 3 4. rewrite Hm.
  unfold deref_cpuinfo at 1 2. rewrite Hc.
  rewrite init_memory_map_run, (init_cpu_info_run _ _ _ _ _ _ Hprobe).
  unfold set_heap, set_stderr. cbn [snd heap].
  rewrite !lookup_insert_eq.
  cbn [nr_map map nr_cpus cpu_clock_freq].
  set (old := map (deref_memory_map (heap w) (boot_params_p w))) in *.
  split; [done|].
  rewrite list_lookup_insert_ne by done.
  rewrite list_lookup_insert_eq by lia.
  rewrite !list_lookup_insert_eq by (rewrite length_insert; lia).
  cbn [fmap option_fmap option_map mem_size mem_start].
  change (256 * MiB) with 0x10000000.
  split; [f_equal; rewrite u32_u64; by case_decide|].
  split; [f_equal; case_decide; [by rewrite u32_u64|done]|].
  split; [done|]. split; [done|]. by case_decide.
Qed.

End TableMore.

Lemma init_cpu_info_record_witness :
  cpu_freq_probe null_host = Some (0, ["Failed to open /proc/cpuinfo!"]) /\
  Loongson3.cpu_clock_freq
    (Loongson3.deref_cpuinfo
       (Loongson3.heap
          (Loongson3.init_cpu_info null_host demo_machine 0x100d20 chain_world).2)
       0x100d20) = 400000000.
Proof.
  split; [reflexivity|].
  refine (proj1 (proj2 (proj2 (init_cpu_info_record null_host demo_machine
    chain_world 0x100d20 0 _ eq_refl)))).
Defined.

Lemma init_loongson_params_frame_witness :
  cpu_freq_probe null_host = Some (0, ["Failed to open /proc/cpuinfo!"]) /\
  0x100048 + Loongson3.sizeof_loongson_params <= Loongson3.boot_params_p chain_world /\
  Loongson3.heap
    (Loongson3.init_loongson_params null_host demo_machine 0x100048 chain_world).2
    !! 0x100000 = None /\
  Loongson3.stderr
    (Loongson3.init_loongson_params null_host demo_machine 0x100048 chain_world).2
    = ["Failed to open /proc/cpuinfo!"].
Proof.
  assert (0x100048 + Loongson3.sizeof_loongson_params
          <= Loongson3.boot_params_p chain_world) as H1 by (vm_compute; discriminate).
  split; [reflexivity|]. split; [exact H1|].
  destruct (init_loongson_params_frame null_host demo_machine chain_world 0x100048
              0x100000 0 _ eq_refl ltac:(lia) H1)
    as (Hheap & _ & _ & Herr & _).
  - left. lia.
  - left. vm_compute. reflexivity.
  - split; [exact Hheap | exact Herr].
Defined.

Lemma init_loongson_params_walk_witness :
  0x100048 + Loongson3.sizeof_loongson_params <= Loongson3.boot_params_p chain_world /\
  Loongson3.nr_cpus
    (Loongson3.deref_cpuinfo
       (Loongson3.heap
          (Loongson3.init_loongson_params null_host demo_machine 0x100048 chain_world).2)
       (0x100048 + Loongson3.cpu_offset
          (Loongson3.deref_loongson_params
             (Loongson3.heap
                (Loongson3.init_loongson_params null_host demo_machine 0x100048
                   chain_world).2) 0x100048))) = 2.
Proof.
  assert (0x100048 + Loongson3.sizeof_loongson_params
          <= Loongson3.boot_params_p chain_world) as H1 by (vm_compute; discriminate).
  split; [exact H1|].
  pose proof (init_loongson_params_walk null_host demo_machine chain_world 0x100048
                0 _ eq_refl ltac:(lia) H1) as H.
  cbv zeta in H. destruct H as (_ & _ & _ & _ & Hn & _).
  - vm_compute. reflexivity.
  - vm_compute. split; [discriminate | reflexivity].
  - vm_compute. lia.
  - exact Hn.
Defined.

(** * More on the boot parameter block and the kernel loader *)

Section LoaderMore.
Import Loongson3.
Variable host : Host.
Variable current_machine : MachineState.

(** X14.  The boot parameter block on a host where the frequency probe
    returns: [init_boot_param] returns 0, stores the SMBIOS version 1,
    points the memory-map offset right behind the aligned
    [struct boot_params] (152 bytes after the offset table), fills the
    reset and shutdown vectors with addresses inside the boot stub at
    0xffffffffbfc00000, keeps the two fields the code never assigns, and
    writes nowhere outside the block and the chain behind it. *)
Theorem init_boot_param_block (w : world) (bp freq : Z) (msgs : list string) :
  cpu_freq_probe host = Some (freq, msgs) ->
  0 <= bp ->
  boot_params_p w = bp + align sizeof_boot_params ->
  let r := init_boot_param host current_machine bp w in
  let old := deref_reset_system (heap w) (bp + offsetof_boot_params_reset_system) in
  let new := deref_reset_system (heap r.2) (bp + offsetof_boot_params_reset_system) in
  r.1 = Ret 0 /\
  heap r.2 !! (bp + offsetof_efi_loongson_smbios) = Some (Obj_smbios_vers 1) /\
  memory_offset (deref_loongson_params (heap r.2) (bp + 40)) = 152 /\
  ResetCold new = 0xffffffffbfc00088 /\ ResetWarm new = 0xffffffffbfc00088 /\
  Shutdown new = 0xffffffffbfc000b0 /\
  ResetType new = ResetType old /\ DoSuspend new = DoSuspend old /\
  boot_params_p r.2 = chain_end (bp + align sizeof_boot_params) chain_sizes /\
  (forall a, a < bp \/ boot_params_p r.2 <= a -> heap r.2 !! a = heap w !! a) /\
  stderr r.2 = stderr w ++ msgs.
Proof.
  intros Hprobe Hbp Hp.
  destruct (init_boot_param_run host current_machine w bp freq msgs Hprobe Hp)
    as (h' & Hrun & Hs & Hmo & Hrs & Hframe & _).
  cbv zeta. rewrite Hrun. clear Hrun.
  change offsetof_boot_params_reset_system with 112.
  change offsetof_efi_loongson_smbios with 24.
  destruct w as [lprm fwc p0 buf ram bn env h err tr cp].
  world_simpl. cbn [fst snd heap boot_params_p stderr] in *.
  rewrite Hrs. cbn [ResetCold ResetWarm Shutdown ResetType DoSuspend].
  repeat (split; [done|]).
  split.
  { unfold chain_end, chain_sizes. cbn [fold_left]. align_values.
    change (align sizeof_boot_params) with 192. lia. }
  split; [|done].
  intros a Ha. apply Hframe. lia.
Qed.

Lemma length_substring_0 (n : nat) : forall s : string,
  String.length (String.substring 0 n s) = Nat.min n (String.length s).
Proof.
  induction n as [|n IH]; intros [|c s]; cbn; try done.
  by rewrite IH.
Qed.

(** X15.  The argument vector of the command-line blob.  Its first two
    words are guest pointers relative to BOOTPARAM_ADDR; followed back into
    the host buffer they lead to the program name "g" and to the argv[1]
    text.  That text is cut to 237 characters, ends before the boot
    parameter block starts, and the third word is BOOTPARAM_ADDR + 4 * ret
    (truncated to 32 bits), where ret counts the uncut text.  On a host
    where the frequency probe returns the function goes on to set the
    registers: a0 announces two arguments and the low half of a1 is
    BOOTPARAM_ADDR. *)
Theorem set_prom_bootparam_argv (initrd_offset initrd_size : Z) (w : world)
    (freq : Z) (msgs : list string) :
  cpu_freq_probe host = Some (freq, msgs) ->
  0 <= host_g_malloc0 host 0x100000 ->
  let buf := host_g_malloc0 host 0x100000 in
  let text := argv1_text initrd_offset initrd_size (kernel_cmdline (loaderparams w)) in
  let len := Z.of_nat (String.length text) in
  let w' := (set_prom_bootparam host current_machine initrd_offset initrd_size w).2 in
  exists p0 p1 stored,
    heap w' !! buf = Some (Obj_uint p0) /\
    heap w' !! (buf + 4) = Some (Obj_uint p1) /\
    heap w' !! (buf + 8) = Some (Obj_uint (u32 (BOOTPARAM_ADDR + 4 * (19 + len)))) /\
    heap w' !! (buf + (p0 - BOOTPARAM_ADDR)) = Some (Obj_chars "g") /\
    heap w' !! (buf + (p1 - BOOTPARAM_ADDR)) = Some (Obj_chars stored) /\
    stored = String.substring 0 237 text /\
    Z.of_nat (String.length stored) = Z.min 237 len /\
    buf + (p1 - BOOTPARAM_ADDR) + Z.of_nat (String.length stored) + 1
      <= boot_params_buf w' /\
    a0 (loaderparams w') = 2 /\
    u32 (a1 (loaderparams w')) = BOOTPARAM_ADDR.
Proof.
  intros Hprobe Hbuf. cbv zeta.
  destruct (set_prom_bootparam_heap host current_machine initrd_offset initrd_size
              w freq msgs Hprobe)
    as (h' & Hrun & H0 & H4 & H8 & H16 & H18 & _ & _).
  cbv zeta in Hrun, H0, H4, H8, H16, H18.
  rewrite Hrun. clear Hrun. cbn [snd heap loaderparams a0 a1 boot_params_buf].
  set (text := argv1_text initrd_offset initrd_size (kernel_cmdline (loaderparams w))) in *.
  pose proof (blob_length_spec text) as [_ Hlen].
  exists (u32 (BOOTPARAM_ADDR + 16)), (u32 (BOOTPARAM_ADDR + 18)),
    (String.substring 0 237 text).
  change (u32 (BOOTPARAM_ADDR + 16) - BOOTPARAM_ADDR) with 16.
  change (u32 (BOOTPARAM_ADDR + 18) - BOOTPARAM_ADDR) with 18.
  rewrite length_substring_0.
  repeat (split; [done || lia|]).
  reflexivity.
Qed.

(** X16.  The extent of the blob on a host where the frequency probe
    returns.  [set_prom_bootparam] writes host memory only from the start
    of its 1 MiB buffer up to the chain cursor it leaves; the boot
    parameter block starts at a 32-byte multiple behind the uncut argument
    text and a2 is its guest address; the cursor stands behind the aligned
    block and the seven aligned records.  That cursor is inside the 1 MiB
    buffer exactly when the argv[1] text has at most 1012972 characters
    (the code does not test it), and up to that length every address
    written lies inside the buffer. *)
Theorem set_prom_bootparam_extent (initrd_offset initrd_size : Z) (w : world)
    (freq : Z) (msgs : list string) :
  cpu_freq_probe host = Some (freq, msgs) ->
  0 <= host_g_malloc0 host 0x100000 ->
  let buf := host_g_malloc0 host 0x100000 in
  let text := argv1_text initrd_offset initrd_size (kernel_cmdline (loaderparams w)) in
  let len := Z.of_nat (String.length text) in
  let w' := (set_prom_bootparam host current_machine initrd_offset initrd_size w).2 in
  (forall a, a < buf \/ boot_params_p w' <= a -> heap w' !! a = heap w !! a) /\
  (boot_params_buf w' - buf) mod 32 = 0 /\
  19 + len < boot_params_buf w' - buf <= 19 + len + 32 /\
  a2 (loaderparams w') = u64 (a1 (loaderparams w') + (boot_params_buf w' - buf)) /\
  boot_params_p w' =
    chain_end (boot_params_buf w' + align sizeof_boot_params) chain_sizes /\
  (boot_params_p w' <= buf + 0x100000 <-> len <= 1012972) /\
  (len <= 1012972 ->
   forall a, heap w' !! a <> heap w !! a -> buf <= a < buf + 0x100000).
Proof.
  intros Hprobe Hbuf. cbv zeta.
  destruct (set_prom_bootparam_heap host current_machine initrd_offset initrd_size
              w freq msgs Hprobe)
    as (h' & Hrun & _ & _ & _ & _ & _ & _ & Hframe).
  cbv zeta in Hrun, Hframe.
  rewrite Hrun. clear Hrun.
  cbn [snd heap loaderparams a1 a2 boot_params_buf boot_params_p].
  set (text := argv1_text initrd_offset initrd_size (kernel_cmdline (loaderparams w))) in *.
  set (buf := host_g_malloc0 host 0x100000) in *.
  pose proof (blob_length_spec text) as [HR Hlen]. cbv zeta in HR.
  set (n := 16 + (1 + 1) + (1 + Z.of_nat (String.length text))) in *.
  pose proof (Z.div_mod (n + 32) 32 ltac:(lia)) as Hdm.
  pose proof (Z.mod_pos_bound (n + 32) 32 ltac:(lia)) as Hmb.
  set (q := (n + 32) / 32) in *.
  replace (buf + blob_length text - buf) with (blob_length text) by lia.
  split; [exact Hframe|].
  split. { rewrite HR, Z.mul_comm. apply Z.mod_mul; lia. }
  split; [lia|].
  split.
  { change (u64 (0xffffffff80000000 + BOOTPARAM_PHYADDR)) with 0xffffffff8ff00000.
    by f_equal. }
  split.
  { unfold chain_end, chain_sizes. cbn [fold_left]. align_values.
    change (align sizeof_boot_params) with 192. lia. }
  split; [lia|].
  intros Hlen' a Ha.
  destruct (decide (a < buf \/ buf + blob_length text + 192 + 35392 <= a)) as [Hout|Hin].
  - by rewrite Hframe in Ha.
  - lia.
Qed.

Lemma shiftr20_spec (ram : Z) :
  1048576 * Z.shiftr ram 20 <= ram < 1048576 * Z.shiftr ram 20 + 1048576.
Proof.
  rewrite Z.shiftr_div_pow2 by lia. change (2 ^ 20) with 1048576.
  pose proof (Z.div_mod ram 1048576 ltac:(lia)).
  pose proof (Z.mod_pos_bound ram 1048576 ltac:(lia)). lia.
Qed.

(** However [set_prom_bootparam] ends, the environment holds the two
    variables, [boot_params_buf] stands behind the command-line blob and
    the memory map behind the boot parameter block is the one
    [init_memory_map] builds: all three are settled before the frequency
    probe runs. *)
Lemma set_prom_bootparam_environ_all (initrd_offset initrd_size : Z) (w : world) :
  let ram := lp_ram_size (loaderparams w) in
  environ (set_prom_bootparam host current_machine initrd_offset initrd_size w).2 =
    <["highmemsize" :=
        fmt_ld (if decide (ram > 0x10000000)
                then u64 (Z.shiftr ram 20 - 256) else 0)]>
      (<["memsize" :=
           fmt_ld (if decide (ram > 0x10000000)
                   then 256 else Z.shiftr ram 20)]>
         (environ w)).
Proof.
  cbv zeta.
  rewrite <- (bind_pure_r
    (set_prom_bootparam host current_machine initrd_offset initrd_size) w).
  rewrite set_prom_bootparam_start. cbv zeta.
  match goal with
  | |- environ (?m ?W).2 = _ =>
    assert (preserves environ m) as H; [|by rewrite (H W)]
  end.
  unfold init_boot_param, init_efi, init_smbios, init_loongson_params.
  repeat preserves_step.
Qed.

Lemma set_prom_bootparam_memory_map_all (initrd_offset initrd_size : Z) (w : world) :
  let buf := host_g_malloc0 host 0x100000 in
  let text := argv1_text initrd_offset initrd_size (kernel_cmdline (loaderparams w)) in
  let bp := buf + blob_length text in
  let w' := (set_prom_bootparam host current_machine initrd_offset initrd_size w).2 in
  boot_params_buf w' = bp /\
  heap w' !! (bp + 192) = heap (init_memory_map (bp + 192) w).2 !! (bp + 192).
Proof.
  cbv zeta.
  pose proof (blob_length_spec
    (argv1_text initrd_offset initrd_size (kernel_cmdline (loaderparams w)))) as [_ Hlen].
  cbv zeta in Hlen.
  rewrite <- (bind_pure_r
    (set_prom_bootparam host current_machine initrd_offset initrd_size) w).
  rewrite set_prom_bootparam_start. cbv zeta.
  set (text := argv1_text initrd_offset initrd_size (kernel_cmdline (loaderparams w))) in *.
  set (buf := host_g_malloc0 host 0x100000) in *.
  set (R := blob_length text) in *.
  split.
  - match goal with
    | |- boot_params_buf (?m ?W).2 = _ =>
      assert (preserves boot_params_buf m) as H; [|by rewrite (H W)]
    end.
    unfold init_boot_param, init_efi, init_smbios, init_loongson_params.
    repeat preserves_step.
  - rewrite init_memory_map_run.
    unfold init_boot_param, init_efi, init_smbios.
    change offsetof_boot_params_efi with 0.
    change offsetof_efi_loongson_smbios with 24.
    change offsetof_smbios_tables_lp with 16.
    change offsetof_boot_params_reset_system with 112.
    change (align sizeof_boot_params) with 192.
    run1. unfold init_loongson_params. run1. align_values.
    rewrite !bind_assoc.
    rewrite (bind_run _ _ _ _ _ (init_memory_map_run _ _)).
    rewrite !bind_assoc.
    rewrite (bind_run _ _ _ _ _ (assign_lp_run _ _ _)).
    world_norm.
    match goal with
    | |- heap (?m ?W).2 !! ?key = _ =>
      assert (preserves (fun x => heap x !! key) m) as H; [|rewrite (H W)]
    end.
    { repeat preserves_step. }
    cbn [snd heap]. unfold set_heap. cbn [heap].
    rewrite lookup_insert_ne by lia. rewrite !lookup_insert_eq.
    unfold deref_memory_map. by rewrite !lookup_insert_ne by lia.
Qed.

(** X17.  The two environment variables.  Whatever they held before,
    after [set_prom_bootparam] "memsize" and "highmemsize" hold the decimal
    text of the low and the high part of the RAM size in MiB: the low part
    is at most 256, the high part is what exceeds 256, and together they
    give the whole size.  No other variable changes. *)
Theorem set_prom_bootparam_environ (initrd_offset initrd_size : Z) (w : world) :
  0 <= lp_ram_size (loaderparams w) < 2^63 ->
  let mib := Z.shiftr (lp_ram_size (loaderparams w)) 20 in
  let w' := (set_prom_bootparam host current_machine initrd_offset initrd_size w).2 in
  environ w' !! "memsize" = Some (pretty (Z.min mib 256)) /\
  environ w' !! "highmemsize" = Some (pretty (Z.max (mib - 256) 0)) /\
  Z.min mib 256 + Z.max (mib - 256) 0 = mib /\
  (forall v, v <> "memsize" -> v <> "highmemsize" -> environ w' !! v = environ w !! v).
Proof.
  intros Hram. cbv zeta.
  rewrite set_prom_bootparam_environ_all.
  set (ram := lp_ram_size (loaderparams w)) in *.
  pose proof (shiftr20_spec ram) as Hsh.
  change (2 ^ 63) with 9223372036854775808 in Hram.
  set (mib := Z.shiftr ram 20) in *.
  assert (forall x, 0 <= x < 8796093022208 -> fmt_ld x = pretty x) as Hfmt.
  { intros x Hx. unfold fmt_ld, s64. f_equal.
    change (2 ^ 63) with 9223372036854775808.
    change (2 ^ 64) with 18446744073709551616.
    rewrite Z.mod_small by lia. lia. }
  split; [|split; [|split; [lia|]]].
  - rewrite lookup_insert_ne by done. rewrite lookup_insert_eq. f_equal.
    destruct (decide (ram > 268435456)).
    + rewrite Hfmt by lia. f_equal. lia.
    + rewrite Hfmt by lia. f_equal. lia.
  - rewrite lookup_insert_eq. f_equal.
    destruct (decide (ram > 268435456)).
    + unfold u64. change (2 ^ 64) with 18446744073709551616.
      rewrite Z.mod_small by lia. rewrite Hfmt by lia. f_equal. lia.
    + rewrite Hfmt by lia. f_equal. lia.
  - intros v Hv1 Hv2. by rewrite !lookup_insert_ne by done.
Qed.

(** X18.  The memory map the guest finds behind the boot parameter block
    and the two environment variables describe the same split of the RAM
    (from 16 MiB up): the table has two entries, low memory from address 0
    and high memory from 0x90000000; the low entry is 16 MiB short of
    "memsize", the high entry equals "highmemsize", and the three add up to
    the RAM size in MiB. *)
Theorem set_prom_bootparam_memory_map (initrd_offset initrd_size : Z) (w : world) :
  0 <= host_g_malloc0 host 0x100000 ->
  let ram := lp_ram_size (loaderparams w) in
  16 * MiB <= ram < 2^52 ->
  let w' := (set_prom_bootparam host current_machine initrd_offset initrd_size w).2 in
  let g_map := boot_params_buf w' + align sizeof_boot_params in
  (2 <= length (map (deref_memory_map (heap w) g_map)))%nat ->
  exists low high,
    nr_map (deref_memory_map (heap w') g_map) = 2 /\
    map (deref_memory_map (heap w') g_map) !! 0%nat = Some (mk_mem_map 0 1 0 low) /\
    map (deref_memory_map (heap w') g_map) !! 1%nat
      = Some (mk_mem_map 0 2 0x90000000 high) /\
    environ w' !! "memsize" = Some (pretty (low + 16)) /\
    environ w' !! "highmemsize" = Some (pretty high) /\
    low + 16 + high = Z.shiftr ram 20 /\
    0 <= low <= 240 /\ 0 <= high /\ (0 < high -> low = 240).
Proof.
  intros Hbuf ram Hram. cbv zeta.
  destruct (set_prom_bootparam_memory_map_all initrd_offset initrd_size w)
    as (Hbpb & Hmm).
  cbv zeta in Hbpb, Hmm. rewrite set_prom_bootparam_environ_all, Hbpb.
  change (align sizeof_boot_params) with 192.
  set (g_map := host_g_malloc0 host 0x100000
                + blob_length (argv1_text initrd_offset initrd_size
                                 (kernel_cmdline (loaderparams w))) + 192) in *.
  intros Hlen.
  rewrite init_memory_map_run in Hmm. unfold set_heap in Hmm. cbn [snd heap] in Hmm.
  rewrite lookup_insert_eq in Hmm.
  unfold deref_memory_map at 1 2 3. rewrite Hmm. cbn [nr_map map].
  fold ram.
  pose proof (shiftr20_spec ram) as Hsh.
  change (16 * MiB) with 16777216 in Hram.
  change (2 ^ 52) with 4503599627370496 in Hram.
  set (mib := Z.shiftr ram 20) in *.
  set (old := deref_memory_map (heap w) g_map) in *.
  assert (forall x, 0 <= x < 4294967296 -> u32 x = x) as Hu32.
  { intros x Hx. apply Z.mod_small.
    change (2 ^ 32) with 4294967296. lia. }
  assert (forall x, 0 <= x < 4294967296 -> u64 x = x) as Hu64.
  { intros x Hx. apply Z.mod_small.
    change (2 ^ 64) with 18446744073709551616. lia. }
  assert (forall x, 0 <= x < 4294967296 -> fmt_ld x = pretty x) as Hfmt.
  { intros x Hx. unfold fmt_ld, s64. f_equal.
    change (2 ^ 63) with 9223372036854775808.
    change (2 ^ 64) with 18446744073709551616.
    rewrite Z.mod_small by lia. lia. }
  exists (Z.min mib 256 - 16), (Z.max (mib - 256) 0).
  split; [done|].
  split.
  { rewrite list_lookup_insert_ne by done.
    rewrite list_lookup_insert_eq by lia. do 2 f_equal.
    destruct (decide (ram > 268435456)).
    - rewrite Hu64 by lia. rewrite Hu32 by lia. lia.
    - rewrite Hu64 by lia. rewrite Hu32 by lia. lia. }
  split.
  { rewrite list_lookup_insert_eq by (rewrite length_insert; lia). do 2 f_equal.
    destruct (decide (ram > 268435456)).
    - rewrite Hu64 by lia. rewrite Hu32 by lia. lia.
    - rewrite Hu32 by lia. lia. }
  split.
  { rewrite lookup_insert_ne by done. rewrite lookup_insert_eq. f_equal.
    destruct (decide (ram > 268435456)); rewrite Hfmt by lia; f_equal; lia. }
  split.
  { rewrite lookup_insert_eq. f_equal.
    destruct (decide (ram > 268435456)).
    - rewrite Hu64 by lia. rewrite Hfmt by lia. f_equal. lia.
    - rewrite Hfmt by lia. f_equal. lia. }
  lia.
Qed.

Lemma load_kernel_bad_kernel_run (w : world) (kernel : string)
    (ksz entry low high : Z) :
  host_load_elf host kernel = (ksz, entry, low, high) ->
  ksz < 0 ->
  load_kernel host current_machine kernel w =
    (Exit 1,
     set_stderr (fun l => l ++ ["could not load kernel '" +:+ kernel +:+ "': "
                                +:+ host_load_elf_strerror host ksz])
       (set_trace (fun t => t ++ [load_elf kernel]) w)).
Proof.
  intros Helf Hksz. unfold load_kernel.
  rewrite (bind_run _ _ _ _ _ (get_run _)).
  rewrite (bind_run _ _ _ _ _ (call_run _ _)).
  rewrite Helf. rewrite (decide_True (P := ksz < 0)) by lia.
  destruct w as [lprm fwc p0 buf ram bn env h err tr cp].
  do 2 run1. reflexivity.
Qed.

(** X19.  A kernel image that cannot be loaded ends the process: exit
    status 1, one message that names the file and gives the loader's reason,
    and nothing done but the [load_elf] call; the ram-disk is not looked at
    and no boot parameters are assembled. *)
Theorem load_kernel_bad_kernel (w : world) (kernel : string)
    (ksz entry low high : Z) :
  host_load_elf host kernel = (ksz, entry, low, high) ->
  ksz < 0 ->
  let run := load_kernel host current_machine kernel w in
  run.1 = Exit 1 /\
  stderr run.2 =
    stderr w ++ ["could not load kernel '" +:+ kernel +:+ "': "
                 +:+ host_load_elf_strerror host ksz] /\
  trace run.2 = trace w ++ [load_elf kernel] /\
  heap run.2 = heap w /\ environ run.2 = environ w /\
  loaderparams run.2 = loaderparams w /\
  boot_params_buf run.2 = boot_params_buf w.
Proof.
  intros Helf Hksz. cbv zeta.
  rewrite (load_kernel_bad_kernel_run w kernel ksz entry low high Helf Hksz).
  by destruct w.
Qed.

(** X20.  A ram-disk file whose size cannot be read ([get_image_size]
    gives -1) ends the process after the kernel was loaded: exit status 1
    and the message that names the ram-disk, without any attempt to load
    it. *)
Theorem load_kernel_initrd_unreadable (w : world) (kernel initrd : string)
    (ksz entry low high : Z) :
  initrd_filename (loaderparams w) = Some initrd ->
  host_load_elf host kernel = (ksz, entry, low, high) ->
  0 <= ksz ->
  host_get_image_size host initrd = -1 ->
  let run := load_kernel host current_machine kernel w in
  run.1 = Exit 1 /\
  stderr run.2 =
    stderr w ++ ["could not load initial ram disk '" +:+ initrd +:+ "'"] /\
  trace run.2 = trace w ++ [load_elf kernel] /\
  heap run.2 = heap w /\ environ run.2 = environ w /\
  loaderparams run.2 = loaderparams w.
Proof.
  intros Hrd Helf Hksz Hsize. cbv zeta. unfold load_kernel.
  rewrite (bind_run _ _ _ _ _ (get_run _)).
  rewrite (bind_run _ _ _ _ _ (call_run _ _)).
  rewrite Helf. rewrite (decide_False (P := ksz < 0)) by lia.
  rewrite (bind_run _ _ _ _ _ (pure_run _ _)).
  rewrite Hrd, Hsize. cbv zeta.
  rewrite (decide_False (P := -1 > 0)) by lia.
  destruct w as [lprm fwc p0 buf ram bn env h err tr cp].
  run1. cbn [snd]. rewrite (decide_True (P := u64 (-1) = u64 (-1))) by done.
  do 2 run1. cbn [fst snd]. world_norm. done.
Qed.

Lemma set_prom_bootparam_no_initrd (off size : Z) (w : world) :
  size <= 0 ->
  set_prom_bootparam host current_machine off size w =
  set_prom_bootparam host current_machine 0 0 w.
Proof.
  intros Hsize. unfold set_prom_bootparam. cbv zeta.
  destruct (decide (size > 0)); [lia|].
  destruct (decide (0 > 0)); [lia|]. reflexivity.
Qed.

Lemma bind_set_prom_bootparam_no_initrd {B} (k : Z -> M B) (off size : Z) (w : world) :
  size <= 0 ->
  bind (set_prom_bootparam host current_machine off size) k w =
  bind (set_prom_bootparam host current_machine 0 0) k w.
Proof. intros Hsize. unfold bind. by rewrite set_prom_bootparam_no_initrd. Qed.

(** X21.  A ram-disk file that is empty is passed over in silence, on a
    host where the frequency probe returns: the loader does not try to
    load it, reports nothing about it (the error output gains only what
    the probe printed), and assembles the boot parameters as it does
    without a ram-disk, so that argv[1] carries the command line alone. *)
Theorem load_kernel_empty_initrd (w : world) (kernel initrd : string)
    (ksz entry low high size freq : Z) (msgs : list string) :
  cpu_freq_probe host = Some (freq, msgs) ->
  initrd_filename (loaderparams w) = Some initrd ->
  host_load_elf host kernel = (ksz, entry, low, high) ->
  0 <= ksz ->
  host_get_image_size host initrd = size ->
  - 2^63 <= size <= 0 -> size <> -1 ->
  0 <= host_g_malloc0 host 0x100000 ->
  let run := load_kernel host current_machine kernel w in
  run.1 = Ret entry /\
  stderr run.2 = stderr w ++ msgs /\
  trace run.2 =
    trace w ++ [load_elf kernel;
                rom_add_blob_fixed "params" (Blob_at (host_g_malloc0 host 0x100000))
                  0x100000 BOOTPARAM_PHYADDR] /\
  heap run.2 !! (host_g_malloc0 host 0x100000 + 18) =
    Some (Obj_chars (String.substring 0 237 (kernel_cmdline (loaderparams w)))).
Proof.
  intros Hprobe Hrd Helf Hksz Hsize Hrange Hne Hbuf. cbv zeta. unfold load_kernel.
  rewrite (bind_run _ _ _ _ _ (get_run _)).
  rewrite (bind_run _ _ _ _ _ (call_run _ _)).
  rewrite Helf. rewrite (decide_False (P := ksz < 0)) by lia.
  rewrite (bind_run _ _ _ _ _ (pure_run _ _)).
  rewrite Hrd, Hsize. cbv zeta.
  rewrite (decide_False (P := size > 0)) by lia.
  run0. cbn [snd].
  rewrite decide_False.
  2:{ unfold u64. change (2 ^ 64) with 18446744073709551616.
      change (2 ^ 63) with 9223372036854775808 in Hrange.
      change ((-1) mod 18446744073709551616) with 18446744073709551615.
      destruct (decide (size = 0)) as [->|Hnz]; [done|].
      rewrite <- (Z.mod_add size 1 18446744073709551616) by lia.
      rewrite Z.mod_small by lia. lia. }
  do 2 run0. cbn [fst snd].
  rewrite bind_set_prom_bootparam_no_initrd by lia.
  match goal with
  | |- context [bind (set_prom_bootparam _ _ 0 0) _ ?W] =>
    destruct (set_prom_bootparam_heap host current_machine 0 0 W freq msgs Hprobe)
      as (h' & Hrun & _ & _ & _ & _ & H18 & _)
  end.
  cbv zeta in Hrun, H18. rewrite (bind_run _ _ _ _ _ Hrun). rewrite pure_run.
  destruct w as [lprm fwc p0 buf ram bn env h err tr cp].
  cbn [fst snd stderr trace heap]. world_norm.
  unfold argv1_text in H18. rewrite (decide_False (P := 0 > 0)) in H18 by lia.
  unfold set_trace in H18. cbn [loaderparams kernel_cmdline] in H18.
  split; [done|]. split; [done|]. split; [by rewrite <- app_assoc|]. exact H18.
Qed.

(** X22.  A ram-disk that fits but that [load_image_targphys] fails to
    bring in (result -1) ends the process: exit status 1 and the message
    that names the ram-disk, after the kernel and the one attempt to load
    the ram-disk at its place; no boot parameters are assembled. *)
Theorem load_kernel_initrd_load_failed (w : world) (kernel initrd : string)
    (ksz entry low high size : Z) :
  initrd_filename (loaderparams w) = Some initrd ->
  host_load_elf host kernel = (ksz, entry, low, high) ->
  0 <= ksz ->
  0 <= high < 2^63 - 0x10000 ->
  host_get_image_size host initrd = size ->
  0 < size < 2^63 ->
  0 <= Loongson3.ram_size w < 2^64 ->
  let off :=
    Z.max (u64 (Z.land (high + Z.lnot INITRD_PAGE_MASK) INITRD_PAGE_MASK))
      INITRD_OFFSET in
  off + size <= Loongson3.ram_size w ->
  host_load_image_targphys host initrd off (Loongson3.ram_size w - off) = -1 ->
  let run := load_kernel host current_machine kernel w in
  run.1 = Exit 1 /\
  stderr run.2 =
    stderr w ++ ["could not load initial ram disk '" +:+ initrd +:+ "'"] /\
  trace run.2 =
    trace w ++ [load_elf kernel;
                load_image_targphys initrd off (Loongson3.ram_size w - off)] /\
  heap run.2 = heap w /\ environ run.2 = environ w /\
  loaderparams run.2 = loaderparams w.
Proof.
  intros Hrd Helf Hksz Hhigh Hsize Hpos Hram off Hfit Hload.
  pose proof (initrd_offset_spec high Hhigh) as Hoff. cbv zeta in Hoff.
  fold off in Hoff. destruct Hoff as (Hal & Hge & Hmin & Hlt & Hleast).
  cbv zeta. unfold load_kernel.
  rewrite (bind_run _ _ _ _ _ (get_run _)).
  rewrite (bind_run _ _ _ _ _ (call_run _ _)).
  rewrite Helf. rewrite (decide_False (P := ksz < 0)) by lia.
  rewrite (bind_run _ _ _ _ _ (pure_run _ _)).
  rewrite Hrd, Hsize. cbv zeta.
  rewrite (decide_True (P := size > 0)) by lia.
  fold off. rewrite (u64_small (off + size)) by lia.
  rewrite !bind_assoc.
  destruct w as [lprm fwc p0 buf ram bn env h err tr cp]. world_norm.
  cbn [Loongson3.ram_size initrd_filename loaderparams] in *.
  rewrite (decide_False (P := off + size > ram)) by lia.
  run1. run1. rewrite (u64_small (ram - off)) by lia. run1.
  cbn [fst snd]. rewrite Hload.
  rewrite (decide_True (P := u64 (-1) = u64 (-1))) by done.
  do 2 run1. cbn [fst snd]. world_norm.
  by rewrite <- app_assoc.
Qed.

(** X23.  A ram-disk that fits and loads, on a host where the frequency
    probe returns.  [load_kernel] returns the kernel's entry point after
    exactly three calls (kernel, ram-disk at its place, "params" blob),
    the error output gains only what the probe printed, and argv[1]
    announces the ram-disk to the guest with its address in kseg0 and with
    the number of bytes that were loaded, not the size of the file, in
    front of the command line. *)
Theorem load_kernel_initrd_loaded (w : world) (kernel initrd : string)
    (ksz entry low high size loaded freq : Z) (msgs : list string) :
  cpu_freq_probe host = Some (freq, msgs) ->
  initrd_filename (loaderparams w) = Some initrd ->
  host_load_elf host kernel = (ksz, entry, low, high) ->
  0 <= ksz ->
  0 <= high < 2^32 - 0x10000 ->
  host_get_image_size host initrd = size ->
  0 < size < 2^63 ->
  0 <= Loongson3.ram_size w < 2^64 ->
  0 <= host_g_malloc0 host 0x100000 ->
  let off :=
    Z.max (u64 (Z.land (high + Z.lnot INITRD_PAGE_MASK) INITRD_PAGE_MASK))
      INITRD_OFFSET in
  off + size <= Loongson3.ram_size w ->
  host_load_image_targphys host initrd off (Loongson3.ram_size w - off) = loaded ->
  0 < loaded < 2^63 ->
  let run := load_kernel host current_machine kernel w in
  run.1 = Ret entry /\
  stderr run.2 = stderr w ++ msgs /\
  trace run.2 =
    trace w ++ [load_elf kernel;
                load_image_targphys initrd off (Loongson3.ram_size w - off);
                rom_add_blob_fixed "params" (Blob_at (host_g_malloc0 host 0x100000))
                  0x100000 BOOTPARAM_PHYADDR] /\
  heap run.2 !! (host_g_malloc0 host 0x100000 + 18) =
    Some (Obj_chars (String.substring 0 237
      ("rd_start=0x" +:+ fmt_016lx (PHYS_TO_VIRT off)
       +:+ " rd_size=" +:+ pretty loaded
       +:+ " " +:+ kernel_cmdline (loaderparams w)))).
Proof.
  intros Hprobe Hrd Helf Hksz Hhigh Hsize Hpos Hram Hbuf off Hfit Hload Hloaded.
  assert (0 <= high < 2^63 - 0x10000) as Hhigh' by lia.
  pose proof (initrd_offset_spec high Hhigh') as Hoff. cbv zeta in Hoff.
  fold off in Hoff. destruct Hoff as (Hal & Hge & Hmin & Hlt & Hleast).
  assert (off < 2^32) as Hoff32.
  { destruct (Z.max_spec (u64 (Z.land (high + Z.lnot INITRD_PAGE_MASK) INITRD_PAGE_MASK))
                INITRD_OFFSET) as [[_ Hm]|[_ Hm]]; fold off in Hm.
    - rewrite Hm. by vm_compute.
    - rewrite Hm, page_round_up.
      pose proof (Z.div_mod (high + 0xffff) 0x10000 ltac:(lia)).
      pose proof (Z.mod_pos_bound (high + 0xffff) 0x10000 ltac:(lia)).
      rewrite u64_small by lia. lia. }
  cbv zeta. unfold load_kernel.
  rewrite (bind_run _ _ _ _ _ (get_run _)).
  rewrite (bind_run _ _ _ _ _ (call_run _ _)).
  rewrite Helf. rewrite (decide_False (P := ksz < 0)) by lia.
  rewrite (bind_run _ _ _ _ _ (pure_run _ _)).
  rewrite Hrd, Hsize. cbv zeta.
  rewrite (decide_True (P := size > 0)) by lia.
  fold off. rewrite (u64_small (off + size)) by lia.
  rewrite !bind_assoc.
  destruct w as [lprm fwc p0 buf ram bn env h err tr cp]. world_norm.
  cbn [Loongson3.ram_size initrd_filename loaderparams kernel_cmdline] in *.
  rewrite (decide_False (P := off + size > ram)) by lia.
  run1. run1. rewrite (u64_small (ram - off)) by lia. run1.
  cbn [fst snd]. rewrite Hload.
  rewrite decide_False.
  2:{ rewrite u64_small by lia. by vm_compute; lia. }
  do 2 run1. cbn [fst snd].
  match goal with
  | |- context [bind (set_prom_bootparam _ _ ?o ?s) _ ?W] =>
    destruct (set_prom_bootparam_heap host current_machine o s W freq msgs Hprobe)
      as (h' & Hrun & _ & _ & _ & _ & H18 & _)
  end.
  cbv zeta in Hrun, H18. rewrite (bind_run _ _ _ _ _ Hrun). rewrite pure_run.
  cbn [fst snd stderr trace heap].
  unfold argv1_text in H18. rewrite (decide_True (P := loaded > 0)) in H18 by lia.
  cbn [loaderparams kernel_cmdline] in H18.
  rewrite (u32_small off) in H18 by lia.
  assert (fmt_ld loaded = pretty loaded) as Hfmt.
  { unfold fmt_ld, s64. f_equal.
    change (2 ^ 63) with 9223372036854775808 in *.
    change (2 ^ 64) with 18446744073709551616.
    rewrite Z.mod_small by lia. lia. }
  rewrite Hfmt in H18.
  split; [done|]. split; [done|]. split; [by rewrite <- !app_assoc|]. exact H18.
Qed.

End LoaderMore.
Lemma init_boot_param_block_witness :
  cpu_freq_probe null_host = Some (0, ["Failed to open /proc/cpuinfo!"]) /\
  Loongson3.heap
    (Loongson3.init_boot_param null_host demo_machine 0x100020
       (Loongson3.set_boot_params_p 0x1000e0 (fresh_world (512 * Loongson3.MiB)))).2
    !! (0x100020 + Loongson3.offsetof_efi_loongson_smbios)
  = Some (Loongson3.Obj_smbios_vers 1).
Proof.
  split; [reflexivity|].
  refine (proj1 (proj2 (init_boot_param_block null_host demo_machine
    (Loongson3.set_boot_params_p 0x1000e0 (fresh_world (512 * Loongson3.MiB)))
    0x100020 0 ["Failed to open /proc/cpuinfo!"] _ _ _))).
  - reflexivity.
  - lia.
  - reflexivity.
Defined.

Lemma set_prom_bootparam_argv_witness :
  cpu_freq_probe null_host = Some (0, ["Failed to open /proc/cpuinfo!"]) /\
  exists p0 p1 stored,
    Loongson3.heap
      (Loongson3.set_prom_bootparam null_host demo_machine 0 0
         (fresh_world (512 * Loongson3.MiB))).2 !! (0x10000 + (p1 - Loongson3.BOOTPARAM_ADDR))
      = Some (Loongson3.Obj_chars stored) /\
    p0 = 0x8ff00010 /\ p1 = 0x8ff00012.
Proof.
  split; [reflexivity|].
  destruct (set_prom_bootparam_argv null_host demo_machine 0 0
              (fresh_world (512 * Loongson3.MiB)) 0 ["Failed to open /proc/cpuinfo!"])
    as (p0 & p1 & stored & H0 & H4 & _ & _ & H18 & _).
  - reflexivity.
  - vm_compute. discriminate.
  - exists p0, p1, stored.
    assert (p0 = 0x8ff00010) as Hp0 by (vm_compute in H0; congruence).
    assert (p1 = 0x8ff00012) as Hp1 by (vm_compute in H4; congruence).
    split; [exact H18|]. split; assumption.
Defined.

Lemma set_prom_bootparam_extent_witness :
  cpu_freq_probe null_host = Some (0, ["Failed to open /proc/cpuinfo!"]) /\
  Loongson3.boot_params_p
    (Loongson3.set_prom_bootparam null_host demo_machine 0 0
       (fresh_world (512 * Loongson3.MiB))).2 <= 0x10000 + 0x100000.
Proof.
  split; [reflexivity|].
  refine (proj2 (proj1 (proj2 (proj2 (proj2 (proj2 (proj2
    (set_prom_bootparam_extent null_host demo_machine 0 0
       (fresh_world (512 * Loongson3.MiB)) 0 ["Failed to open /proc/cpuinfo!"]
       _ _))))))) _).
  - reflexivity.
  - vm_compute. discriminate.
  - vm_compute. discriminate.
Defined.

Lemma set_prom_bootparam_environ_witness :
  Loongson3.environ
    (Loongson3.set_prom_bootparam null_host demo_machine 0 0
       (fresh_world (768 * Loongson3.MiB))).2 !! "highmemsize" = Some "512".
Proof.
  refine (proj1 (proj2 (set_prom_bootparam_environ null_host demo_machine 0 0
    (fresh_world (768 * Loongson3.MiB)) _))).
  vm_compute. split; [discriminate|reflexivity].
Defined.

Lemma load_kernel_bad_kernel_witness :
  (Loongson3.load_kernel demo_host demo_machine "nokernel"
     (fresh_world (512 * Loongson3.MiB))).1 = Loongson3.Exit 1.
Proof.
  refine (proj1 (load_kernel_bad_kernel demo_host demo_machine
    (fresh_world (512 * Loongson3.MiB)) "nokernel" (-1) 0 0 0 _ _)).
  - reflexivity.
  - lia.
Defined.

Lemma load_kernel_initrd_unreadable_witness :
  Loongson3.stderr
    (Loongson3.load_kernel (initrd_host (-1) 0) demo_machine "vmlinux"
       (ramdisk_world (512 * Loongson3.MiB) "missing.img")).2
  = ["could not load initial ram disk 'missing.img'"].
Proof.
  refine (proj1 (proj2 (load_kernel_initrd_unreadable (initrd_host (-1) 0) demo_machine
    (ramdisk_world (512 * Loongson3.MiB) "missing.img") "vmlinux" "missing.img"
    0x800000 (0xffffffff80200000 - 2^64) 0x200000 0x1000000 _ _ _ _))).
  - reflexivity.
  - reflexivity.
  - lia.
  - reflexivity.
Defined.

Lemma load_kernel_empty_initrd_witness :
  cpu_freq_probe (initrd_host 0 0) = Some (1800000000, []) /\
  Loongson3.heap
    (Loongson3.load_kernel (initrd_host 0 0) demo_machine "vmlinux"
       (ramdisk_world (512 * Loongson3.MiB) "empty.img")).2
    !! (0x7f0000100000 + 18)
  = Some (Loongson3.Obj_chars "console=ttyS0").
Proof.
  split; [reflexivity|].
  refine (proj2 (proj2 (proj2 (load_kernel_empty_initrd (initrd_host 0 0) demo_machine
    (ramdisk_world (512 * Loongson3.MiB) "empty.img") "vmlinux" "empty.img"
    0x800000 (0xffffffff80200000 - 2^64) 0x200000 0x1000000 0 1800000000 []
    _ _ _ _ _ _ _ _)))).
  - reflexivity.
  - reflexivity.
  - reflexivity.
  - lia.
  - reflexivity.
  - lia.
  - lia.
  - vm_compute. discriminate.
Defined.

Lemma load_kernel_initrd_load_failed_witness :
  Loongson3.trace
    (Loongson3.load_kernel (initrd_host 0x100000 (-1)) demo_machine "vmlinux"
       (ramdisk_world (512 * Loongson3.MiB) "initrd.img")).2
  = [Loongson3.load_elf "vmlinux";
     Loongson3.load_image_targphys "initrd.img" 0x3ea0000 (512 * Loongson3.MiB - 0x3ea0000)].
Proof.
  refine (proj1 (proj2 (proj2 (load_kernel_initrd_load_failed
    (initrd_host 0x100000 (-1)) demo_machine
    (ramdisk_world (512 * Loongson3.MiB) "initrd.img") "vmlinux" "initrd.img"
    0x800000 (0xffffffff80200000 - 2^64) 0x200000 0x1000000 0x100000
    _ _ _ _ _ _ _ _ _)))).
  - reflexivity.
  - reflexivity.
  - lia.
  - lia.
  - reflexivity.
  - lia.
  - vm_compute. split; [discriminate|reflexivity].
  - vm_compute. discriminate.
  - reflexivity.
Defined.

Lemma load_kernel_initrd_loaded_witness :
  cpu_freq_probe (initrd_host 0x100000 0x100000) = Some (1800000000, []) /\
  Loongson3.heap
    (Loongson3.load_kernel (initrd_host 0x100000 0x100000) demo_machine "vmlinux"
       (ramdisk_world (512 * Loongson3.MiB) "initrd.img")).2
    !! (0x7f0000100000 + 18)
  = Some (Loongson3.Obj_chars
      "rd_start=0xffffffff83ea0000 rd_size=1048576 console=ttyS0").
Proof.
  split; [reflexivity|].
  refine (proj2 (proj2 (proj2 (load_kernel_initrd_loaded
    (initrd_host 0x100000 0x100000) demo_machine
    (ramdisk_world (512 * Loongson3.MiB) "initrd.img") "vmlinux" "initrd.img"
    0x800000 (0xffffffff80200000 - 2^64) 0x200000 0x1000000 0x100000 0x100000
    1800000000 [] _ _ _ _ _ _ _ _ _ _ _ _)))).
  - reflexivity.
  - reflexivity.
  - reflexivity.
  - lia.
  - lia.
  - reflexivity.
  - lia.
  - vm_compute. split; [discriminate|reflexivity].
  - vm_compute. discriminate.
  - vm_compute. discriminate.
  - reflexivity.
  - lia.
Defined.


(** * More on machine initialisation *)

Section MachineMore.
Import Loongson3.
Variable host : Host.
Variable current_machine : MachineState.

(** [mips_loongson3_init] without a kernel, up to the BIOS image: the CPUs,
    the memory regions, the BIOS name and the attempt to load the image. *)
Lemma mips_loongson3_init_bios_start (machine : MachineState) (w : world) :
  256 * MiB <= machine_ram_size machine ->
  machine_kernel_filename machine = None ->
  let name := default LOONGSON3_BIOSNAME (bios_name w) in
  mips_loongson3_init host current_machine machine w =
    bind
      (do (if decide ((bios_load_size host w < 0 \/ bios_load_size host w > BIOS_SIZE)
                      /\ @None string = None /\ host_qtest_enabled host = false) then
             do error_report ("Could not load MIPS bios '" +:+ name +:+ "'") then
             exit 1
           else pure tt) then
       do fw_conf_init host current_machine (machine_ram_size machine) then
       call (rom_add_blob_fixed "fw_conf" Blob_fw_config sizeof_fw_config
               FW_CONF_ADDR))
      (fun _ =>
         do loongson3_isa_init then
         do loongson3_pcie_init host machine then
         if host_serial_hd host 0
         then call (serial_mm_init 0x1fe001e0 115200)
         else pure tt)
      (mk_world (loaderparams w) (fw_config w) (boot_params_p w) (boot_params_buf w)
         (Loongson3.ram_size w) (Some name) (environ w) (heap w) (stderr w)
         (trace w ++ cpu_events (machine_cpu_type machine) 0 (smp_cpus machine)
          ++ memory_events ++ bios_load_events host w)
         (cpus w ++ replicate (smp_cpus machine)
                      (host_cpu_create host (machine_cpu_type machine)))).
Proof.
  intros Hram Hkernel. cbv zeta.
  destruct w as [lprm fwc p0 buf ram bn env h err tr cp].
  unfold mips_loongson3_init. cbv zeta.
  rewrite Hkernel.
  rewrite decide_False by (change (256 * 0x100000) with (256 * MiB); lia).
  run0. rewrite (bind_run _ _ _ _ _ (for_each_cpus _ _ _ _ _)). world_norm.
  do 8 run1. rewrite !bind_assoc.
  unfold bios_load_size, bios_load_events, bios_file. cbn [bios_name].
  unfold memory_events.
  destruct bn as [b|]; cbn [default]; do 2 run1; cbn [default].
  all: destruct (host_qemu_find_file host _) as [f|]; [do 2 run1 | run1].
  all: rewrite ?bind_assoc, <- ?app_assoc; cbn [app]; rewrite ?app_nil_r; reflexivity.
Qed.

Lemma mips_loongson3_init_bios_exit (machine : MachineState) (w : world) :
  256 * MiB <= machine_ram_size machine ->
  machine_kernel_filename machine = None ->
  bios_load_size host w < 0 \/ bios_load_size host w > BIOS_SIZE ->
  host_qtest_enabled host = false ->
  let name := default LOONGSON3_BIOSNAME (bios_name w) in
  mips_loongson3_init host current_machine machine w =
    (Exit 1,
     mk_world (loaderparams w) (fw_config w) (boot_params_p w) (boot_params_buf w)
       (Loongson3.ram_size w) (Some name) (environ w) (heap w)
       (stderr w ++ ["Could not load MIPS bios '" +:+ name +:+ "'"])
       (trace w ++ cpu_events (machine_cpu_type machine) 0 (smp_cpus machine)
        ++ memory_events ++ bios_load_events host w)
       (cpus w ++ replicate (smp_cpus machine)
                    (host_cpu_create host (machine_cpu_type machine)))).
Proof.
  intros Hram Hkernel Hbios Hqtest. cbv zeta.
  rewrite (mips_loongson3_init_bios_start machine w Hram Hkernel). cbv zeta.
  rewrite decide_True by done.
  by do 2 run1.
Qed.

Lemma mips_loongson3_init_bios_ok (machine : MachineState) (w : world)
    (freq : Z) (msgs : list string) :
  cpu_freq_probe host = Some (freq, msgs) ->
  256 * MiB <= machine_ram_size machine ->
  machine_kernel_filename machine = None ->
  0 <= bios_load_size host w <= BIOS_SIZE \/ host_qtest_enabled host = true ->
  let name := default LOONGSON3_BIOSNAME (bios_name w) in
  mips_loongson3_init host current_machine machine w =
    (Ret tt,
     mk_world (loaderparams w)
       (mk_fw_config (machine_ram_size machine) 300000000
          (Z.of_nat (smp_cpus current_machine)) (u32 freq))
       (boot_params_p w) (boot_params_buf w)
       (Loongson3.ram_size w) (Some name) (environ w) (heap w) (stderr w ++ msgs)
       (trace w ++ cpu_events (machine_cpu_type machine) 0 (smp_cpus machine)
        ++ memory_events ++ bios_load_events host w
        ++ fw_conf_events current_machine (machine_ram_size machine)
        ++ device_events host)
       (cpus w ++ replicate (smp_cpus machine)
                    (host_cpu_create host (machine_cpu_type machine)))).
Proof.
  intros Hprobe Hram Hkernel Hbios. cbv zeta.
  rewrite (mips_loongson3_init_bios_start machine w Hram Hkernel). cbv zeta.
  rewrite decide_False.
  2:{ intros ([Hneg|Hbig] & _ & Hq); destruct Hbios as [Hok|Hqt]; (lia || congruence). }
  run1. unfold fw_conf_init. rewrite !bind_assoc. do 7 run1.
  rewrite !bind_assoc.
  rewrite (bind_run _ _ _ _ _ (get_host_cpu_freq_returns _ _ _ _ Hprobe)).
  do 3 run1.
  rewrite (bind_run _ _ _ _ _ (loongson3_isa_init_run _)).
  rewrite (bind_run _ _ _ _ _ (loongson3_pcie_init_run _ _ _)).
  world_norm. cbn [fw_ram_size fw_mem_freq fw_nr_cpus fw_config].
  unfold fw_conf_events, device_events.
  destruct (host_serial_hd host 0); [rewrite call_run | rewrite pure_run].
  all: world_norm; f_equal; f_equal.
  all: rewrite <- ?app_assoc; cbn [app]; rewrite ?app_nil_r; reflexivity.
Qed.

(** X24.  Without a kernel and without a usable BIOS image (none found,
    a load error, or more than [BIOS_SIZE] bytes) the process ends, unless
    the machine runs under qtest: exit status 1 and a message with the BIOS
    name, which is "bios_loongson3.bin" when none was chosen.  The CPUs and
    the memory regions exist by then; the firmware configuration is not
    written and no device is created. *)
Theorem mips_loongson3_init_no_bios (machine : MachineState) (w : world) :
  256 * MiB <= machine_ram_size machine ->
  machine_kernel_filename machine = None ->
  host_qtest_enabled host = false ->
  bios_load_size host w < 0 \/ bios_load_size host w > BIOS_SIZE ->
  let run := mips_loongson3_init host current_machine machine w in
  run.1 = Exit 1 /\
  stderr run.2 =
    stderr w ++ ["Could not load MIPS bios '"
                 +:+ default "bios_loongson3.bin" (bios_name w) +:+ "'"] /\
  fw_config run.2 = fw_config w /\
  trace run.2 =
    trace w ++ cpu_events (machine_cpu_type machine) 0 (smp_cpus machine)
    ++ memory_events ++ bios_load_events host w /\
  length (cpus run.2) = (length (cpus w) + smp_cpus machine)%nat.
Proof.
  intros Hram Hkernel Hqtest Hbios. cbv zeta.
  rewrite (mips_loongson3_init_bios_exit machine w Hram Hkernel Hbios Hqtest).
  cbn [fst snd stderr fw_config trace cpus].
  by rewrite length_app, length_replicate.
Qed.

(** X25.  Without a kernel but with a BIOS image of at most [BIOS_SIZE]
    bytes (or under qtest), on a host where the frequency probe returns,
    initialisation completes.  The firmware configuration then holds the
    machine's RAM size, a memory frequency of 300 MHz, the CPU count and
    the frequency the probe returned; the error output gains only what the
    probe printed; the loader parameters, the environment and host memory
    are untouched; and the calls made are, in order, the CPUs, the memory
    regions, the BIOS image, the firmware configuration and the devices. *)
Theorem mips_loongson3_init_bios (machine : MachineState) (w : world)
    (freq : Z) (msgs : list string) :
  cpu_freq_probe host = Some (freq, msgs) ->
  256 * MiB <= machine_ram_size machine ->
  machine_kernel_filename machine = None ->
  0 <= bios_load_size host w <= BIOS_SIZE \/ host_qtest_enabled host = true ->
  let run := mips_loongson3_init host current_machine machine w in
  run.1 = Ret tt /\
  stderr run.2 = stderr w ++ msgs /\
  fw_config run.2 =
    mk_fw_config (machine_ram_size machine) 300000000
      (Z.of_nat (smp_cpus current_machine)) freq /\
  loaderparams run.2 = loaderparams w /\
  environ run.2 = environ w /\
  heap run.2 = heap w /\
  trace run.2 =
    trace w ++ cpu_events (machine_cpu_type machine) 0 (smp_cpus machine)
    ++ memory_events ++ bios_load_events host w
    ++ fw_conf_events current_machine (machine_ram_size machine)
    ++ device_events host.
Proof.
  intros Hprobe Hram Hkernel Hbios. cbv zeta.
  rewrite (mips_loongson3_init_bios_ok machine w freq msgs Hprobe Hram Hkernel Hbios).
  cbn [fst snd stderr fw_config trace cpus loaderparams environ heap].
  destruct (cpu_freq_probe_range host freq msgs Hprobe) as (Hrange & _).
  unfold INT_MAX in Hrange.
  assert (u32 freq = freq) as ->.
  { apply Z.mod_small. change (2 ^ 32) with 4294967296.
    change (2 ^ 31) with 2147483648 in Hrange. lia. }
  done.
Qed.

(** X26.  After an initialisation without a kernel, the reset handler of
    every CPU, the first one included, is the plain CPU reset: no register
    is seeded and the Status bits are as the CPU core leaves them. *)
Theorem main_cpu_reset_after_bios (machine : MachineState) (w : world) (i : nat) :
  256 * MiB <= machine_ram_size machine ->
  machine_kernel_filename machine = None ->
  0 <= bios_load_size host w <= BIOS_SIZE \/ host_qtest_enabled host = true ->
  kernel_filename (loaderparams w) = None ->
  cpus w = [] ->
  (i < smp_cpus machine)%nat ->
  let booted := (mips_loongson3_init host current_machine machine w).2 in
  let w' := main_cpu_reset host i booted in
  cpus w' !! i =
    Some (cpu_reset host (host_cpu_create host (machine_cpu_type machine))) /\
  (forall j, j <> i -> cpus w' !! j = cpus booted !! j) /\
  length (cpus w') = smp_cpus machine.
Proof.
  intros Hram Hkernel Hbios Hlp Hcpus Hi. cbv zeta.
  rewrite (mips_loongson3_init_bios_start machine w Hram Hkernel). cbv zeta.
  match goal with
  | |- context [(?m ?W).2] =>
    assert (preserves cpus m) as Hc;
      [| assert (preserves loaderparams m) as Hl;
         [| pose proof (Hc W) as HcW; pose proof (Hl W) as HlW;
            set (booted := (m W).2) in * ] ]
  end.
  { repeat preserves_step. }
  { repeat preserves_step. }
  cbn [cpus loaderparams] in HcW, HlW.
  unfold main_cpu_reset. rewrite HcW, HlW, Hcpus, Hlp. cbn [app].
  rewrite lookup_replicate_2 by done.
  unfold set_cpus. cbn [cpus]. rewrite HcW, Hcpus. cbn [app].
  split; [|split].
  - apply list_lookup_insert_eq. by rewrite length_replicate.
  - intros j Hj. by rewrite list_lookup_insert_ne.
  - by rewrite length_insert, length_replicate.
Qed.

(** X27.  A kernel that cannot be loaded ends initialisation with exit
    status 1 after the CPUs and the memory regions were created: the loader
    parameters already name the kernel, but no boot parameters, no boot
    stub and no device exist. *)
Theorem mips_loongson3_init_bad_kernel (machine : MachineState) (w : world)
    (kernel : string) (ksz entry low high : Z) :
  256 * MiB <= machine_ram_size machine ->
  machine_kernel_filename machine = Some kernel ->
  host_load_elf host kernel = (ksz, entry, low, high) ->
  ksz < 0 ->
  let run := mips_loongson3_init host current_machine machine w in
  run.1 = Exit 1 /\
  stderr run.2 =
    stderr w ++ ["could not load kernel '" +:+ kernel +:+ "': "
                 +:+ host_load_elf_strerror host ksz] /\
  trace run.2 =
    trace w ++ cpu_events (machine_cpu_type machine) 0 (smp_cpus machine)
    ++ memory_events ++ [load_elf kernel] /\
  kernel_filename (loaderparams run.2) = Some kernel /\
  lp_ram_size (loaderparams run.2) = machine_ram_size machine /\
  heap run.2 = heap w /\ environ run.2 = environ w /\
  length (cpus run.2) = (length (cpus w) + smp_cpus machine)%nat.
Proof.
  intros Hram Hkernel Helf Hksz. cbv zeta.
  destruct w as [lprm fwc p0 buf ram bn env h err tr cp].
  unfold mips_loongson3_init. cbv zeta.
  rewrite Hkernel.
  rewrite decide_False by (change (256 * 0x100000) with (256 * MiB); lia).
  run0. rewrite (bind_run _ _ _ _ _ (for_each_cpus _ _ _ _ _)). world_norm.
  do 8 run1. rewrite !bind_assoc.
  match goal with
  | |- context [bind (load_kernel _ _ _) ?K ?W] =>
    rewrite (bind_exit_run _ K W _ _
               (load_kernel_bad_kernel_run host current_machine W kernel _ _ _ _ Helf Hksz))
  end.
  world_norm. cbn [fst snd stderr trace loaderparams kernel_filename lp_ram_size
                   heap environ cpus].
  unfold memory_events. rewrite <- !app_assoc. cbn [app].
  by rewrite length_app, length_replicate.
Qed.

End MachineMore.
Lemma mips_loongson3_init_no_bios_witness :
  Loongson3.stderr
    (Loongson3.mips_loongson3_init (bios_host false 0) (bios_machine 2) (bios_machine 2)
       (fresh_world (512 * Loongson3.MiB))).2
  = ["Could not load MIPS bios 'bios_loongson3.bin'"].
Proof.
  refine (proj1 (proj2 (mips_loongson3_init_no_bios (bios_host false 0) (bios_machine 2)
    (bios_machine 2) (fresh_world (512 * Loongson3.MiB)) _ _ _ _))).
  - vm_compute. discriminate.
  - reflexivity.
  - reflexivity.
  - left. vm_compute. reflexivity.
Defined.

Lemma mips_loongson3_init_bios_witness :
  cpu_freq_probe (bios_host true 0x100000) = Some (1800000000, []) /\
  Loongson3.fw_config
    (Loongson3.mips_loongson3_init (bios_host true 0x100000) (bios_machine 2)
       (bios_machine 2) (fresh_world (512 * Loongson3.MiB))).2
  = Loongson3.mk_fw_config (512 * Loongson3.MiB) 300000000 2 1800000000.
Proof.
  split; [reflexivity|].
  refine (proj1 (proj2 (proj2 (mips_loongson3_init_bios (bios_host true 0x100000)
    (bios_machine 2) (bios_machine 2) (fresh_world (512 * Loongson3.MiB))
    1800000000 [] _ _ _ _)))).
  - reflexivity.
  - vm_compute. discriminate.
  - reflexivity.
  - left. vm_compute. split; discriminate.
Defined.

Lemma main_cpu_reset_after_bios_witness :
  Loongson3.cpus
    (Loongson3.main_cpu_reset (bios_host true 0x100000) 0
       (Loongson3.mips_loongson3_init (bios_host true 0x100000) (bios_machine 2)
          (bios_machine 2) (fresh_world (512 * Loongson3.MiB))).2) !! 0%nat
  = Some (mips_cpu_reset idle_cpu).
Proof.
  refine (proj1 (main_cpu_reset_after_bios (bios_host true 0x100000) (bios_machine 2)
    (bios_machine 2) (fresh_world (512 * Loongson3.MiB)) 0 _ _ _ _ _ _)).
  - vm_compute. discriminate.
  - reflexivity.
  - left. vm_compute. split; discriminate.
  - reflexivity.
  - reflexivity.
  - simpl. lia.
Defined.

Lemma mips_loongson3_init_bad_kernel_witness :
  (Loongson3.mips_loongson3_init demo_host bad_kernel_machine bad_kernel_machine
     (fresh_world (512 * Loongson3.MiB))).1 = Loongson3.Exit 1.
Proof.
  refine (proj1 (mips_loongson3_init_bad_kernel demo_host bad_kernel_machine
    bad_kernel_machine (fresh_world (512 * Loongson3.MiB)) "nokernel" (-1) 0 0 0
    _ _ _ _)).
  - vm_compute. discriminate.
  - reflexivity.
  - reflexivity.
  - lia.
Defined.

Lemma set_prom_bootparam_memory_map_witness :
  exists low high,
    Loongson3.environ
      (Loongson3.set_prom_bootparam null_host demo_machine 0 0
         (fresh_world (768 * Loongson3.MiB))).2 !! "memsize"
      = Some (pretty (low + 16)) /\
    low + 16 + high = 768.
Proof.
  destruct (set_prom_bootparam_memory_map null_host demo_machine 0 0
              (fresh_world (768 * Loongson3.MiB)))
    as (low & high & _ & _ & _ & Hm & _ & Hsum & _).
  - vm_compute. discriminate.
  - vm_compute. split; [discriminate|reflexivity].
  - vm_compute. lia.
  - exists low, high. split; [exact Hm | exact Hsum].
Defined.
